(** * Azure Data Studio fragments: notebook Python installer, worker factory,
      process shim

    A shallow embedding of

    - [extensions/notebook/src/jupyter/jupyterServerInstallation.ts]
      (class [JupyterServerInstallation], and the class
      [DataUriEditorInput] that follows it in the file),
    - the web-worker factory ([getWorker], [DefaultWorkerFactory],
      [WebWorker]),
    - [src/vs/base/common/process.ts] ([safeProcess] and its exports),

    together with the properties the specification states about them and
    further properties read off the code.

    Conventions.  Objects become records, callbacks become handlers of an
    event-driven step function, the outside world (file system, HTTP
    transport, host UI, configuration store) is a record the handlers read
    and a chronological list of effects they append to.  Host libraries that
    are not part of the repository ([path], [fs], [request], [decompress])
    appear as a small interface whose answers the environment supplies. *)

From Stdlib Require Import ZArith NArith Ascii String List Bool Lia.
From Stdlib Require Import Floats.SpecFloat.
From stdpp Require Import base option list strings pretty gmap.

Local Open Scope string_scope.
Local Open Scope list_scope.

(** ** JavaScript values *)

(** The values that flow through positions typed [any] in the sources:
    rejection reasons, error-callback arguments, [fs] errors. *)
Inductive any : Type :=
  | undefined
  | null
  | boolean (b : bool)
  | number (n : Z)
  | str (s : string)
  | error (code : string) (message : string)   (* an [Error], with its [code] *)
  | object (ref : N).                           (* any other object, e.g. a DOM event *)

(** JavaScript truthiness, as tested by [if (v)], [v || w] and [v ? a : b]. *)
Definition truthy (v : any) : bool :=
  match v with
  | undefined | null => false
  | boolean b => b
  | number n => negb (n =? 0)%Z
  | str s => negb (String.eqb s "")
  | error _ _ | object _ => true
  end.

(** A string-typed optional parameter or map entry: absent and the empty
    string are both falsy. *)
Definition truthy_str (o : option string) : bool :=
  match o with
  | Some s => negb (String.eqb s "")
  | None => false
  end.

(** [a + b] when [b] may be [undefined]: string concatenation prints it. *)
Definition to_str (o : option string) : string :=
  match o with
  | Some s => s
  | None => "undefined"
  end.

(** A promise settles once; later [resolve]/[reject] calls are ignored. *)
Inductive promise : Type :=
  | Pending
  | Resolved
  | Rejected (reason : any).

Definition resolve (p : promise) : promise :=
  match p with
  | Pending => Resolved
  | _ => p
  end.

Definition reject (reason : any) (p : promise) : promise :=
  match p with
  | Pending => Rejected reason
  | _ => p
  end.

Definition settled (p : promise) : bool :=
  match p with
  | Pending => false
  | _ => true
  end.

(** ** Strings *)

Fixpoint starts_with (pre s : string) : bool :=
  match pre, s with
  | EmptyString, _ => true
  | String a pre', String b s' => Ascii.eqb a b && starts_with pre' s'
  | String _ _, EmptyString => false
  end.

Fixpoint contains (sub s : string) : bool :=
  starts_with sub s ||
  match s with
  | EmptyString => false
  | String _ s' => contains sub s'
  end.

(** The text [String.prototype.replace] puts in for a match of a string
    pattern (there are no captures): in the replacement, [$$] stands for a
    dollar sign, [$&] for the matched text, [$`] for the text before the
    match and [$'] for the text after it; any other [$] stands for itself. *)
Fixpoint substitution (rep matched before after : string) : string :=
  match rep with
  | EmptyString => EmptyString
  | String c rest =>
      if Ascii.eqb c "$"%char then
        match rest with
        | EmptyString => String c EmptyString
        | String d rest' =>
            if Ascii.eqb d "$"%char then
              String d (substitution rest' matched before after)
            else if Ascii.eqb d "&"%char then
              matched +:+ substitution rest' matched before after
            else if Ascii.eqb d "`"%char then
              before +:+ substitution rest' matched before after
            else if Ascii.eqb d "'"%char then
              after +:+ substitution rest' matched before after
            else String c (substitution rest matched before after)
        end
      else String c (substitution rest matched before after)
  end.

(** [replace] on what is left of the text, [before] being what was passed
    over. *)
Fixpoint replace_from (before pat rep s : string) : string :=
  if starts_with pat s then
    let after := String.substring (String.length pat) (String.length s) s in
    substitution rep pat before after +:+ after
  else
    match s with
    | EmptyString => EmptyString
    | String c s' =>
        String c (replace_from (before +:+ String c EmptyString) pat rep s')
    end.

(** [s.replace(pat, rep)] for a string pattern and a string replacement:
    the first occurrence only. *)
Definition replace (pat rep s : string) : string :=
  replace_from EmptyString pat rep s.

(** ** The host's [path] module *)

Module Path.

(** What the sources use of [path]: [join] and [delimiter]. *)
Record lib : Type := {
  join : list string -> string;
  delimiter : string
}.

Definition chars := list ascii.

Definition is_posix_sep (c : ascii) : bool := Ascii.eqb c "/"%char.
Definition is_win_sep (c : ascii) : bool :=
  Ascii.eqb c "/"%char || Ascii.eqb c "\"%char.

(** Cut a path at its separators; empty pieces are kept. *)
Fixpoint segments (is_sep : ascii -> bool) (p : chars) : list chars :=
  match p with
  | [] => [[]]
  | c :: p' =>
      if is_sep c then [] :: segments is_sep p'
      else match segments is_sep p' with
           | [] => [[c]]
           | s :: ss => (c :: s) :: ss
           end
  end.

Definition dot : chars := ["."%char].
Definition dotdot : chars := ["."%char; "."%char].

Definition chars_eqb (a b : chars) : bool :=
  String.eqb (string_of_list_ascii a) (string_of_list_ascii b).

(** [normalizeString]: drop empty and [.] pieces, let [..] cancel the piece
    before it, keep a leading run of [..] only when [allowAboveRoot].
    [acc] holds the pieces kept so far, last one first. *)
Fixpoint normalize_segments (allowAboveRoot : bool) (acc : list chars)
    (segs : list chars) : list chars :=
  match segs with
  | [] => rev acc
  | s :: segs' =>
      if chars_eqb s [] || chars_eqb s dot then
        normalize_segments allowAboveRoot acc segs'
      else if chars_eqb s dotdot then
        match acc with
        | last :: acc' =>
            if chars_eqb last dotdot then
              normalize_segments allowAboveRoot
                (if allowAboveRoot then dotdot :: acc else acc) segs'
            else normalize_segments allowAboveRoot acc' segs'
        | [] =>
            normalize_segments allowAboveRoot
              (if allowAboveRoot then [dotdot] else []) segs'
        end
      else normalize_segments allowAboveRoot (s :: acc) segs'
  end.

Fixpoint intercalate (sep : chars) (segs : list chars) : chars :=
  match segs with
  | [] => []
  | [s] => s
  | s :: segs' => s ++ sep ++ intercalate sep segs'
  end.

Definition normalizeString (is_sep : ascii -> bool) (sep : chars)
    (allowAboveRoot : bool) (p : chars) : chars :=
  intercalate sep (normalize_segments allowAboveRoot [] (segments is_sep p)).

Definition starts_with_sep (is_sep : ascii -> bool) (p : chars) : bool :=
  match p with
  | c :: _ => is_sep c
  | [] => false
  end.

Definition ends_with_sep (is_sep : ascii -> bool) (p : chars) : bool :=
  starts_with_sep is_sep (rev p).

(** [join] first glues the non-empty arguments with the separator. *)
Definition glue (sep : chars) (args : list string) : chars :=
  intercalate sep
    (filter (fun a => negb (chars_eqb a []))
            (map list_ascii_of_string args)).

(** *** POSIX *)

Definition posix_normalize (p : chars) : chars :=
  match p with
  | [] => dot
  | _ =>
      let isAbsolute := starts_with_sep is_posix_sep p in
      let trailing := ends_with_sep is_posix_sep p in
      let body := normalizeString is_posix_sep ["/"%char] (negb isAbsolute) p in
      match body with
      | [] => if isAbsolute then ["/"%char]
              else if trailing then ["."%char; "/"%char] else dot
      | _ =>
          let body' := if trailing then body ++ ["/"%char] else body in
          if isAbsolute then "/"%char :: body' else body'
      end
  end.

Definition posix_join (args : list string) : string :=
  string_of_list_ascii (posix_normalize (glue ["/"%char] args)).

Definition posix : lib := {| join := posix_join; delimiter := ":" |}.

(** *** Windows *)

Definition bs : ascii := "\"%char.

Definition is_device_letter (c : ascii) : bool :=
  let n := nat_of_ascii c in
  (((65 <=? n) && (n <=? 90)) || ((97 <=? n) && (n <=? 122)))%nat.

Fixpoint take_while (f : ascii -> bool) (p : chars) : chars :=
  match p with
  | c :: p' => if f c then c :: take_while f p' else []
  | [] => []
  end.

Fixpoint drop_while (f : ascii -> bool) (p : chars) : chars :=
  match p with
  | c :: p' => if f c then drop_while f p' else p
  | [] => []
  end.

Definition nonempty (p : chars) : bool :=
  match p with
  | [] => false
  | _ => true
  end.

(** The root [win32.normalize] recognises in front of a path. *)
Inductive win_root : Type :=
  | UncOnly (server share : chars)                    (* [\\server\share] and nothing else *)
  | Root (device : option chars) (isAbsolute : bool) (rest : chars).

Definition win32_root (p : chars) : win_root :=
  match p with
  | c0 :: c1 :: rest =>
      if is_win_sep c0 then
        if is_win_sep c1 then
          let not_sep := fun c => negb (is_win_sep c) in
          let server := take_while not_sep rest in
          let after_server := drop_while not_sep rest in
          let share_on := drop_while is_win_sep after_server in
          if nonempty server && nonempty after_server && nonempty share_on then
            let share := take_while not_sep share_on in
            match drop_while not_sep share_on with
            | [] => UncOnly server share
            | rest' => Root (Some (bs :: bs :: server ++ bs :: share)) true rest'
            end
          else Root None true p
        else Root None true (c1 :: rest)
      else if is_device_letter c0 && Ascii.eqb c1 ":"%char then
        match rest with
        | c2 :: rest' =>
            if is_win_sep c2 then Root (Some [c0; c1]) true rest'
            else Root (Some [c0; c1]) false rest
        | [] => Root (Some [c0; c1]) false []
        end
      else Root None false p
  | _ => Root None false p
  end.

Definition win32_normalize (p : chars) : chars :=
  match p with
  | [] => dot
  | [c] => if is_posix_sep c then [bs] else [c]
  | _ =>
      match win32_root p with
      | UncOnly server share => bs :: bs :: server ++ bs :: share ++ [bs]
      | Root device isAbsolute rest =>
          let tail := normalizeString is_win_sep [bs] (negb isAbsolute) rest in
          let tail := if negb (nonempty tail) && negb isAbsolute then dot else tail in
          let tail := if nonempty tail && ends_with_sep is_win_sep p
                      then tail ++ [bs] else tail in
          let dev := match device with Some d => d | None => [] end in
          if isAbsolute then dev ++ bs :: tail else dev ++ tail
      end
  end.

(** [win32.join] keeps a joined path from starting with two separators
    unless the first non-empty argument itself looks like a UNC root. *)
Definition looks_unc (first : chars) : bool :=
  match first with
  | c0 :: c1 :: c2 :: _ => is_win_sep c0 && is_win_sep c1 && negb (is_win_sep c2)
  | _ => false
  end.

Definition win32_join (args : list string) : string :=
  let parts := filter (fun a => negb (chars_eqb a []))
                      (map list_ascii_of_string args) in
  match parts with
  | [] => "."
  | first :: _ =>
      let joined := intercalate [bs] parts in
      let joined :=
        if looks_unc first then joined
        else
          let lead := take_while is_win_sep joined in
          if (2 <=? length lead)%nat then bs :: drop_while is_win_sep joined
          else joined in
      string_of_list_ascii (win32_normalize joined)
  end.

Definition win32 : lib := {| join := win32_join; delimiter := ";" |}.

End Path.

(** ** [vs/base/common/process.ts] *)

Module ProcessShim.

(** [IProcess].  [env] is a property bag; [cwd] reads the ambient state of
    the operating-system process, whatever that is. *)
Record IProcess (Os Callback : Type) : Type := {
  platform : string;
  env : gmap string string;
  cwd : Os -> string;
  nextTick : Callback -> Z
}.
Arguments platform {Os Callback} _.
Arguments env {Os Callback} _.
Arguments cwd {Os Callback} _ _.
Arguments nextTick {Os Callback} _ _.

Section Shim.
Context {Os Callback : Type}.

(** Imported from [vs/base/common/platform]. *)
Variables isWindows isMacintosh : bool.
Variable setImmediate : Callback -> Z.

(** [process] is [None] when [typeof process === 'undefined']. *)
Definition safeProcess (process : option (IProcess Os Callback))
    : IProcess Os Callback :=
  match process with
  | None =>
      {| cwd := fun _ => "/";
         env := ∅;
         platform := if isWindows then "win32"
                     else if isMacintosh then "darwin" else "linux";
         nextTick := fun callback => setImmediate callback |}
  | Some p => p
  end.

(** The module's exports. *)
Definition export_cwd process := cwd (safeProcess process).
Definition export_env process := env (safeProcess process).
Definition export_platform process := platform (safeProcess process).
Definition export_nextTick process := nextTick (safeProcess process).

End Shim.

End ProcessShim.

(** ** The web-worker factory *)

Module WorkerFactory.

(** What a function call yields: a value or a thrown exception. *)
Inductive outcome (T : Type) : Type :=
  | Returned (v : T)
  | Threw (e : any).
Arguments Returned {T} v.
Arguments Threw {T} e.

(** A host [Worker], or a promise of one; both are references to host objects. *)
Inductive handle : Type :=
  | AWorker (w : N)
  | APromise (p : N).

(** *** [getWorker] *)

(** [globals.MonacoEnvironment]: [getWorker] is a hook of the embedding
    page, so only its presence is known here. *)
Record MonacoEnvironment : Type := {
  has_getWorker : bool;
  getWorkerUrl : option (string -> string -> string)
}.

Record Location : Type := {
  href : string;          (* String(window.location) *)
  hash : string;
  search : string;
  pathname : string
}.

Record Globals : Type := {
  monacoEnvironment : option MonacoEnvironment;
  require_toUrl : option (string -> string);     (* present iff typeof require === 'function' *)
  location : Location;
  encodeURIComponent : string -> string
}.

(** The host call [getWorker] ends in. *)
Inductive request : Type :=
  | CallGetWorker (workerId label : string)   (* MonacoEnvironment.getWorker(workerId, label) *)
  | NewWorker (url : string)                  (* new Worker(url) *)
  | ThrowError (message : string).

(** [s.substr(0, n)] and [s.substring(0, n)] for an integer [n]: empty when
    [n] is not positive. *)
Definition substr0 (s : string) (n : Z) : string :=
  String.substring 0 (Z.to_nat n) s.

Definition len (s : string) : Z := Z.of_nat (String.length s).

(** [/^(http:)|(https:)|(file:)/.test(s)]: the anchor binds to the first
    alternative only. *)
Definition remote_url (s : string) : bool :=
  starts_with "http:" s || contains "https:" s || contains "file:" s.

Definition getWorker (g : Globals) (workerId label : string) : request :=
  let hook :=
    match monacoEnvironment g with
    | Some env =>
        if has_getWorker env then Some (CallGetWorker workerId label)
        else match getWorkerUrl env with
             | Some url => Some (NewWorker (url workerId label))
             | None => None
             end
    | None => None
    end in
  match hook with
  | Some r => r
  | None =>
      match require_toUrl g with
      | Some toUrl =>
          let workerMain := toUrl ("./" +:+ workerId) in
          let currentUrl := href (location g) in
          let currentOrigin :=
            substr0 currentUrl
              (len currentUrl - len (hash (location g))
               - len (search (location g)) - len (pathname (location g))) in
          if remote_url workerMain
             && negb (String.eqb (substr0 workerMain (len currentOrigin)) currentOrigin)
          then
            let workerBaseUrl :=
              substr0 workerMain (len workerMain - len "vs/base/worker/workerMain.js") in
            let js := "/*" +:+ label +:+ "*/self.MonacoEnvironment={baseUrl: '"
                      +:+ workerBaseUrl +:+ "'};importScripts('" +:+ workerMain
                      +:+ "');/*" +:+ label +:+ "*/" in
            NewWorker ("data:text/javascript;charset=utf-8," +:+ encodeURIComponent g js)
          else NewWorker (workerMain +:+ "#" +:+ label)
      | None =>
          ThrowError "You must define a function MonacoEnvironment.getWorkerUrl or MonacoEnvironment.getWorker"
      end
  end.

(** The host's answer to a [request]: the worker (or promise), or the
    exception the hook or the [Worker] constructor threw. *)
Definition answer (r : request) (host : outcome handle) : outcome handle :=
  match r with
  | ThrowError message => Threw (error "" message)
  | _ => host
  end.

(** *** [WebWorker] and [DefaultWorkerFactory] *)

(** A callback queued with [this.worker.then(...)]. *)
Inductive reaction : Type :=
  | DoPost (msg : string)       (* w => w.postMessage(msg) *)
  | DoListen                    (* the constructor's callback that sets the listeners *)
  | DoTerminate.                (* w => w.terminate() *)

Record WebWorker : Type := {
  id : N;
  worker : option handle;        (* [null] once disposed *)
  creator : nat;                 (* the factory whose [create] built it *)
  onMessageCallback : N;         (* the caller's callbacks, by reference *)
  onErrorCallback : N;
  fulfilled : bool;              (* the worker promise has been fulfilled *)
  queue : list reaction;         (* [then] callbacks waiting for that *)
  listening : bool               (* the listeners are set on the host worker *)
}.

Record DefaultWorkerFactory : Type := {
  _label : option string;
  _webWorkerFailedBeforeError : any
}.

Inductive effect : Type :=
  | PostMessage (w : nat) (msg : string)
  | Terminate (w : nat)
  | LogOnceWebWorkerWarning (err : any)
  | CallOnError (callback : N) (err : any)
  | CallOnMessage (callback : N) (data : any).

(** [++n] on a JavaScript number that holds a natural number: exact below
    2^53, and at 2^53 the sum rounds back to 2^53. *)
Definition incr (n : N) : N :=
  if (n <? 2 ^ 53)%N then (n + 1)%N else n.

(** The heap: every factory and every [WebWorker] built so far, the static
    counter, and what was done to the outside. *)
Record realm : Type := {
  LAST_WORKER_ID : N;
  factories : list DefaultWorkerFactory;
  workers : list WebWorker;
  effects : list effect
}.

Definition initial : realm :=
  {| LAST_WORKER_ID := 0; factories := []; workers := []; effects := [] |}.

(** [new DefaultWorkerFactory(label)] *)
Definition new_factory (label : option string) (r : realm) : realm :=
  {| LAST_WORKER_ID := LAST_WORKER_ID r;
     factories := factories r ++
       [{| _label := label; _webWorkerFailedBeforeError := boolean false |}];
     workers := workers r;
     effects := effects r |}.

Definition set_failed (f : nat) (err : any) (r : realm) : realm :=
  {| LAST_WORKER_ID := LAST_WORKER_ID r;
     factories :=
       match factories r !! f with
       | Some fac =>
           <[f := {| _label := _label fac; _webWorkerFailedBeforeError := err |}]>
             (factories r)
       | None => factories r
       end;
     workers := workers r;
     effects := effects r |}.

Definition emit (e : effect) (r : realm) : realm :=
  {| LAST_WORKER_ID := LAST_WORKER_ID r;
     factories := factories r;
     workers := workers r;
     effects := effects r ++ [e] |}.

Definition set_worker (w : nat) (ww : WebWorker) (r : realm) : realm :=
  {| LAST_WORKER_ID := LAST_WORKER_ID r;
     factories := factories r;
     workers := <[w := ww]> (workers r);
     effects := effects r |}.

(** [DefaultWorkerFactory.create] on the factory [f]; [host] is what the
    host does when asked for the worker.  [None]: [f] is no factory. *)
Definition create (g : Globals) (f : nat) (moduleId : string)
    (onMessageCallback onErrorCallback : N) (host : outcome handle)
    (r : realm) : option (realm * outcome nat) :=
  fac ← factories r !! f;
  let workerId := incr (LAST_WORKER_ID r) in
  let r := {| LAST_WORKER_ID := workerId; factories := factories r;
              workers := workers r; effects := effects r |} in
  if truthy (_webWorkerFailedBeforeError fac) then
    Some (r, Threw (_webWorkerFailedBeforeError fac))
  else
    let label :=
      if truthy_str (_label fac) then to_str (_label fac)
      else "anonymous" +:+ pretty workerId in
    (* new WebWorker(moduleId, workerId, label, ...) *)
    match answer (getWorker g "workerMain.js" label) host with
    | Threw e => Some (r, Threw e)
    | Returned h =>
        (* the constructor queues postMessage(moduleId), then the listeners *)
        let ww := {| id := workerId; worker := Some h; creator := f;
                     onMessageCallback := onMessageCallback;
                     onErrorCallback := onErrorCallback;
                     fulfilled := false;
                     queue := [DoPost moduleId; DoListen];
                     listening := false |} in
        Some ({| LAST_WORKER_ID := workerId; factories := factories r;
                 workers := workers r ++ [ww]; effects := effects r |},
              Returned (length (workers r)))
    end.

Definition react (w : nat) (k : reaction) (r : realm) : realm :=
  match k with
  | DoPost msg => emit (PostMessage w msg) r
  | DoTerminate => emit (Terminate w) r
  | DoListen =>
      match workers r !! w with
      | Some ww =>
          set_worker w
            {| id := id ww; worker := worker ww; creator := creator ww;
               onMessageCallback := onMessageCallback ww;
               onErrorCallback := onErrorCallback ww;
               fulfilled := fulfilled ww; queue := queue ww;
               listening := true |} r
      | None => r
      end
  end.

(** Run [k] now if the worker promise is fulfilled, queue it otherwise. *)
Definition then_ (w : nat) (ww : WebWorker) (k : reaction) (r : realm) : realm :=
  if fulfilled ww then react w k r
  else
    set_worker w
      {| id := id ww; worker := worker ww; creator := creator ww;
         onMessageCallback := onMessageCallback ww;
         onErrorCallback := onErrorCallback ww;
         fulfilled := false; queue := queue ww ++ [k];
         listening := listening ww |} r.

(** The worker promise of [w] is fulfilled: the queued callbacks run in
    the order they were registered. *)
Definition fulfil (w : nat) (r : realm) : option realm :=
  ww ← workers r !! w;
  if fulfilled ww then None
  else
    Some (fold_left (fun r k => react w k r) (queue ww)
            (set_worker w
               {| id := id ww; worker := worker ww; creator := creator ww;
                  onMessageCallback := onMessageCallback ww;
                  onErrorCallback := onErrorCallback ww;
                  fulfilled := true; queue := [];
                  listening := listening ww |} r)).

(** The host worker raises [error] or [messageerror]: the closure built in
    [create] runs. *)
Definition on_error (w : nat) (err : any) (r : realm) : option realm :=
  ww ← workers r !! w;
  if listening ww then
    Some (emit (CallOnError (onErrorCallback ww) err)
            (set_failed (creator ww) err
               (emit (LogOnceWebWorkerWarning err) r)))
  else None.

(** The host worker delivers a message. *)
Definition on_message (w : nat) (data : any) (r : realm) : option realm :=
  ww ← workers r !! w;
  if listening ww then Some (emit (CallOnMessage (onMessageCallback ww) data) r)
  else None.

(** [WebWorker.postMessage] *)
Definition postMessage (w : nat) (msg : string) (r : realm) : option realm :=
  ww ← workers r !! w;
  match worker ww with
  | Some _ => Some (then_ w ww (DoPost msg) r)
  | None => Some r
  end.

(** [WebWorker.dispose] *)
Definition dispose (w : nat) (r : realm) : option realm :=
  ww ← workers r !! w;
  let r := match worker ww with
           | Some _ => then_ w ww DoTerminate r
           | None => r
           end in
  ww ← workers r !! w;
  Some (set_worker w
          {| id := id ww; worker := None; creator := creator ww;
             onMessageCallback := onMessageCallback ww;
             onErrorCallback := onErrorCallback ww;
             fulfilled := fulfilled ww; queue := queue ww;
             listening := listening ww |} r).


(** What can happen to a realm, one action at a time. *)
Inductive action : Type :=
  | NewFactory (label : option string)
  | Create (g : Globals) (f : nat) (moduleId : string)
           (onMessageCallback onErrorCallback : N) (host : outcome handle)
  | Fulfil (w : nat)
  | ErrorEvent (w : nat) (event : N)   (* error or messageerror: the listener gets the Event *)
  | MessageEvent (w : nat) (data : any)
  | Post (w : nat) (msg : string)
  | Dispose (w : nat).

Definition exec (a : action) (r : realm) : option realm :=
  match a with
  | NewFactory label => Some (new_factory label r)
  | Create g f moduleId onM onE host => fst <$> create g f moduleId onM onE host r
  | Fulfil w => fulfil w r
  | ErrorEvent w event => on_error w (object event) r
  | MessageEvent w data => on_message w data r
  | Post w msg => postMessage w msg r
  | Dispose w => dispose w r
  end.

(** Actions that are not enabled are skipped. *)
Fixpoint run (acts : list action) (r : realm) : realm :=
  match acts with
  | [] => r
  | a :: acts' => run acts' (default r (exec a r))
  end.






(** A page that supplies [MonacoEnvironment.getWorker]. *)
Definition hooked : Globals :=
  {| monacoEnvironment := Some {| has_getWorker := true; getWorkerUrl := None |};
     require_toUrl := None;
     location := {| href := "https://example.org/app/index.html";
                    hash := EmptyString; search := EmptyString;
                    pathname := "/app/index.html" |};
     encodeURIComponent := fun s => s |}.

(** *** Vocabulary of the further properties *)

(** The call on the host worker a queued callback makes when it runs. *)
Definition sends (w : nat) (k : reaction) : list effect :=
  match k with
  | DoPost msg => [PostMessage w msg]
  | DoTerminate => [Terminate w]
  | DoListen => []
  end.

(** What the methods of the [WebWorker] [w] look at: is [this.worker] set,
    has the worker promise been fulfilled, and the callbacks waiting. *)
Definition view (w : nat) (r : realm) : option (bool * bool * list reaction) :=
  (fun ww => (bool_decide (is_Some (worker ww)), fulfilled ww, queue ww))
    <$> workers r !! w.

(** A call of [postMessage] or [dispose] on the [WebWorker] [w]. *)
Definition uses (w : nat) (a : action) : bool :=
  match a with
  | Post w' _ | Dispose w' => Nat.eqb w' w
  | _ => false
  end.

(** How the [WebWorker] [w] is wired to its host worker: are the
    listeners set, and the callbacks and the factory they belong to. *)
Definition wiring (w : nat) (r : realm) : option (bool * N * N * nat) :=
  (fun ww => (listening ww, onMessageCallback ww, onErrorCallback ww, creator ww))
    <$> workers r !! w.

Definition sets_listeners (k : reaction) : bool :=
  match k with
  | DoListen => true
  | _ => false
  end.

(** The wiring once a callback has run that sets the listeners or not. *)
Definition listen (b : bool) (x : bool * N * N * nat) : bool * N * N * nat :=
  (x.1.1.1 || b, x.1.1.2, x.1.2, x.2).

End WorkerFactory.

(** ** [jupyterServerInstallation.ts] *)

Module Installer.

(** *** Host and constants *)

(** [utils.Platform] *)
Inductive Platform : Type := Mac | Linux | Windows | Others.

(** What a run is parameterised by: the Node host ([process.platform],
    [path]), the values of [../common/constants] and [../common/utils]
    (neither file is part of the fragment), and the floating-point
    arithmetic of the download progress report. *)
Record Host : Type := {
  process_platform : string;                 (* process.platform *)
  path : Path.lib;
  (* ../common/constants *)
  winPlatform : string;
  pythonBundleVersion : string;
  pythonVersion : string;
  sparkMagicVersion : string;
  notebookConfigKey : string;
  pythonPathConfigKey : string;
  (* ../common/utils *)
  getOSPlatform : Platform;
  getOSPlatformId : string;
  getUserHome : string;
  getErrorMessage : any -> string;
  (* (bytes / (1024 * 1024)).toFixed(2); [None] is NaN *)
  megaBytes : option Z -> string;
  (* received / total >= printThreshold, the threshold after [k] increments *)
  reached : N -> Z -> nat -> bool
}.

Definition isWin (h : Host) : bool :=
  String.eqb (process_platform h) (winPlatform h).

(** The messages, in the default locale. *)
Definition msgInstallPkgProgress := "Notebook dependencies installation is in progress".
Definition msgPythonDownloadComplete := "Python download is complete".
Definition msgPythonDownloadError := "Error while downloading python setup".
Definition msgPythonDownloadPending := "Downloading python package".
Definition msgPythonUnpackPending := "Unpacking python package".
Definition msgPythonDirectoryError := "Error while creating python installation directory".
Definition msgPythonUnpackError := "Error while unpacking python bundle".
Definition msgTaskName := "Installing Notebook dependencies".
Definition msgInstallPkgStart :=
  "Installing Notebook dependencies, see Tasks view for more information".
Definition msgInstallPkgFinish := "Notebook dependencies installation is complete".
Definition msgPythonRunningError :=
  "Cannot overwrite existing Python installation while python is running.".
Definition msgPendingInstallError :=
  "Another Python installation is currently in progress.".
Definition msgDependenciesInstallationFailed (errorMessage : string) : string :=
  "Installing Notebook dependencies failed with error: " +:+ errorMessage.
Definition msgDownloadPython (platform pythonDownloadUrl : string) : string :=
  "Downloading local python for platform: " +:+ platform +:+ " to " +:+ pythonDownloadUrl.

(** *** State *)

(** [azdata.TaskStatus], the members the installer sets. *)
Inductive TaskStatus : Type := InProgress | Succeeded | Failed.

(** Calls into the host, in the order they are made. *)
Inductive effect : Type :=
  | ShowInformationMessage (message : string)
  | ShowErrorMessage (message : string)
  | OutputShow                                            (* outputChannel.show(true) *)
  | AppendLine (line : string)                            (* outputChannel.appendLine *)
  | StartBackgroundOperation (displayName description : string) (isCancelable : bool)
  | UpdateStatus (status : TaskStatus) (message : string)  (* op.updateStatus *)
  | ConfigUpdate (section key value : string)             (* notebookConfig.update(.., Global) *)
  | FsOpen (file : string)                                (* fs.open(file, 'r+', ..) *)
  | FsClose (fd : Z)
  | Mkdirs (dir : string)
  | RequestGet (url : string) (timeout : Z)
  | CreateWriteStream (file : string)
  | RemoveSync (dir : string)
  | Decompress (input output : string)
  | Unlink (file : string)
  | ExecuteStreamedCommand (command : string).

(** The fields of a [JupyterServerInstallation]; [outputChannel] and
    [apiWrapper] are handles on the world below. *)
Record JupyterServerInstallation : Type := {
  extensionPath : string;
  pythonBinPath : string;
  pythonEnvVarPath : string;
  execOptions : gmap string string;          (* execOptions.env *)
  _pythonInstallationPath : string;
  _pythonExecutable : string;
  _pythonPackageDir : string;
  _forceInstall : bool;
  _installInProgress : bool
}.

(** The configuration store: section, then key. *)
Abbreviation store := (gmap string (gmap string string)).

(** One installer instance and the world around it. *)
Record world : Type := {
  this : JupyterServerInstallation;
  process_env : gmap string string;          (* process.env, keys as they are spelled *)
  files : gset string;                       (* the paths fs.existsSync finds *)
  settings : store;
  trace : list effect
}.

Definition existsSync (w : world) (p : string) : bool := bool_decide (p ∈ files w).

Definition emit (e : effect) (w : world) : world :=
  {| this := this w; process_env := process_env w; files := files w;
     settings := settings w; trace := trace w ++ [e] |}.

Definition with_this (i : JupyterServerInstallation) (w : world) : world :=
  {| this := i; process_env := process_env w; files := files w;
     settings := settings w; trace := trace w |}.

Definition with_files (fs : gset string) (w : world) : world :=
  {| this := this w; process_env := process_env w; files := fs;
     settings := settings w; trace := trace w |}.

Definition with_settings (s : store) (w : world) : world :=
  {| this := this w; process_env := process_env w; files := files w;
     settings := s; trace := trace w |}.

Definition set_installInProgress (b : bool) (w : world) : world :=
  let i := this w in
  with_this
    {| extensionPath := extensionPath i; pythonBinPath := pythonBinPath i;
       pythonEnvVarPath := pythonEnvVarPath i; execOptions := execOptions i;
       _pythonInstallationPath := _pythonInstallationPath i;
       _pythonExecutable := _pythonExecutable i;
       _pythonPackageDir := _pythonPackageDir i;
       _forceInstall := _forceInstall i; _installInProgress := b |} w.

(** The last status the background task was given. *)
Fixpoint last_status (t : list effect) : option TaskStatus :=
  match t with
  | [] => None
  | e :: t' =>
      match last_status t' with
      | Some s => Some s
      | None => match e with UpdateStatus s _ => Some s | _ => None end
      end
  end.

(** *** Static helpers *)

Definition getPythonExePath (h : Host) (pythonInstallPath : string) : string :=
  Path.join (path h)
    [pythonInstallPath; pythonBundleVersion h;
     if isWin h then "python.exe" else "bin/python3"].

(** [apiWrapper] may be undefined; a defined one is a handle on the store. *)
Definition getPythonPathSetting (h : Host) (fs : gset string)
    (apiWrapper : option store) : option string :=
  match apiWrapper with
  | Some st =>
      match st !! notebookConfigKey h with
      | Some notebookConfig =>
          match notebookConfig !! pythonPathConfigKey h with
          | Some configPythonPath =>
              if negb (String.eqb configPythonPath "")
                 && bool_decide (configPythonPath ∈ fs)
              then Some configPythonPath
              else None
          | None => None
          end
      | None => None
      end
  | None => None
  end.

Definition isPythonInstalled (h : Host) (fs : gset string)
    (apiWrapper : option store) : bool :=
  match getPythonPathSetting h fs apiWrapper with
  | Some pathSetting =>
      if negb (truthy_str (Some pathSetting)) then false
      else bool_decide (getPythonExePath h pathSetting ∈ fs)
  | None => false
  end.

Definition DefaultPythonLocation (h : Host) : string :=
  Path.join (path h) [getUserHome h; "azuredatastudio-python"].

Definition getPythonInstallPath (h : Host) (fs : gset string)
    (apiWrapper : option store) : string :=
  match getPythonPathSetting h fs apiWrapper with
  | Some userPath =>
      if truthy_str (Some userPath) then userPath else DefaultPythonLocation h
  | None => DefaultPythonLocation h
  end.

Definition getPythonBinPath (h : Host) (fs : gset string)
    (apiWrapper : option store) : string :=
  let pythonBinPathSuffix := if isWin h then "" else "bin" in
  Path.join (path h)
    [getPythonInstallPath h fs apiWrapper; pythonBundleVersion h; pythonBinPathSuffix].

(** *** [configurePackagePaths] *)

(** [process.env] is a map from names as they are spelled.  (Node on
    Windows looks a name up without regard to case; what is stated below
    about single entries of [process.env] is stated off Windows.)  The
    copy made with [Object.assign] is an ordinary object on every host. *)
Definition configurePackagePaths (h : Host) (w : world) : world :=
  let i := this w in
  let pythonSourcePath :=
    Path.join (path h) [_pythonInstallationPath i; pythonBundleVersion h] in
  let pythonPackageDir := Path.join (path h) [pythonSourcePath; "offlinePackages"] in
  let pythonBinPathSuffix := if isWin h then "" else "bin" in
  let pythonExecutable := getPythonExePath h (_pythonInstallationPath i) in
  let pythonBinPath := Path.join (path h) [pythonSourcePath; pythonBinPathSuffix] in
  let pythonEnvVarPath := to_str (process_env w !! "PATH") in
  let delimiter := Path.delimiter (path h) in
  let pythonEnvVarPath :=
    if isWin h then
      let pythonScriptsPath := Path.join (path h) [pythonSourcePath; "Scripts"] in
      pythonScriptsPath +:+ delimiter +:+ pythonEnvVarPath
    else pythonEnvVarPath in
  let pythonEnvVarPath := pythonBinPath +:+ delimiter +:+ pythonEnvVarPath in
  let process_env' :=
    delete "PYTHONHOME" (delete "PYTHONSTARTUP" (delete "PYTHONPATH" (process_env w))) in
  let env := <["PATH" := pythonEnvVarPath]> (delete "Path" process_env') in
  {| this :=
       {| extensionPath := extensionPath i;
          pythonBinPath := pythonBinPath;
          pythonEnvVarPath := pythonEnvVarPath;
          execOptions := env;
          _pythonInstallationPath := _pythonInstallationPath i;
          _pythonExecutable := pythonExecutable;
          _pythonPackageDir := pythonPackageDir;
          _forceInstall := _forceInstall i;
          _installInProgress := _installInProgress i |};
     process_env := process_env';
     files := files w;
     settings := settings w;
     trace := trace w |}.

(** *** The constructor *)

Definition new_JupyterServerInstallation (h : Host) (extensionPath : string)
    (pythonInstallationPath : option string)
    (env : gmap string string) (fs : gset string) (st : store) : world :=
  configurePackagePaths h
    {| this :=
         {| extensionPath := extensionPath;
            pythonBinPath := ""; pythonEnvVarPath := ""; execOptions := ∅;
            _pythonInstallationPath :=
              match pythonInstallationPath with
              | Some p =>
                  if truthy_str (Some p) then p
                  else getPythonInstallPath h fs (Some st)
              | None => getPythonInstallPath h fs (Some st)
              end;
            _pythonExecutable := ""; _pythonPackageDir := "";
            _forceInstall := false;
            _installInProgress := false |};
       process_env := env; files := fs; settings := st; trace := [] |}.

(** *** One call of [startInstallProcess] *)

(** Where the asynchronous control flow of the call is waiting. *)
Inductive cont : Type :=
  | AwaitRunning (forceInstall : bool) (installationPath : option string)
                                      (* await this.isPythonRunning(..) *)
  | AwaitSkipUpdate (value : string)  (* else-branch: await updateConfig() *)
  | TaskQueued                        (* the host has not called [operation] yet *)
  | AwaitPackage                      (* await this.installPythonPackage(op) *)
  | AwaitJupyter                      (* await utils.executeStreamedCommand(installJupyterCommand, ..) *)
  | AwaitSparkMagic                   (* await utils.executeStreamedCommand(installSparkMagic, ..) *)
  | AwaitThenUpdate (value : string)  (* then-callback: await updateConfig() *)
  | Done.

(** What the [async] body has returned. *)
Inductive returned : Type :=
  | NotYet
  | ReturnedRejected (reason : any)   (* return Promise.reject(..), or a throw *)
  | ReturnedReady.                    (* return installReady.promise *)

(** How far the callbacks of [installPythonPackage] have come. *)
Inductive stage : Type :=
  | Idle
  | MakingDir        (* fs.mkdirs called *)
  | Streaming        (* request piped into the write stream *)
  | Unpacking        (* decompress called *)
  | Unlinking        (* fs.unlink called *)
  | Finished.

Record call : Type := {
  at_ : cont;
  ret : returned;
  installReady : promise;                (* new Deferred<void>() *)
  closing : bool;                        (* an fs.close callback is outstanding *)
  (* the closure of installPythonPackage *)
  package : promise;                     (* the promise it returned *)
  download : stage;
  pythonPackagePathLocal : string;
  totalBytes : option Z;                 (* [None]: totalMegaBytes is undefined or NaN *)
  receivedBytes : N;
  printThreshold : nat                   (* increments of 0.1 beyond the first 0.1 *)
}.

(** The promise the caller of [startInstallProcess] holds. *)
Definition outcome (c : call) : promise :=
  match ret c with
  | NotYet => Pending
  | ReturnedRejected reason => Rejected reason
  | ReturnedReady => installReady c
  end.

Definition goto (k : cont) (c : call) : call :=
  {| at_ := k; ret := ret c; installReady := installReady c; closing := closing c;
     package := package c; download := download c;
     pythonPackagePathLocal := pythonPackagePathLocal c;
     totalBytes := totalBytes c; receivedBytes := receivedBytes c;
     printThreshold := printThreshold c |}.

Definition return_ (r : returned) (c : call) : call :=
  {| at_ := at_ c; ret := r; installReady := installReady c; closing := closing c;
     package := package c; download := download c;
     pythonPackagePathLocal := pythonPackagePathLocal c;
     totalBytes := totalBytes c; receivedBytes := receivedBytes c;
     printThreshold := printThreshold c |}.

Definition with_installReady (p : promise) (c : call) : call :=
  {| at_ := at_ c; ret := ret c; installReady := p; closing := closing c;
     package := package c; download := download c;
     pythonPackagePathLocal := pythonPackagePathLocal c;
     totalBytes := totalBytes c; receivedBytes := receivedBytes c;
     printThreshold := printThreshold c |}.

Definition with_closing (b : bool) (c : call) : call :=
  {| at_ := at_ c; ret := ret c; installReady := installReady c; closing := b;
     package := package c; download := download c;
     pythonPackagePathLocal := pythonPackagePathLocal c;
     totalBytes := totalBytes c; receivedBytes := receivedBytes c;
     printThreshold := printThreshold c |}.

Definition with_package (p : promise) (c : call) : call :=
  {| at_ := at_ c; ret := ret c; installReady := installReady c; closing := closing c;
     package := p; download := download c;
     pythonPackagePathLocal := pythonPackagePathLocal c;
     totalBytes := totalBytes c; receivedBytes := receivedBytes c;
     printThreshold := printThreshold c |}.

Definition with_download (s : stage) (c : call) : call :=
  {| at_ := at_ c; ret := ret c; installReady := installReady c; closing := closing c;
     package := package c; download := s;
     pythonPackagePathLocal := pythonPackagePathLocal c;
     totalBytes := totalBytes c; receivedBytes := receivedBytes c;
     printThreshold := printThreshold c |}.

Definition with_progress (total : option Z) (received : N) (threshold : nat)
    (c : call) : call :=
  {| at_ := at_ c; ret := ret c; installReady := installReady c; closing := closing c;
     package := package c; download := download c;
     pythonPackagePathLocal := pythonPackagePathLocal c;
     totalBytes := total; receivedBytes := received; printThreshold := threshold |}.

(** What the environment can do to a call: run one of the callbacks the
    call has registered, or change the file system behind its back. *)
Inductive event : Type :=
  | EvFiles (fs : gset string)          (* the files on disk are now [fs] *)
  | EvOpen (err : any) (fd : Z)         (* fs.open calls back *)
  | EvCloseFd (err : any)               (* fs.close calls back *)
  | EvConfigUpdated (err : option any)  (* notebookConfig.update settles *)
  | EvOperation                         (* the host calls operation(op) *)
  | EvMkdirs (err : any)                (* fs.mkdirs calls back *)
  | EvRequestError (downloadError : any)
  | EvResponse (statusCode : Z) (statusMessage : string) (contentLength : option Z)
  | EvData (length : N)
  | EvClose (removeSyncThrows : option any)
                                        (* the write stream closes; the answer
                                           fs.removeSync gives if it is called *)
  | EvStreamError (downloadError : any) (* 'error' on the write stream *)
  | EvDecompressed (err : option any)   (* the decompress promise settles *)
  | EvUnlinked (err : any)              (* fs.unlink calls back *)
  | EvExecuted (err : option any).      (* executeStreamedCommand settles *)

Definition new_call (k : cont) : call :=
  {| at_ := k; ret := NotYet; installReady := Pending; closing := false;
     package := Pending; download := Idle; pythonPackagePathLocal := EmptyString;
     totalBytes := None; receivedBytes := 0%N; printThreshold := 0 |}.

Definition set_request (forceInstall : bool) (installationPath : option string)
    (w : world) : world :=
  let i := this w in
  with_this
    {| extensionPath := extensionPath i; pythonBinPath := pythonBinPath i;
       pythonEnvVarPath := pythonEnvVarPath i; execOptions := execOptions i;
       _pythonInstallationPath :=
         match installationPath with
         | Some p => if truthy_str (Some p) then p else _pythonInstallationPath i
         | None => _pythonInstallationPath i
         end;
       _pythonExecutable := _pythonExecutable i;
       _pythonPackageDir := _pythonPackageDir i;
       _forceInstall := forceInstall;
       _installInProgress := _installInProgress i |} w.

(** The value [isPythonRunning] resolves with, from what [fs.open] reports. *)
Definition isPythonRunning (err : any) : bool :=
  if truthy err then
    match err with
    | error code _ => String.eqb code "EBUSY" || String.eqb code "EPERM"
    | _ => false
    end
  else false.

(** [updateConfig]: the write is requested with the installation path of
    that moment; the store changes when the host reports success. *)
Definition updateConfig (h : Host) (w : world) : world * string :=
  let value := _pythonInstallationPath (this w) in
  (emit (ConfigUpdate (notebookConfigKey h) (pythonPathConfigKey h) value) w, value).

Definition write_setting (h : Host) (value : string) (w : world) : world :=
  let section := default ∅ (settings w !! notebookConfigKey h) in
  with_settings
    (<[notebookConfigKey h := <[pythonPathConfigKey h := value]> section]> (settings w)) w.

Definition quote : string := String "034"%char EmptyString.

Definition packageName (h : Host) : string :=
  replace "#extension" (if isWin h then "zip" else "tar.gz")
    (replace "#bundleversion" (pythonBundleVersion h)
       (replace "#pythonversion" (pythonVersion h)
          (replace "#platform" (getOSPlatformId h)
             "python-#pythonversion-#platform-#bundleversion.#extension"))).

Definition pythonDownloadUrl (h : Host) : string :=
  match getOSPlatform h with
  | Windows => "https://go.microsoft.com/fwlink/?linkid=2074021"
  | Mac => "https://go.microsoft.com/fwlink/?linkid=2065976"
  | _ => "https://go.microsoft.com/fwlink/?linkid=2065975"
  end.

Abbreviation state := (world * call)%type.

Definition say (e : effect) (s : state) : state := (emit e s.1, s.2).

Definition reject_package (reason : any) (s : state) : state :=
  (s.1, with_package (reject reason (package s.2)) s.2).

(** The [catch] callback of the background operation. *)
Definition fail (h : Host) (err : any) (s : state) : state :=
  let errorMsg := msgDependenciesInstallationFailed (getErrorMessage h err) in
  let s := say (UpdateStatus Failed errorMsg) s in
  let s := say (ShowErrorMessage errorMsg) s in
  (set_installInProgress false s.1,
   goto Done (with_installReady (reject (str errorMsg) (installReady s.2)) s.2)).

(** The [then] callback of the background operation, up to its [await]. *)
Definition then_update (h : Host) (s : state) : state :=
  let (w, value) := updateConfig h s.1 in
  (w, goto (AwaitThenUpdate value) s.2).

(** The end of [installDependencies]. *)
Definition finish (h : Host) (s : state) : state :=
  let s := say (AppendLine msgInstallPkgFinish) s in
  let s := say (UpdateStatus Succeeded msgInstallPkgFinish) s in
  let s := say (ShowInformationMessage msgInstallPkgFinish) s in
  then_update h s.

Definition installSparkMagic (h : Host) (s : state) : state :=
  if isWin h then
    let dir := _pythonPackageDir (this s.1) in
    let sparkWheel :=
      Path.join (path h)
        [dir; "sparkmagic-" +:+ sparkMagicVersion h +:+ "-py3-none-any.whl"] in
    let installSparkMagic :=
      quote +:+ _pythonExecutable (this s.1) +:+ quote
      +:+ " -m pip install --no-index " +:+ quote +:+ sparkWheel +:+ quote
      +:+ " --find-links " +:+ quote +:+ dir +:+ quote
      +:+ " --no-warn-script-location" in
    let s := say OutputShow s in
    let s := say (AppendLine "Installing SparkMagic...") s in
    let s := say (ExecuteStreamedCommand installSparkMagic) s in
    (s.1, goto AwaitSparkMagic s.2)
  else finish h s.

Definition installJupyterProsePackage (h : Host) (s : state) : state :=
  if isWin h then
    let dir := _pythonPackageDir (this s.1) in
    let requirements := Path.join (path h) [dir; "requirements.txt"] in
    let installJupyterCommand :=
      quote +:+ _pythonExecutable (this s.1) +:+ quote
      +:+ " -m pip install --no-index -r " +:+ quote +:+ requirements +:+ quote
      +:+ " --find-links " +:+ quote +:+ dir +:+ quote
      +:+ " --no-warn-script-location" in
    let s := say OutputShow s in
    let s := say (AppendLine "Installing required packages to run Notebooks...") s in
    let s := say (ExecuteStreamedCommand installJupyterCommand) s in
    (s.1, goto AwaitJupyter s.2)
  else installSparkMagic h s.

(** [installDependencies] after [await this.installPythonPackage(..)]. *)
Definition after_package (h : Host) (s : state) : state :=
  let s := say (AppendLine msgPythonDownloadComplete) s in
  let s := say (UpdateStatus InProgress msgPythonDownloadComplete) s in
  installJupyterProsePackage h s.

(** [installPythonPackage] up to the first callback. *)
Definition installPythonPackage (h : Host) (s : state) : state :=
  let dir := _pythonInstallationPath (this s.1) in
  let s := say (UpdateStatus InProgress
                  (msgDownloadPython (getOSPlatformId h) (pythonDownloadUrl h))) s in
  let s := say (Mkdirs dir) s in
  let c := s.2 in
  (s.1,
   {| at_ := AwaitPackage; ret := ret c; installReady := installReady c;
      closing := closing c; package := Pending; download := MakingDir;
      pythonPackagePathLocal := dir +:+ "/" +:+ packageName h;
      totalBytes := None; receivedBytes := 0%N; printThreshold := 0 |}).

(** [installDependencies] up to its first [await]. *)
Definition installDependencies (h : Host) (s : state) : state :=
  if negb (existsSync s.1 (_pythonExecutable (this s.1))) || _forceInstall (this s.1)
  then
    let s := say (ShowInformationMessage msgInstallPkgStart) s in
    let s := say OutputShow s in
    let s := say (AppendLine msgInstallPkgProgress) s in
    let s := say (UpdateStatus InProgress msgInstallPkgProgress) s in
    installPythonPackage h s
  else then_update h s.

(** [startInstallProcess] up to [await this.isPythonRunning(..)]. *)
Definition startInstallProcess (h : Host) (forceInstall : bool)
    (installationPath : option string) (w : world) : state :=
  let pythonInstallPath :=
    match installationPath with
    | Some p => if truthy_str (Some p) then p else _pythonInstallationPath (this w)
    | None => _pythonInstallationPath (this w)
    end in
  (emit (FsOpen (getPythonExePath h pythonInstallPath)) w,
   new_call (AwaitRunning forceInstall installationPath)).

(** [startInstallProcess] from the guards to its next [await] or [return]. *)
Definition guarded_install (h : Host) (forceInstall : bool)
    (installationPath : option string) (isPythonRunning : bool) (s : state) : state :=
  if isPythonRunning then
    (s.1, goto Done (return_ (ReturnedRejected (str msgPythonRunningError)) s.2))
  else if _installInProgress (this s.1) then
    (s.1, goto Done (return_ (ReturnedRejected (str msgPendingInstallError)) s.2))
  else
    let w := set_installInProgress true s.1 in
    let w := set_request forceInstall installationPath w in
    let w := configurePackagePaths h w in
    if negb (existsSync w (_pythonExecutable (this w))) || _forceInstall (this w)
    then
      (emit (StartBackgroundOperation msgTaskName msgTaskName false) w,
       goto TaskQueued (return_ ReturnedReady s.2))
    else
      let (w, value) := updateConfig h w in
      (w, goto (AwaitSkipUpdate value) s.2).

(** *** The callbacks of [installPythonPackage] *)

Definition progress_line (h : Host) (received total : option Z) : string :=
  msgPythonDownloadPending +:+ " (" +:+
  match received with
  | Some r => megaBytes h (Some r)
  | None => "0"
  end +:+ " / " +:+ megaBytes h total +:+ " MB)".

Definition on_mkdirs (h : Host) (err : any) (s : state) : state :=
  let s :=
    if truthy err then
      reject_package err (say (UpdateStatus InProgress msgPythonDirectoryError) s)
    else s in
  let s := say (RequestGet (pythonDownloadUrl h) 20000) s in
  let s := say (CreateWriteStream (pythonPackagePathLocal s.2)) s in
  (s.1, with_download Streaming (with_progress None 0%N 0 s.2)).

Definition on_download_error (downloadError : any) (s : state) : state :=
  reject_package downloadError (say (UpdateStatus InProgress msgPythonDownloadError) s).

Definition on_response (h : Host) (statusCode : Z) (statusMessage : string)
    (contentLength : option Z) (s : state) : state :=
  let s :=
    if negb (statusCode =? 200)%Z then
      reject_package (str statusMessage)
        (say (UpdateStatus InProgress msgPythonDownloadError) s)
    else s in
  let s := say (AppendLine (progress_line h None contentLength)) s in
  (s.1, with_progress contentLength (receivedBytes s.2) (printThreshold s.2) s.2).

Definition on_data (h : Host) (length : N) (s : state) : state :=
  let received := (receivedBytes s.2 + length)%N in
  let c := with_progress (totalBytes s.2) received (printThreshold s.2) s.2 in
  match totalBytes c with
  | Some total =>
      if negb (total =? 0)%Z && reached h received total (printThreshold c) then
        (emit (AppendLine (progress_line h (Some (Z.of_N received)) (Some total))) s.1,
         with_progress (Some total) received (S (printThreshold c)) c)
      else (s.1, c)
  | None => (s.1, c)
  end.

Definition on_close (h : Host) (removeSyncThrows : option any) (s : state) : state :=
  let s := say (AppendLine msgPythonUnpackPending) s in
  let dir := _pythonInstallationPath (this s.1) in
  let pythonSourcePath := Path.join (path h) [dir; pythonBundleVersion h] in
  let s :=
    if existsSync s.1 pythonSourcePath then
      let s := say (RemoveSync pythonSourcePath) s in
      match removeSyncThrows with
      | Some err =>
          reject_package err (say (UpdateStatus InProgress msgPythonUnpackError) s)
      | None => s
      end
    else s in
  let s := say (Decompress (pythonPackagePathLocal s.2) dir) s in
  (s.1, with_download Unpacking s.2).

Definition on_decompressed (err : option any) (s : state) : state :=
  match err with
  | None =>
      let s := say (Unlink (pythonPackagePathLocal s.2)) s in
      (s.1, with_download Unlinking (with_package (resolve (package s.2)) s.2))
  | Some err =>
      let s := reject_package err (say (UpdateStatus InProgress msgPythonUnpackError) s) in
      (s.1, with_download Finished s.2)
  end.

Definition on_unlinked (err : any) (s : state) : state :=
  let s :=
    if truthy err then
      reject_package err (say (UpdateStatus InProgress msgPythonUnpackError) s)
    else s in
  (s.1, with_download Finished s.2).

(** Once a callback has run to its end, the code waiting on the package
    promise runs if the promise has just been settled. *)
Definition settle_package (h : Host) (s : state) : state :=
  match at_ s.2 with
  | AwaitPackage =>
      match package s.2 with
      | Pending => s
      | Resolved => after_package h s
      | Rejected err => fail h err s
      end
  | _ => s
  end.

(** *** One event *)

(** [None]: no callback of this call is registered for the event. *)
Definition step (h : Host) (ev : event) (s : state) : option state :=
  let c := s.2 in
  match ev with
  | EvFiles fs => Some (with_files fs s.1, c)
  | EvOpen err fd =>
      match at_ c with
      | AwaitRunning forceInstall installationPath =>
          let s :=
            if truthy err then s
            else (emit (FsClose fd) s.1, with_closing true c) in
          Some (guarded_install h forceInstall installationPath (isPythonRunning err) s)
      | _ => None
      end
  | EvCloseFd err =>
      if closing c then
        Some (emit (ShowErrorMessage (getErrorMessage h err)) s.1, with_closing false c)
      else None
  | EvConfigUpdated err =>
      match at_ c, err with
      | AwaitSkipUpdate value, None =>
          Some (write_setting h value s.1,
                goto Done (return_ ReturnedReady
                             (with_installReady (resolve (installReady c)) c)))
      | AwaitSkipUpdate _, Some e =>
          Some (s.1, goto Done (return_ (ReturnedRejected e) c))
      | AwaitThenUpdate value, None =>
          Some (set_installInProgress false (write_setting h value s.1),
                goto Done (with_installReady (resolve (installReady c)) c))
      | AwaitThenUpdate _, Some e => Some (fail h e s)
      | _, _ => None
      end
  | EvOperation =>
      match at_ c with
      | TaskQueued => Some (settle_package h (installDependencies h s))
      | _ => None
      end
  | EvMkdirs err =>
      match download c with
      | MakingDir => Some (settle_package h (on_mkdirs h err s))
      | _ => None
      end
  | EvRequestError e | EvStreamError e =>
      match download c with
      | Streaming => Some (settle_package h (on_download_error e s))
      | _ => None
      end
  | EvResponse statusCode statusMessage contentLength =>
      match download c with
      | Streaming =>
          Some (settle_package h (on_response h statusCode statusMessage contentLength s))
      | _ => None
      end
  | EvData length =>
      match download c with
      | Streaming => Some (settle_package h (on_data h length s))
      | _ => None
      end
  | EvClose removeSyncThrows =>
      match download c with
      | Streaming => Some (settle_package h (on_close h removeSyncThrows s))
      | _ => None
      end
  | EvDecompressed err =>
      match download c with
      | Unpacking => Some (settle_package h (on_decompressed err s))
      | _ => None
      end
  | EvUnlinked err =>
      match download c with
      | Unlinking => Some (settle_package h (on_unlinked err s))
      | _ => None
      end
  | EvExecuted err =>
      match at_ c, err with
      | AwaitJupyter, None =>
          Some (installSparkMagic h
                  (say (AppendLine "... Jupyter installation complete.") s))
      | AwaitSparkMagic, None => Some (finish h s)
      | AwaitJupyter, Some e | AwaitSparkMagic, Some e => Some (fail h e s)
      | _, _ => None
      end
  end.

(** A run: the events the environment delivers, in order. *)
Fixpoint run (h : Host) (evs : list event) (s : state) : option state :=
  match evs with
  | [] => Some s
  | ev :: evs' =>
      match step h ev s with
      | Some s' => run h evs' s'
      | None => None
      end
  end.

(** *** Reachable worlds *)

(** Every world an installer instance can be in: built by the constructor,
    then changed by calls of [startInstallProcess] and by the callbacks of
    those calls, in any interleaving. *)
Inductive reachable (h : Host) : world -> Prop :=
  | reach_new extensionPath pythonInstallationPath env fs st :
      reachable h
        (new_JupyterServerInstallation h extensionPath pythonInstallationPath env fs st)
  | reach_call w forceInstall installationPath :
      reachable h w ->
      reachable h (startInstallProcess h forceInstall installationPath w).1
  | reach_step w c ev s' :
      reachable h w ->
      step h ev (w, c) = Some s' ->
      reachable h s'.1.

Definition is_subprocess (e : effect) : bool :=
  match e with
  | ExecuteStreamedCommand _ => true
  | _ => false
  end.

Definition is_download_or_unpack (e : effect) : bool :=
  match e with
  | Mkdirs _ | RequestGet _ _ | CreateWriteStream _
  | RemoveSync _ | Decompress _ _ | Unlink _ => true
  | _ => false
  end.

Definition is_decompress (e : effect) : bool :=
  match e with
  | Decompress _ _ => true
  | _ => false
  end.

(** *** What the callbacks preserve *)

(** The installation path and the three paths derived from it. *)
Definition paths_of (w : world) : string * string * string * string :=
  (_pythonInstallationPath (this w), _pythonExecutable (this w),
   pythonBinPath (this w), _pythonPackageDir (this w)).

Definition paths_configured (h : Host) (w : world) : Prop :=
  let root :=
    Path.join (path h) [_pythonInstallationPath (this w); pythonBundleVersion h] in
  _pythonExecutable (this w) = getPythonExePath h (_pythonInstallationPath (this w))
  /\ pythonBinPath (this w)
     = Path.join (path h) [root; if isWin h then EmptyString else "bin"]
  /\ _pythonPackageDir (this w) = Path.join (path h) [root; "offlinePackages"].

(** [w'] comes after [w]: configured paths stay configured, and the trace
    has only grown, by no subprocess call unless the host is Windows. *)
Definition wext (h : Host) (w w' : world) : Prop :=
  (paths_configured h w -> paths_configured h w')
  /\ exists es,
       trace w' = trace w ++ es
       /\ (isWin h = false -> Forall (fun e => is_subprocess e = false) es).

(** Is the call waiting inside the background operation? *)
Definition waiting (k : cont) : bool :=
  match k with
  | TaskQueued | AwaitPackage | AwaitJupyter | AwaitSparkMagic | AwaitThenUpdate _ => true
  | _ => false
  end.

(** The state of a call that took the background-task branch: either the
    operation is under way, the promise pending and the guard set, or the
    operation is over, the promise settled and the guard cleared. *)
Definition in_task (s : state) : Prop :=
  ret s.2 = ReturnedReady
  /\ ((waiting (at_ s.2) = true
       /\ installReady s.2 = Pending
       /\ _installInProgress (this s.1) = true)
      \/ (at_ s.2 = Done
          /\ settled (installReady s.2) = true
          /\ _installInProgress (this s.1) = false)).

(** What the callbacks of [installPythonPackage] leave alone. *)
Definition control (s : state) : cont * returned * promise * bool :=
  (at_ s.2, ret s.2, installReady s.2, _installInProgress (this s.1)).

(** *** Two concrete hosts *)

(** [utils.getErrorMessage] for the two kinds of reason the installer
    meets, an [Error] and a string. *)
Definition errorMessage (err : any) : string :=
  match err with
  | error _ message => message
  | str s => s
  | _ => EmptyString
  end.

Definition two_digits (n : Z) : string :=
  (if (n <? 10)%Z then "0" else EmptyString) +:+ pretty n.

(** [(bytes / (1024 * 1024)).toFixed(2)]: the quotient is exact, so this is
    rounding to the nearest hundredth, ties upwards. *)
Definition toFixed2 (bytes : option Z) : string :=
  match bytes with
  | None => "NaN"
  | Some b =>
      let n := ((2 * 100 * b + 1048576) / (2 * 1048576))%Z in
      (if (b <? 0)%Z then "-" else EmptyString)
      +:+ pretty (Z.abs n / 100)%Z +:+ "." +:+ two_digits (Z.abs n mod 100)%Z
  end.

(** JavaScript numbers are IEEE 754 doubles: 53 bits of precision, rounded
    to nearest, ties to even. *)
Definition double_of_Z (z : Z) : spec_float := binary_normalize 53 1024 z 0 false.

Definition double_div (x y : spec_float) : spec_float := SFdiv 53 1024 x y.
Definition double_add (x y : spec_float) : spec_float := SFadd 53 1024 x y.

(** The literal [0.1]. *)
Definition one_tenth : spec_float := double_div (double_of_Z 1) (double_of_Z 10).

(** [percentage >= printThreshold] in the [data] callback, on doubles:
    the two byte counts are divided by [1024 * 1024] and by one another,
    and the threshold is [0.1] after [k] additions of [0.1]. *)
Definition reached_double (received : N) (total : Z) (k : nat) : bool :=
  let megaBytes x := double_div (double_of_Z x) (double_of_Z (1024 * 1024)) in
  let percentage := double_div (megaBytes (Z.of_N received)) (megaBytes total) in
  let printThreshold := Nat.iter k (fun t => double_add t one_tenth) one_tenth in
  match SFcompare percentage printThreshold with
  | Some Gt | Some Eq => true
  | _ => false
  end.

Definition linux_host : Host :=
  {| process_platform := "linux"; path := Path.posix;
     winPlatform := "win32"; pythonBundleVersion := "0.0.1";
     pythonVersion := "3.6.6"; sparkMagicVersion := "0.12.6.2";
     notebookConfigKey := "notebook"; pythonPathConfigKey := "pythonPath";
     getOSPlatform := Linux; getOSPlatformId := "linux-x64";
     getUserHome := "/home/u"; getErrorMessage := errorMessage;
     megaBytes := toFixed2; reached := reached_double |}.

Definition windows_host : Host :=
  {| process_platform := "win32"; path := Path.win32;
     winPlatform := "win32"; pythonBundleVersion := "0.0.1";
     pythonVersion := "3.6.6"; sparkMagicVersion := "0.12.6.2";
     notebookConfigKey := "notebook"; pythonPathConfigKey := "pythonPath";
     getOSPlatform := Windows; getOSPlatformId := "win-x64";
     getUserHome := "C:\Users\u"; getErrorMessage := errorMessage;
     megaBytes := toFixed2; reached := reached_double |}.

(** *** Vocabulary of the further properties *)

(** The string has no [#]. *)
Fixpoint hash_free (s : string) : bool :=
  match s with
  | EmptyString => true
  | String c s' => negb (Ascii.eqb c "#"%char) && hash_free s'
  end.

Fixpoint dollar_free (s : string) : bool :=
  match s with
  | EmptyString => true
  | String c s' => negb (Ascii.eqb c "$"%char) && dollar_free s'
  end.

(** The installation path the configuration store holds. *)
Definition recorded (h : Host) (w : world) : option string :=
  settings w !! notebookConfigKey h ≫= (.!! pythonPathConfigKey h).

(** What holds of a call at each point of its control flow: until it is
    over its promise is pending and a pending configuration write carries
    the current installation path; once it is over the promise is settled,
    a resolved one has its path in the store, and a failed background
    operation has reported the message it rejected with. *)
Definition call_ok (h : Host) (s : state) : Prop :=
  let dir := _pythonInstallationPath (this s.1) in
  match at_ s.2 with
  | AwaitRunning _ _ => ret s.2 = NotYet /\ installReady s.2 = Pending
  | AwaitSkipUpdate value =>
      ret s.2 = NotYet /\ installReady s.2 = Pending /\ value = dir
  | AwaitThenUpdate value =>
      ret s.2 = ReturnedReady /\ installReady s.2 = Pending /\ value = dir
  | TaskQueued | AwaitPackage | AwaitJupyter | AwaitSparkMagic =>
      ret s.2 = ReturnedReady /\ installReady s.2 = Pending
  | Done =>
      settled (outcome s.2) = true
      /\ (outcome s.2 = Resolved -> recorded h s.1 = Some dir)
      /\ (forall reason, installReady s.2 = Rejected reason ->
          exists err,
            reason = str (msgDependenciesInstallationFailed (getErrorMessage h err))
            /\ UpdateStatus Failed (msgDependenciesInstallationFailed (getErrorMessage h err))
                 ∈ trace s.1
            /\ ShowErrorMessage (msgDependenciesInstallationFailed (getErrorMessage h err))
                 ∈ trace s.1
            /\ _installInProgress (this s.1) = false
            /\ ret s.2 = ReturnedReady)
  end.

(** The installer, the store and the call's promises are untouched. *)
Definition same_installer (s s' : state) : Prop :=
  this s'.1 = this s.1 /\ settings s'.1 = settings s.1
  /\ at_ s'.2 = at_ s.2 /\ ret s'.2 = ret s.2 /\ installReady s'.2 = installReady s.2.

(** An installer constructed on Linux, with nothing on disk and an empty
    configuration store. *)
Definition fresh_linux_installer : world :=
  new_JupyterServerInstallation linux_host "/ext" (Some "/home/u/py")
    {["PATH" := "/usr/bin"]} ∅ ∅.

(** The background operation of a call is under way: the promise was
    returned and is pending, the guard is set, and the call waits at [k]
    with the package promise and the download in the given states. *)
Definition under_way (k : cont) (pkg : promise) (d : stage) (dir : string)
    (s : state) : Prop :=
  at_ s.2 = k /\ ret s.2 = ReturnedReady /\ installReady s.2 = Pending
  /\ package s.2 = pkg /\ download s.2 = d
  /\ _pythonInstallationPath (this s.1) = dir
  /\ _installInProgress (this s.1) = true.

(** The callbacks of an installation in which every step succeeds: the
    executable can be opened or is missing, the directory is made, the
    server answers 200 and sends [chunks], the archive is unpacked and
    deleted, on Windows the two pip commands succeed, and the
    configuration is written. *)
Definition successful_callbacks (h : Host) (err : any) (fd : Z)
    (statusMessage : string) (contentLength : option Z) (chunks : list N) : list event :=
  [EvOpen err fd; EvOperation; EvMkdirs null;
   EvResponse 200 statusMessage contentLength]
  ++ map EvData chunks
  ++ [EvClose None; EvDecompressed None; EvUnlinked null]
  ++ (if isWin h then [EvExecuted None; EvExecuted None] else [])
  ++ [EvConfigUpdated None].

(** The steps that need the unpacked Python: a pip command, and the
    report that the installation succeeded. *)
Definition needs_unpacked (e : effect) : bool :=
  match e with
  | ExecuteStreamedCommand _ | UpdateStatus Succeeded _ => true
  | _ => false
  end.

Definition before_package (k : cont) : bool :=
  match k with
  | AwaitRunning _ _ | AwaitSkipUpdate _ | TaskQueued => true
  | _ => false
  end.

Definition at_pip (k : cont) : bool :=
  match k with
  | AwaitJupyter | AwaitSparkMagic => true
  | _ => false
  end.

(** What the effects [es] of a call so far and its state have to do with
    one another: the package promise is resolved only after the archive of
    the call was decompressed and its deletion asked for, and a step that
    needs the unpacked Python was taken only if it is resolved. *)
Definition unpack_first (es : list effect) (s : state) : Prop :=
  let zip := pythonPackagePathLocal s.2 in
  (package s.2 = Resolved -> exists dir, Decompress zip dir ∈ es /\ Unlink zip ∈ es)
  /\ (package s.2 <> Resolved -> Forall (fun e => needs_unpacked e = false) es)
  /\ (download s.2 = Unpacking -> exists dir, Decompress zip dir ∈ es)
  /\ (at_pip (at_ s.2) = true -> package s.2 = Resolved)
  /\ (before_package (at_ s.2) = true -> package s.2 = Pending /\ download s.2 = Idle).

(** A callback that may at most reject the package promise and start the
    decompression. *)
Definition harmless (s s' : state) : Prop :=
  (exists es',
     trace s'.1 = trace s.1 ++ es'
     /\ Forall (fun e => needs_unpacked e = false) es'
     /\ (download s'.2 = Unpacking ->
         download s.2 = Unpacking
         \/ exists dir, Decompress (pythonPackagePathLocal s.2) dir ∈ es'))
  /\ (package s'.2 = Resolved <-> package s.2 = Resolved)
  /\ at_ s'.2 = at_ s.2
  /\ pythonPackagePathLocal s'.2 = pythonPackagePathLocal s.2.

(** A step that leaves the download alone and takes a step that needs the
    unpacked Python only if the package promise is resolved. *)
Definition proceeds (s s' : state) : Prop :=
  (exists es',
     trace s'.1 = trace s.1 ++ es'
     /\ (package s.2 = Resolved \/ Forall (fun e => needs_unpacked e = false) es'))
  /\ package s'.2 = package s.2
  /\ download s'.2 = download s.2
  /\ pythonPackagePathLocal s'.2 = pythonPackagePathLocal s.2
  /\ (at_pip (at_ s'.2) = true -> package s.2 = Resolved \/ at_pip (at_ s.2) = true)
  /\ (before_package (at_ s'.2) = true -> before_package (at_ s.2) = true).

(** [unpack_first] holds of [s] and of what the trace has grown by since
    the world [w0]. *)
Definition since (w0 : world) (s : state) : Prop :=
  exists es, trace s.1 = trace w0 ++ es /\ unpack_first es s.

End Installer.

(** * [DataUriEditorInput] *)

(** The second class of [jupyterServerInstallation.ts]: an editor input
    that presents a data URI in a binary editor. *)

Module DataUriEditor.

(** What the class takes from the workbench: the type [URI] with its
    [toString], [DataUri.parseMetaData] with the two keys it is asked for,
    and [EditorInput.prototype.matches], which the class calls as
    [super.matches].  Editor inputs are objects; [this] and an object met
    as [otherInput] are known by reference. *)
Record Workbench : Type := {
  URI : Type;
  toString : URI -> string;
  parseMetaData : URI -> gmap string string;
  META_DATA_LABEL : string;
  META_DATA_DESCRIPTION : string;
  super_matches : N -> any -> bool
}.

(** The three private fields; [name] and [description] may be undefined. *)
Record DataUriEditorInput (wb : Workbench) : Type := {
  name : option string;
  description : option string;
  resource : URI wb
}.
Arguments name {wb} _.
Arguments description {wb} _.
Arguments resource {wb} _.

(** The objects an [unknown] value may refer to: [instanceof
    DataUriEditorInput] holds of the first kind only. *)
Inductive editor_object (wb : Workbench) : Type :=
  | IsDataUriEditorInput (input : DataUriEditorInput wb)
  | IsOtherObject.
Arguments IsDataUriEditorInput {wb} input.
Arguments IsOtherObject {wb}.

Definition ID : string := "workbench.editors.dataUriEditorInput".

(** The constructor. *)
Definition new_DataUriEditorInput (wb : Workbench) (name description : option string)
    (resource : URI wb) : DataUriEditorInput wb :=
  if negb (truthy_str name) || negb (truthy_str description) then
    let metadata := parseMetaData wb resource in
    {| name :=
         if negb (truthy_str name) then metadata !! META_DATA_LABEL wb else name;
       description :=
         if negb (truthy_str description) then metadata !! META_DATA_DESCRIPTION wb
         else description;
       resource := resource |}
  else {| name := name; description := description; resource := resource |}.

Definition getResource {wb : Workbench} (this : DataUriEditorInput wb) : URI wb :=
  resource this.

Definition getTypeId {wb : Workbench} (this : DataUriEditorInput wb) : string := ID.

(** [withUndefinedAsNull] of [vs/base/common/types], at type string. *)
Definition withUndefinedAsNull (x : option string) : any :=
  match x with
  | Some s => str s
  | None => null
  end.

Definition getName {wb : Workbench} (this : DataUriEditorInput wb) : any :=
  withUndefinedAsNull (name this).

Definition getDescription {wb : Workbench} (this : DataUriEditorInput wb) : any :=
  withUndefinedAsNull (description this).

(** [resolve]: the arguments [createInstance(BinaryEditorModel, ..)] is
    given; the model is then loaded by the workbench. *)
Definition resolve {wb : Workbench} (this : DataUriEditorInput wb) : URI wb * any :=
  (resource this, getName this).

(** [matches], called on the object [this] of the heap; [None]: [this]
    is no [DataUriEditorInput]. *)
Definition matches (wb : Workbench) (heap : gmap N (editor_object wb)) (this : N)
    (otherInput : any) : option bool :=
  match heap !! this with
  | Some (IsDataUriEditorInput input) =>
      Some
        (if super_matches wb this otherInput then true
         else
           match otherInput with
           | object ref =>
               match heap !! ref with
               | Some (IsDataUriEditorInput otherDataUriEditorInput) =>
                   String.eqb (toString wb (resource otherDataUriEditorInput))
                              (toString wb (resource input))
               | _ => false
               end
           | _ => false
           end)
  | _ => None
  end.

(** A workbench whose URIs are their strings, with no metadata, and whose
    base class compares by identity. *)
Definition plain : Workbench :=
  {| URI := string; toString := fun u => u; parseMetaData := fun _ => ∅;
     META_DATA_LABEL := "label"; META_DATA_DESCRIPTION := "description";
     super_matches := fun this other =>
       match other with
       | object ref => N.eqb ref this
       | _ => false
       end |}.

End DataUriEditor.

(** ** The specification's sentences, where the code does otherwise *)

Module Stated.
Import Installer.

(** "On Windows, [environmentPathVar] begins with the [Scripts]
    subdirectory, followed by the delimiter and the bin-equivalent path,
    followed by the inherited PATH; elsewhere it begins with the [bin]
    directory followed by the delimiter and the inherited PATH", of the
    installer [configurePackagePaths] leaves behind when run in [w]. *)
Definition scripts_first (h : Host) (w : world) : Prop :=
  let root :=
    Path.join (path h) [_pythonInstallationPath (this w); pythonBundleVersion h] in
  let inherited := to_str (process_env w !! "PATH") in
  let d := Path.delimiter (path h) in
  pythonEnvVarPath (this (configurePackagePaths h w)) =
  if isWin h then
    Path.join (path h) [root; "Scripts"] +:+ d
    +:+ Path.join (path h) [root; EmptyString] +:+ d +:+ inherited
  else Path.join (path h) [root; "bin"] +:+ d +:+ inherited.

(** "[isPythonInstalled] returns true if and only if the configuration
    store has a recorded installation path and an executable file exists at
    the platform-specific sub-path under that recorded path." *)
Definition installed_iff_recorded (h : Host) (fs : gset string) (st : store) : Prop :=
  Installer.isPythonInstalled h fs (Some st) = true <->
  exists notebookConfig recorded,
    st !! notebookConfigKey h = Some notebookConfig
    /\ notebookConfig !! pythonPathConfigKey h = Some recorded
    /\ getPythonExePath h recorded ∈ fs.

End Stated.

(** * Properties *)

(** ** The process shim *)

(** C10.  Without a global [process] the exported [cwd] returns ["/"], the
    exported [env] has no property, and the exported [platform] is
    ["win32"], ["darwin"] or ["linux"] as [isWindows] and [isMacintosh]
    say; with a global [process] the three exports are that object's own
    [cwd], [env] and [platform]. *)
Theorem process_shim_exports :
  forall (Os Callback : Type) (isWindows isMacintosh : bool)
         (setImmediate : Callback -> Z),
    (forall os : Os,
        ProcessShim.export_cwd isWindows isMacintosh setImmediate None os = "/")
    /\ ProcessShim.export_env (Os := Os) isWindows isMacintosh setImmediate None = ∅
    /\ (forall k : string,
           ProcessShim.export_env (Os := Os) isWindows isMacintosh setImmediate None !! k
           = None)
    /\ ProcessShim.export_platform (Os := Os) isWindows isMacintosh setImmediate None
       = match isWindows, isMacintosh with
         | true, _ => "win32"
         | false, true => "darwin"
         | false, false => "linux"
         end
    /\ (forall p : ProcessShim.IProcess Os Callback,
           ProcessShim.export_cwd isWindows isMacintosh setImmediate (Some p)
           = ProcessShim.cwd p
           /\ ProcessShim.export_env isWindows isMacintosh setImmediate (Some p)
              = ProcessShim.env p
           /\ ProcessShim.export_platform isWindows isMacintosh setImmediate (Some p)
              = ProcessShim.platform p).
Proof.
  intros Os Callback isWindows isMacintosh setImmediate.
  unfold ProcessShim.export_cwd, ProcessShim.export_env, ProcessShim.export_platform.
  split; [intros os; reflexivity |].
  split; [reflexivity |].
  split; [intros k; apply lookup_empty |].
  split; [destruct isWindows, isMacintosh; reflexivity |].
  intros p. cbn. auto.
Qed.

(** ** The model at work *)

Import Installer.

Example posix_join_executable :
  Path.posix_join ["/home/u/py"; "0.0.1"; "bin/python3"] = "/home/u/py/0.0.1/bin/python3".
Proof. vm_compute. reflexivity. Qed.

Example posix_join_normalizes :
  Path.posix_join ["a//b/./c/"; "../.."; "../../../x/"] = "../../x/"
  /\ Path.posix_join ["/tmp/x/.."; "0.0.1"] = "/tmp/0.0.1"
  /\ Path.posix_join [EmptyString; EmptyString] = ".".
Proof. vm_compute. auto. Qed.

Example win32_join_drive :
  Path.win32_join ["C:\py"; "0.0.1"; "Scripts"] = "C:\py\0.0.1\Scripts"
  /\ Path.win32_join ["C:\py\0.0.1"; EmptyString] = "C:\py\0.0.1"
  /\ Path.win32_join ["C:/py/"; "0.0.1"; "python.exe"] = "C:\py\0.0.1\python.exe".
Proof. vm_compute. auto. Qed.

Example packageName_linux :
  packageName linux_host = "python-3.6.6-linux-x64-0.0.1.tar.gz"
  /\ packageName windows_host = "python-3.6.6-win-x64-0.0.1.zip".
Proof. vm_compute. auto. Qed.

(** The constructor clears the three Python variables from [process.env]
    and hands child processes a copy with PATH replaced. *)
Example constructor_environment :
  let w := new_JupyterServerInstallation windows_host "C:\ext" None
             {["PATH" := "C:\Windows"; "Path" := "C:\Other";
               "PYTHONHOME" := "C:\Python27"]} ∅ ∅ in
  map_to_list (process_env w) = [("Path", "C:\Other"); ("PATH", "C:\Windows")]
  /\ map_to_list (execOptions (this w))
     = [("PATH", "C:\Users\u\azuredatastudio-python\0.0.1;"
                 +:+ "C:\Users\u\azuredatastudio-python\0.0.1\Scripts;C:\Windows")].
Proof. vm_compute. auto. Qed.

(** A complete install on Windows: both package installs run, then the
    path is recorded and the call resolves with the guard cleared. *)
Example windows_install :
  let w := new_JupyterServerInstallation windows_host "C:\ext" None
             {["PATH" := "C:\Windows"]} ∅ ∅ in
  exists s,
    run windows_host
      [EvOpen (error "ENOENT" "no such file or directory") 0; EvOperation;
       EvMkdirs null; EvResponse 200 "OK" (Some 2097152%Z); EvData 2097152;
       EvClose None; EvDecompressed None; EvUnlinked null;
       EvExecuted None; EvExecuted None; EvConfigUpdated None]
      (startInstallProcess windows_host false (Some "D:\py") w) = Some s
    /\ outcome s.2 = Resolved
    /\ _installInProgress (this s.1) = false
    /\ _pythonExecutable (this s.1) = "D:\py\0.0.1\python.exe"
    /\ length (filter (fun e => is_subprocess e = true) (trace s.1)) = 2
    /\ last_status (trace s.1) = Some Succeeded
    /\ settings s.1 !! "notebook" ≫= (.!! "pythonPath") = Some "D:\py".
Proof.
  cbv zeta. eexists. split; [vm_compute; reflexivity|].
  repeat split; vm_compute; reflexivity.
Qed.

(** ** Derived paths *)

Lemma configurePackagePaths_this (h : Host) (w : world) :
  let root :=
    Path.join (path h) [_pythonInstallationPath (this w); pythonBundleVersion h] in
  let i := this (configurePackagePaths h w) in
  _pythonInstallationPath i = _pythonInstallationPath (this w)
  /\ _pythonExecutable i = getPythonExePath h (_pythonInstallationPath (this w))
  /\ pythonBinPath i = Path.join (path h) [root; if isWin h then EmptyString else "bin"]
  /\ _pythonPackageDir i = Path.join (path h) [root; "offlinePackages"]
  /\ _forceInstall i = _forceInstall (this w)
  /\ _installInProgress i = _installInProgress (this w).
Proof. cbn. repeat split; reflexivity. Qed.

(** C2, as the code has it.  [configurePackagePaths] puts the bin path
    first: on Windows [pythonEnvVarPath] is the bin-equivalent path, the
    delimiter, the [Scripts] path, the delimiter and the inherited PATH; on
    other platforms it is the [bin] path, the delimiter and the inherited
    PATH.  An unset PATH is concatenated as the text [undefined]. *)
Theorem environmentPathVar_bin_first :
  forall (h : Host) (w : world),
    let root :=
      Path.join (path h) [_pythonInstallationPath (this w); pythonBundleVersion h] in
    let inherited := to_str (process_env w !! "PATH") in
    let d := Path.delimiter (path h) in
    let i := this (configurePackagePaths h w) in
    pythonEnvVarPath i =
      (if isWin h then
         pythonBinPath i +:+ d +:+ Path.join (path h) [root; "Scripts"] +:+ d +:+ inherited
       else pythonBinPath i +:+ d +:+ inherited)
    /\ pythonBinPath i =
         Path.join (path h) [root; if isWin h then EmptyString else "bin"]
    /\ execOptions i !! "PATH" = Some (pythonEnvVarPath i).
Proof.
  intros h w. cbn.
  split; [destruct (isWin h); reflexivity |].
  split; [reflexivity |].
  apply lookup_insert_eq.
Qed.

(** C2, as stated, fails on Windows: with the installation in [C:\py] and
    PATH [C:\Windows] the variable starts with [C:\py\0.0.1;], not with
    the [Scripts] directory. *)
Lemma environmentPathVar_scripts_first_fails :
  ~ Stated.scripts_first windows_host
      (new_JupyterServerInstallation windows_host "C:\ext" (Some "C:\py")
         {["PATH" := "C:\Windows"]} ∅ ∅).
Proof.
  unfold Stated.scripts_first.
  vm_compute. discriminate.
Qed.

Example environmentPathVar_on_windows :
  pythonEnvVarPath
    (this (new_JupyterServerInstallation windows_host "C:\ext" (Some "C:\py")
             {["PATH" := "C:\Windows"]} ∅ ∅))
  = "C:\py\0.0.1;C:\py\0.0.1\Scripts;C:\Windows".
Proof. vm_compute. reflexivity. Qed.

Example environmentPathVar_on_linux :
  pythonEnvVarPath
    (this (new_JupyterServerInstallation linux_host "/ext" (Some "/home/u/py")
             {["PATH" := "/usr/bin"]} ∅ ∅))
  = "/home/u/py/0.0.1/bin:/usr/bin".
Proof. vm_compute. reflexivity. Qed.

(** ** [isPythonInstalled] *)

Lemma getPythonPathSetting_Some (h : Host) (fs : gset string)
    (apiWrapper : option store) (p : string) :
  getPythonPathSetting h fs apiWrapper = Some p <->
  exists st notebookConfig,
    apiWrapper = Some st
    /\ st !! notebookConfigKey h = Some notebookConfig
    /\ notebookConfig !! pythonPathConfigKey h = Some p
    /\ p <> EmptyString
    /\ p ∈ fs.
Proof.
  unfold getPythonPathSetting. split.
  - destruct apiWrapper as [st|]; [|discriminate].
    destruct (st !! notebookConfigKey h) as [cfg|] eqn:Hcfg; [|discriminate].
    destruct (cfg !! pythonPathConfigKey h) as [q|] eqn:Hq; [|discriminate].
    destruct (String.eqb q EmptyString) eqn:Hne; cbn; [discriminate|].
    destruct (bool_decide (q ∈ fs)) eqn:Hin; [|discriminate].
    intros [= <-]. exists st, cfg. repeat split; try assumption.
    + intros ->. cbn in Hne. discriminate.
    + apply bool_decide_eq_true in Hin. exact Hin.
  - intros (st & cfg & -> & -> & -> & Hne & Hin).
    destruct (String.eqb_spec p EmptyString) as [->|_]; [contradiction|].
    cbn. rewrite bool_decide_eq_true_2 by exact Hin. reflexivity.
Qed.

(** C8, as the code has it.  [isPythonInstalled] is true exactly when the
    configuration store records an installation path that is not empty and
    that exists on disk itself, and an executable exists at
    [bundleVersion/python.exe] (Windows) or [bundleVersion/bin/python3]
    (elsewhere) under it.  It is a static method: it is given the store and
    reads the disk, and whatever an installer instance holds in memory makes
    no difference. *)
Theorem isPythonInstalled_iff :
  forall (h : Host) (fs : gset string) (apiWrapper : option store),
    (Installer.isPythonInstalled h fs apiWrapper = true <->
     exists st notebookConfig recorded,
       apiWrapper = Some st
       /\ st !! notebookConfigKey h = Some notebookConfig
       /\ notebookConfig !! pythonPathConfigKey h = Some recorded
       /\ recorded <> EmptyString
       /\ recorded ∈ fs
       /\ Path.join (path h)
            [recorded; pythonBundleVersion h;
             if isWin h then "python.exe" else "bin/python3"] ∈ fs)
    /\ (forall w w' : world,
           files w = files w' -> settings w = settings w' ->
           Installer.isPythonInstalled h (files w) (Some (settings w))
           = Installer.isPythonInstalled h (files w') (Some (settings w'))).
Proof.
  intros h fs apiWrapper. split.
  - unfold Installer.isPythonInstalled. split.
    + destruct (getPythonPathSetting h fs apiWrapper) as [p|] eqn:Hp; [|discriminate].
      apply getPythonPathSetting_Some in Hp.
      destruct Hp as (st & cfg & Hapi & Hcfg & Hrec & Hne & Hin).
      destruct (negb (truthy_str (Some p))); [discriminate|].
      intros Hexe. apply bool_decide_eq_true in Hexe.
      exists st, cfg, p. repeat split; assumption.
    + intros (st & cfg & p & Hapi & Hcfg & Hrec & Hne & Hin & Hexe).
      assert (Hp : getPythonPathSetting h fs apiWrapper = Some p).
      { apply getPythonPathSetting_Some. exists st, cfg. repeat split; assumption. }
      rewrite Hp. cbn.
      destruct (String.eqb_spec p EmptyString) as [->|_]; [contradiction|].
      cbn. apply bool_decide_eq_true_2. exact Hexe.
  - intros w w' -> ->. reflexivity.
Qed.

(** A recorded path that exists, with its executable. *)
Lemma isPythonInstalled_iff_witness :
  Installer.isPythonInstalled linux_host
    {["/home/u/py"; "/home/u/py/0.0.1/bin/python3"]}
    (Some {["notebook" := {["pythonPath" := "/home/u/py"]}]}) = true.
Proof.
  apply (proj1 (isPythonInstalled_iff linux_host
                  {["/home/u/py"; "/home/u/py/0.0.1/bin/python3"]}
                  (Some {["notebook" := {["pythonPath" := "/home/u/py"]}]}))).
  exists {["notebook" := {["pythonPath" := "/home/u/py"]}]},
         {["pythonPath" := "/home/u/py"]}, "/home/u/py".
  split; [reflexivity|]. split; [reflexivity|]. split; [reflexivity|].
  split; [discriminate|]. split; vm_compute; reflexivity.
Defined.

(** C8, as stated, fails: the store records [/tmp/x/..], a directory
    [/tmp/x] does not exist, and the executable [/tmp/0.0.1/bin/python3]
    that the recorded path joins to does. *)
Lemma isPythonInstalled_recorded_path_must_exist :
  ~ Stated.installed_iff_recorded linux_host
      {["/"; "/tmp"; "/tmp/0.0.1"; "/tmp/0.0.1/bin"; "/tmp/0.0.1/bin/python3"]}
      {["notebook" := {["pythonPath" := "/tmp/x/.."]}]}.
Proof.
  unfold Stated.installed_iff_recorded. intros [_ Hclaim].
  assert (Hfalse : Installer.isPythonInstalled linux_host
            {["/"; "/tmp"; "/tmp/0.0.1"; "/tmp/0.0.1/bin"; "/tmp/0.0.1/bin/python3"]}
            (Some {["notebook" := {["pythonPath" := "/tmp/x/.."]}]}) = false).
  { vm_compute. reflexivity. }
  rewrite Hclaim in Hfalse; [discriminate|].
  exists {["pythonPath" := "/tmp/x/.."]}, "/tmp/x/..".
  split; [reflexivity|]. split; [reflexivity|].
  vm_compute. reflexivity.
Qed.

(** ** Invariants of the installer's callbacks *)

Lemma paths_configured_ext (h : Host) (w w' : world) :
  paths_of w' = paths_of w -> paths_configured h w -> paths_configured h w'.
Proof.
  unfold paths_of, paths_configured. intros [= -> -> -> ->]. auto.
Qed.

Lemma configurePackagePaths_configured (h : Host) (w : world) :
  paths_configured h (configurePackagePaths h w).
Proof. unfold paths_configured. cbn. auto. Qed.

Lemma wext_refl (h : Host) (w : world) : wext h w w.
Proof.
  split; [auto|]. exists []. split; [symmetry; apply app_nil_r | intros _; constructor].
Qed.

Lemma wext_trans (h : Host) (w1 w2 w3 : world) :
  wext h w1 w2 -> wext h w2 w3 -> wext h w1 w3.
Proof.
  intros [Hp1 (es1 & Ht1 & Hs1)] [Hp2 (es2 & Ht2 & Hs2)].
  split; [auto|]. exists (es1 ++ es2). split.
  - rewrite Ht2, Ht1. symmetry. apply app_assoc.
  - intros Hw. apply Forall_app. split; auto.
Qed.

Lemma wext_same (h : Host) (w w' : world) :
  paths_of w' = paths_of w -> trace w' = trace w -> wext h w w'.
Proof.
  intros Hp Ht. split.
  - apply paths_configured_ext. exact Hp.
  - exists []. split; [rewrite Ht; symmetry; apply app_nil_r | intros _; constructor].
Qed.

Lemma wext_emit (h : Host) (e : effect) (w : world) :
  (isWin h = false -> is_subprocess e = false) -> wext h w (emit e w).
Proof.
  intros He. split.
  - apply paths_configured_ext. reflexivity.
  - exists [e]. split; [reflexivity|]. intros Hw. constructor; [auto | constructor].
Qed.

Lemma wext_set_installInProgress (h : Host) (b : bool) (w : world) :
  wext h w (set_installInProgress b w).
Proof. apply wext_same; reflexivity. Qed.

Lemma wext_with_files (h : Host) (fs : gset string) (w : world) :
  wext h w (with_files fs w).
Proof. apply wext_same; reflexivity. Qed.

Lemma wext_write_setting (h : Host) (value : string) (w : world) :
  wext h w (write_setting h value w).
Proof. apply wext_same; reflexivity. Qed.

Lemma wext_configure (h : Host) (w w' : world) :
  trace w' = trace w -> wext h w (configurePackagePaths h w').
Proof.
  intros Ht. split.
  - intros _. apply configurePackagePaths_configured.
  - exists []. split; [cbn; rewrite Ht; symmetry; apply app_nil_r | intros _; constructor].
Qed.

Ltac project :=
  cbn [fst snd say reject_package].

(** Peels the world on the right of a [wext] goal, outermost change first. *)
Ltac peel :=
  project;
  lazymatch goal with
  | |- wext _ ?w ?w => apply wext_refl
  | |- wext _ _ (emit _ _) =>
      eapply wext_trans; [| apply wext_emit; intros; first [reflexivity | congruence]]
  | |- wext _ _ (set_installInProgress _ _) =>
      eapply wext_trans; [| apply wext_set_installInProgress]
  | |- wext _ _ (write_setting _ _ _) =>
      eapply wext_trans; [| apply wext_write_setting]
  | |- wext _ _ (with_files _ _) =>
      eapply wext_trans; [| apply wext_with_files]
  end.

Lemma fail_ext (h : Host) (err : any) (s : state) : wext h s.1 (fail h err s).1.
Proof. unfold fail. cbv zeta. repeat peel. Qed.

Lemma then_update_ext (h : Host) (s : state) : wext h s.1 (then_update h s).1.
Proof. unfold then_update, updateConfig. repeat peel. Qed.

Lemma finish_ext (h : Host) (s : state) : wext h s.1 (finish h s).1.
Proof.
  unfold finish. cbv zeta.
  eapply wext_trans; [| apply then_update_ext]. repeat peel.
Qed.

Lemma installSparkMagic_ext (h : Host) (s : state) :
  wext h s.1 (installSparkMagic h s).1.
Proof.
  unfold installSparkMagic. destruct (isWin h) eqn:Hwin.
  - cbv zeta. repeat peel.
  - apply finish_ext.
Qed.

Lemma installJupyterProsePackage_ext (h : Host) (s : state) :
  wext h s.1 (installJupyterProsePackage h s).1.
Proof.
  unfold installJupyterProsePackage. destruct (isWin h) eqn:Hwin.
  - cbv zeta. repeat peel.
  - apply installSparkMagic_ext.
Qed.

Lemma after_package_ext (h : Host) (s : state) : wext h s.1 (after_package h s).1.
Proof.
  unfold after_package. cbv zeta.
  eapply wext_trans; [| apply installJupyterProsePackage_ext]. repeat peel.
Qed.

Lemma installPythonPackage_ext (h : Host) (s : state) :
  wext h s.1 (installPythonPackage h s).1.
Proof. unfold installPythonPackage. cbv zeta. repeat peel. Qed.

Lemma installDependencies_ext (h : Host) (s : state) :
  wext h s.1 (installDependencies h s).1.
Proof.
  unfold installDependencies.
  destruct (negb (existsSync s.1 (_pythonExecutable (this s.1))) || _forceInstall (this s.1)).
  - cbv zeta. eapply wext_trans; [| apply installPythonPackage_ext]. repeat peel.
  - apply then_update_ext.
Qed.

Lemma settle_package_ext (h : Host) (s : state) : wext h s.1 (settle_package h s).1.
Proof.
  unfold settle_package.
  destruct (at_ s.2); try apply wext_refl.
  destruct (package s.2); [apply wext_refl | apply after_package_ext | apply fail_ext].
Qed.

Lemma on_mkdirs_ext (h : Host) (err : any) (s : state) : wext h s.1 (on_mkdirs h err s).1.
Proof. unfold on_mkdirs. cbv zeta. destruct (truthy err); repeat peel. Qed.

Lemma on_download_error_ext (h : Host) (e : any) (s : state) :
  wext h s.1 (on_download_error e s).1.
Proof. unfold on_download_error. repeat peel. Qed.

Lemma on_response_ext (h : Host) (code : Z) (msg : string) (len : option Z) (s : state) :
  wext h s.1 (on_response h code msg len s).1.
Proof. unfold on_response. cbv zeta. destruct (negb (code =? 200)%Z); repeat peel. Qed.

Lemma on_data_ext (h : Host) (n : N) (s : state) : wext h s.1 (on_data h n s).1.
Proof.
  unfold on_data. cbv zeta. cbn [totalBytes with_progress].
  destruct (totalBytes s.2) as [total|]; [|apply wext_refl].
  match goal with |- context [if ?b then _ else _] => destruct b end; repeat peel.
Qed.

Lemma on_close_ext (h : Host) (r : option any) (s : state) : wext h s.1 (on_close h r s).1.
Proof.
  unfold on_close. cbv zeta. project.
  match goal with |- context [if ?b then _ else _] => destruct b end;
    [destruct r|]; repeat peel.
Qed.

Lemma on_decompressed_ext (err : option any) (h : Host) (s : state) :
  wext h s.1 (on_decompressed err s).1.
Proof. unfold on_decompressed. destruct err; cbv zeta; repeat peel. Qed.

Lemma on_unlinked_ext (h : Host) (err : any) (s : state) :
  wext h s.1 (on_unlinked err s).1.
Proof. unfold on_unlinked. cbv zeta. destruct (truthy err); repeat peel. Qed.

Lemma guarded_install_ext (h : Host) (forceInstall : bool)
    (installationPath : option string) (running : bool) (s : state) :
  wext h s.1 (guarded_install h forceInstall installationPath running s).1.
Proof.
  unfold guarded_install, updateConfig. cbv zeta.
  destruct running; [apply wext_refl|].
  destruct (_installInProgress (this s.1)); [apply wext_refl|].
  match goal with |- context [if ?b then _ else _] => destruct b end;
    repeat peel; apply wext_configure; reflexivity.
Qed.

(** Every callback extends the world it runs in. *)
Lemma step_ext (h : Host) (ev : event) (s s' : state) :
  step h ev s = Some s' -> wext h s.1 s'.1.
Proof.
  unfold step. intros Hstep.
  destruct ev; repeat case_match; try discriminate; injection Hstep as <-;
    try (eapply wext_trans; [| apply settle_package_ext]).
  all: first
    [ apply wext_refl
    | apply on_mkdirs_ext | apply on_download_error_ext | apply on_response_ext
    | apply on_data_ext | apply on_close_ext | apply on_decompressed_ext
    | apply on_unlinked_ext | apply installDependencies_ext | apply fail_ext
    | apply finish_ext
    | idtac ].
  all: try (repeat peel; fail).
  - (* EvOpen, fs.open failed *)
    apply (guarded_install_ext h _ _ _ s).
  - (* EvOpen, fs.open succeeded *)
    eapply wext_trans; [| apply guarded_install_ext]. repeat peel.
  - (* EvExecuted after the requirements install *)
    eapply wext_trans; [| apply installSparkMagic_ext]. repeat peel.
Qed.

Lemma reachable_configured (h : Host) (w : world) :
  reachable h w -> paths_configured h w.
Proof.
  induction 1 as [ext p env fs st | w force p _ IH | w c ev s' _ IH Hstep].
  - apply configurePackagePaths_configured.
  - exact IH.
  - apply (step_ext h ev (w, c) s' Hstep). exact IH.
Qed.

Lemma run_ext (h : Host) (evs : list event) (s s' : state) :
  run h evs s = Some s' -> wext h s.1 s'.1.
Proof.
  revert s. induction evs as [|ev evs IH]; intros s Hrun; cbn in Hrun.
  - injection Hrun as <-. apply wext_refl.
  - destruct (step h ev s) as [s1|] eqn:Hstep; [|discriminate].
    eapply wext_trans; [eapply step_ext; exact Hstep | apply IH; exact Hrun].
Qed.

(** ** The executable path *)

Lemma guards_passed (h : Host) (w : world) (forceInstall : bool)
    (installationPath : option string) (err : any) (fd : Z) :
  isPythonRunning err = false ->
  _installInProgress (this w) = false ->
  let target :=
    match installationPath with
    | Some p => if truthy_str (Some p) then p else _pythonInstallationPath (this w)
    | None => _pythonInstallationPath (this w)
    end in
  exists s',
    step h (EvOpen err fd) (startInstallProcess h forceInstall installationPath w) = Some s'
    /\ _pythonInstallationPath (this s'.1) = target
    /\ _pythonExecutable (this s'.1) = getPythonExePath h target
    /\ _forceInstall (this s'.1) = forceInstall
    /\ _installInProgress (this s'.1) = true
    /\ files s'.1 = files w.
Proof.
  intros Hrun Hflag target. unfold step, startInstallProcess.
  cbn [fst snd at_ new_call]. rewrite Hrun. eexists. split; [reflexivity|].
  unfold guarded_install.
  assert (Hf : forall e c,
             _installInProgress (this ((if truthy err then (emit e w, c)
                                        else (emit (FsClose fd) (emit e w),
                                              with_closing true c)).1)) = false).
  { intros e c. destruct (truthy err); exact Hflag. }
  rewrite Hf. cbv zeta.
  match goal with |- context [if ?b then _ else _] => destruct b end;
    destruct (truthy err); cbn; auto.
Qed.

(** C7.  In every world an installer can reach, the executable path is the
    installation path joined with the bundle version and [python.exe] when
    [process.platform] is the Windows platform, [bin/python3] when it is
    not; a path [P] given to the constructor or to a call that passes the
    guards becomes that installation path.  With [/home/u/py], bundle
    version [0.0.1], on Linux, the executable path is
    [/home/u/py/0.0.1/bin/python3]; with [C:\py] on Windows it is
    [C:\py\0.0.1\python.exe].  The two package-install steps are for
    Windows only: there each runs its pip command, and off Windows they do
    nothing, so that no run ever starts a subprocess. *)
Theorem executable_path_derivation :
  (forall (h : Host) (w : world),
      reachable h w ->
      (process_platform h = winPlatform h ->
       _pythonExecutable (this w)
       = Path.join (path h)
           [_pythonInstallationPath (this w); pythonBundleVersion h; "python.exe"])
      /\ (process_platform h <> winPlatform h ->
          _pythonExecutable (this w)
          = Path.join (path h)
              [_pythonInstallationPath (this w); pythonBundleVersion h; "bin/python3"]))
  /\ (forall (h : Host) (ext P : string) env fs st,
         P <> EmptyString ->
         _pythonExecutable (this (new_JupyterServerInstallation h ext (Some P) env fs st))
         = Path.join (path h)
             [P; pythonBundleVersion h;
              if String.eqb (process_platform h) (winPlatform h)
              then "python.exe" else "bin/python3"])
  /\ (forall (h : Host) (w : world) (forceInstall : bool) (P : string) (err : any) (fd : Z),
         P <> EmptyString ->
         isPythonRunning err = false ->
         _installInProgress (this w) = false ->
         exists s',
           step h (EvOpen err fd) (startInstallProcess h forceInstall (Some P) w) = Some s'
           /\ _pythonExecutable (this s'.1)
              = Path.join (path h)
                  [P; pythonBundleVersion h;
                   if String.eqb (process_platform h) (winPlatform h)
                   then "python.exe" else "bin/python3"])
  /\ (pythonBundleVersion linux_host = "0.0.1"
      /\ process_platform linux_host <> winPlatform linux_host
      /\ getPythonExePath linux_host "/home/u/py" = "/home/u/py/0.0.1/bin/python3")
  /\ (pythonBundleVersion windows_host = "0.0.1"
      /\ process_platform windows_host = winPlatform windows_host
      /\ getPythonExePath windows_host "C:\py" = "C:\py\0.0.1\python.exe")
  /\ (forall h : Host,
         process_platform h <> winPlatform h ->
         (forall s : state,
             installJupyterProsePackage h s = finish h s
             /\ installSparkMagic h s = finish h s)
         /\ (forall (evs : list event) (s s' : state),
                run h evs s = Some s' ->
                exists es,
                  trace s'.1 = trace s.1 ++ es
                  /\ Forall (fun e => is_subprocess e = false) es))
  /\ (forall h : Host,
         process_platform h = winPlatform h ->
         forall s : state,
           (exists requirements,
               trace (installJupyterProsePackage h s).1
               = trace s.1
                 ++ [OutputShow;
                     AppendLine "Installing required packages to run Notebooks...";
                     ExecuteStreamedCommand requirements])
           /\ (exists sparkWheel,
                  trace (installSparkMagic h s).1
                  = trace s.1
                    ++ [OutputShow; AppendLine "Installing SparkMagic...";
                        ExecuteStreamedCommand sparkWheel])).
Proof.
  assert (Hwin : forall h, process_platform h = winPlatform h -> isWin h = true).
  { intros h Hp. unfold isWin. rewrite Hp. apply String.eqb_refl. }
  assert (Hnot : forall h, process_platform h <> winPlatform h -> isWin h = false).
  { intros h Hp. unfold isWin. apply String.eqb_neq. exact Hp. }
  split; [|split; [|split; [|split; [|split; [|split]]]]].
  - intros h w Hw. destruct (reachable_configured h w Hw) as (Hexe & _).
    split; intros Hp; rewrite Hexe; unfold getPythonExePath;
      [rewrite (Hwin h Hp) | rewrite (Hnot h Hp)]; reflexivity.
  - intros h ext P env fs st HP. cbn.
    destruct (String.eqb_spec P EmptyString) as [->|_]; [contradiction|]. reflexivity.
  - intros h w force P err fd HP Hrun Hflag.
    destruct (guards_passed h w force (Some P) err fd Hrun Hflag)
      as (s' & Hstep & _ & Hexe & _).
    exists s'. split; [exact Hstep|]. rewrite Hexe. cbn.
    destruct (String.eqb_spec P EmptyString) as [->|_]; [contradiction|]. reflexivity.
  - split; [reflexivity|]. split; [discriminate|]. vm_compute. reflexivity.
  - split; [reflexivity|]. split; [reflexivity|]. vm_compute. reflexivity.
  - intros h Hp. split.
    + intros s. unfold installJupyterProsePackage, installSparkMagic.
      rewrite (Hnot h Hp). split; reflexivity.
    + intros evs s s' Hrun.
      destruct (run_ext h evs s s' Hrun) as [_ (es & Ht & Hes)].
      exists es. split; [exact Ht | exact (Hes (Hnot h Hp))].
  - intros h Hp s. unfold installJupyterProsePackage, installSparkMagic.
    rewrite (Hwin h Hp). cbv zeta. cbn [fst snd say emit trace].
    split; eexists; rewrite <- !app_assoc; reflexivity.
Qed.

(** The installers of the two scenarios are reachable, and there the
    theorem gives the executable paths: [bin/python3] on Linux,
    [python.exe] on Windows. *)
Lemma executable_path_derivation_witness :
  (reachable linux_host
     (new_JupyterServerInstallation linux_host "/ext" (Some "/home/u/py") ∅ ∅ ∅)
   /\ _pythonExecutable
        (this (new_JupyterServerInstallation linux_host "/ext" (Some "/home/u/py") ∅ ∅ ∅))
      = "/home/u/py/0.0.1/bin/python3")
  /\ (reachable windows_host
        (new_JupyterServerInstallation windows_host "C:\ext" (Some "C:\py") ∅ ∅ ∅)
      /\ _pythonExecutable
           (this (new_JupyterServerInstallation windows_host "C:\ext" (Some "C:\py") ∅ ∅ ∅))
         = "C:\py\0.0.1\python.exe").
Proof.
  split; (split; [apply reach_new|]).
  - exact (proj2 (proj1 executable_path_derivation linux_host _
                    (reach_new linux_host "/ext" (Some "/home/u/py") ∅ ∅ ∅))
             ltac:(discriminate)).
  - exact (proj1 (proj1 executable_path_derivation windows_host _
                    (reach_new windows_host "C:\ext" (Some "C:\py") ∅ ∅ ∅))
             eq_refl).
Defined.

(** ** The pre-flight guards *)

(** C6.  After [fs.open] has called back, the running check is tested
    first and rejects with [msgPythonRunningError]; the in-progress guard is
    tested second and rejects with [msgPendingInstallError].  A rejecting
    guard leaves the installer's fields, [process.env], the configuration
    store and the files as they were; all the call has done to the outside
    is [fs.open] and, when that succeeded, [fs.close], so no background
    task was started. *)
Theorem preflight_guards_reject_untouched :
  forall (h : Host) (w : world) (forceInstall : bool)
         (installationPath : option string) (err : any) (fd : Z),
    let target :=
      match installationPath with
      | Some p => if truthy_str (Some p) then p else _pythonInstallationPath (this w)
      | None => _pythonInstallationPath (this w)
      end in
    exists s',
      step h (EvOpen err fd) (startInstallProcess h forceInstall installationPath w)
      = Some s'
      /\ (isPythonRunning err = true ->
          outcome s'.2 = Rejected (str msgPythonRunningError))
      /\ (isPythonRunning err = false ->
          _installInProgress (this w) = true ->
          outcome s'.2 = Rejected (str msgPendingInstallError))
      /\ (isPythonRunning err = true \/ _installInProgress (this w) = true ->
          this s'.1 = this w
          /\ process_env s'.1 = process_env w
          /\ settings s'.1 = settings w
          /\ files s'.1 = files w
          /\ trace s'.1
             = trace w ++ FsOpen (getPythonExePath h target)
                 :: (if truthy err then [] else [FsClose fd])
          /\ (forall d d' b, StartBackgroundOperation d d' b ∈ trace s'.1 ->
                             StartBackgroundOperation d d' b ∈ trace w)
          /\ at_ s'.2 = Done).
Proof.
  intros h w force p err fd target.
  unfold step, startInstallProcess. cbn [fst snd at_ new_call].
  eexists. split; [reflexivity|].
  unfold guarded_install.
  destruct (isPythonRunning err) eqn:Hrun.
  - split; [reflexivity|]. split; [discriminate|]. intros _.
    assert (Ht : truthy err = true).
    { unfold isPythonRunning in Hrun. destruct (truthy err); [reflexivity|discriminate]. }
    rewrite Ht. cbn. repeat split; try reflexivity.
    intros d d' b Hin. apply elem_of_app in Hin as [Hin|Hin]; [exact Hin|].
    apply list_elem_of_singleton in Hin. discriminate.
  - split; [discriminate|].
    assert (Hf : forall e c,
               _installInProgress (this ((if truthy err then (emit e w, c)
                                          else (emit (FsClose fd) (emit e w),
                                                with_closing true c)).1))
               = _installInProgress (this w)).
    { intros e c. destruct (truthy err); reflexivity. }
    rewrite Hf.
    destruct (_installInProgress (this w)) eqn:Hflag.
    + split; [intros _ _; destruct (truthy err); reflexivity|].
      intros _. destruct (truthy err); cbn.
      * repeat split; try reflexivity.
        intros d d' b Hin. apply elem_of_app in Hin as [Hin|Hin]; [exact Hin|].
        apply list_elem_of_singleton in Hin. discriminate.
      * repeat split; try reflexivity.
        -- rewrite <- app_assoc. reflexivity.
        -- intros d d' b Hin. apply elem_of_app in Hin as [Hin|Hin].
           ++ apply elem_of_app in Hin as [Hin|Hin]; [exact Hin|].
              apply list_elem_of_singleton in Hin. discriminate.
           ++ apply list_elem_of_singleton in Hin. discriminate.
    + split; [intros _; discriminate|]. intros [H|H]; discriminate.
Qed.

(** A call on Windows while [python.exe] is busy: rejected, nothing changed. *)
Lemma preflight_guards_reject_untouched_witness :
  exists s',
    step windows_host (EvOpen (error "EBUSY" "resource busy or locked") 0)
      (startInstallProcess windows_host true (Some "D:\other")
         (new_JupyterServerInstallation windows_host "C:\ext" (Some "C:\py")
            {["PATH" := "C:\Windows"]} {["C:\py\0.0.1\python.exe"]} ∅))
    = Some s'
    /\ outcome s'.2 = Rejected (str msgPythonRunningError)
    /\ _pythonInstallationPath (this s'.1) = "C:\py"
    /\ _forceInstall (this s'.1) = false
    /\ _installInProgress (this s'.1) = false.
Proof.
  destruct (preflight_guards_reject_untouched windows_host
              (new_JupyterServerInstallation windows_host "C:\ext" (Some "C:\py")
                 {["PATH" := "C:\Windows"]} {["C:\py\0.0.1\python.exe"]} ∅)
              true (Some "D:\other") (error "EBUSY" "resource busy or locked") 0)
    as (s' & Hstep & Hrunning & _ & Hsame).
  exists s'. split; [exact Hstep|].
  split; [apply Hrunning; reflexivity|].
  destruct (Hsame (or_introl eq_refl)) as (Hthis & _).
  rewrite Hthis. repeat split; reflexivity.
Defined.

(** ** The executable is already there *)

Lemma skip_branch (h : Host) (w : world) (installationPath : option string)
    (err : any) (fd : Z) :
  let target :=
    match installationPath with
    | Some p => if truthy_str (Some p) then p else _pythonInstallationPath (this w)
    | None => _pythonInstallationPath (this w)
    end in
  let added :=
    FsOpen (getPythonExePath h target)
    :: (if truthy err then [] else [FsClose fd])
    ++ [ConfigUpdate (notebookConfigKey h) (pythonPathConfigKey h) target] in
  isPythonRunning err = false ->
  _installInProgress (this w) = false ->
  getPythonExePath h target ∈ files w ->
  exists s1,
    step h (EvOpen err fd) (startInstallProcess h false installationPath w) = Some s1
    /\ trace s1.1 = trace w ++ added
    /\ at_ s1.2 = AwaitSkipUpdate target
    /\ ret s1.2 = NotYet
    /\ installReady s1.2 = Pending
    /\ settings s1.1 = settings w
    /\ _installInProgress (this s1.1) = true.
Proof.
  intros target added Hrun Hflag Hexe.
  unfold step, startInstallProcess. cbn [fst snd at_ new_call].
  rewrite Hrun. eexists. split; [reflexivity|].
  unfold guarded_install.
  assert (Hf : forall e c,
             _installInProgress (this ((if truthy err then (emit e w, c)
                                        else (emit (FsClose fd) (emit e w),
                                              with_closing true c)).1)) = false).
  { intros e c. destruct (truthy err); exact Hflag. }
  rewrite Hf. cbv zeta.
  match goal with
  | |- context [if negb (existsSync ?w1 ?exe) || ?f then _ else _] =>
      assert (Hx : negb (existsSync w1 exe) || f = false)
  end.
  { unfold existsSync. destruct (truthy err); cbn;
      fold target; rewrite bool_decide_eq_true_2 by exact Hexe; reflexivity. }
  rewrite Hx. unfold added.
  destruct (truthy err); cbn; repeat split; try reflexivity.
  all: rewrite <- !app_assoc; reflexivity.
Qed.

(** C5.  Past the two guards ([fs.open] does not report the executable
    busy, no install is in progress): if the executable exists at the
    (possibly newly supplied) installation path and [forceInstall] is
    false, the call runs no download, no unpacking and no subprocess and
    starts no background task; all it does is to have the installation
    path written to the configuration store, and with that write done the
    path is in the store and the returned promise is resolved. *)
Theorem skip_install_when_present :
  forall (h : Host) (w : world) (installationPath : option string)
         (err : any) (fd : Z),
    let target :=
      match installationPath with
      | Some p => if truthy_str (Some p) then p else _pythonInstallationPath (this w)
      | None => _pythonInstallationPath (this w)
      end in
    let added :=
      FsOpen (getPythonExePath h target)
      :: (if truthy err then [] else [FsClose fd])
      ++ [ConfigUpdate (notebookConfigKey h) (pythonPathConfigKey h) target] in
    isPythonRunning err = false ->
    _installInProgress (this w) = false ->
    getPythonExePath h target ∈ files w ->
    exists s1 s2,
      step h (EvOpen err fd) (startInstallProcess h false installationPath w) = Some s1
      /\ outcome s1.2 = Pending
      /\ step h (EvConfigUpdated None) s1 = Some s2
      /\ outcome s2.2 = Resolved
      /\ trace s2.1 = trace w ++ added
      /\ Forall (fun e => is_download_or_unpack e = false /\ is_subprocess e = false) added
      /\ settings s2.1 !! notebookConfigKey h ≫= (.!! pythonPathConfigKey h) = Some target.
Proof.
  intros h w p err fd target added Hrun Hflag Hexe.
  destruct (skip_branch h w p err fd Hrun Hflag Hexe)
    as (s1 & Hstep & Htrace & Hat & Hret & Hready & Hset & _).
  exists s1. unfold step at 2. rewrite Hat. eexists.
  split; [exact Hstep|].
  split; [unfold outcome; rewrite Hret; reflexivity|].
  split; [reflexivity|].
  cbn [fst snd]. split; [unfold outcome; cbn; rewrite Hready; reflexivity|].
  split; [exact Htrace|].
  split.
  - unfold added. destruct (truthy err); repeat constructor.
  - unfold write_setting. cbn. rewrite lookup_insert_eq. cbn.
    apply lookup_insert_eq.
Qed.

(** A call on Linux with the executable on disk. *)
Lemma skip_install_when_present_witness :
  exists s1 s2,
    step linux_host (EvOpen null 3)
      (startInstallProcess linux_host false None
         (new_JupyterServerInstallation linux_host "/ext" (Some "/home/u/py")
            {["PATH" := "/usr/bin"]} {["/home/u/py/0.0.1/bin/python3"]} ∅))
    = Some s1
    /\ step linux_host (EvConfigUpdated None) s1 = Some s2
    /\ outcome s2.2 = Resolved
    /\ trace s2.1 = [FsOpen "/home/u/py/0.0.1/bin/python3"; FsClose 3;
                     ConfigUpdate "notebook" "pythonPath" "/home/u/py"].
Proof.
  destruct (skip_install_when_present linux_host
              (new_JupyterServerInstallation linux_host "/ext" (Some "/home/u/py")
                 {["PATH" := "/usr/bin"]} {["/home/u/py/0.0.1/bin/python3"]} ∅)
              None null 3)
    as (s1 & s2 & H1 & _ & H2 & Hres & Htrace & _).
  - reflexivity.
  - reflexivity.
  - vm_compute. reflexivity.
  - exists s1, s2. repeat split; assumption.
Defined.

(** ** The in-progress guard after the call *)

(** The else-branch of [startInstallProcess] never resets the guard: when
    the call ends there, resolved or rejected, the guard is still set. *)
Lemma skip_branch_keeps_guard (h : Host) (w : world)
    (installationPath : option string) (err : any) (fd : Z)
    (written : option any) :
  let target :=
    match installationPath with
    | Some p => if truthy_str (Some p) then p else _pythonInstallationPath (this w)
    | None => _pythonInstallationPath (this w)
    end in
  isPythonRunning err = false ->
  _installInProgress (this w) = false ->
  getPythonExePath h target ∈ files w ->
  exists s,
    run h [EvOpen err fd; EvConfigUpdated written]
      (startInstallProcess h false installationPath w) = Some s
    /\ settled (outcome s.2) = true
    /\ at_ s.2 = Done
    /\ _installInProgress (this s.1) = true.
Proof.
  intros target Hrun Hflag Hexe.
  destruct (skip_branch h w installationPath err fd Hrun Hflag Hexe)
    as (s1 & Hstep & _ & Hat & _ & Hready & _ & Hguard).
  cbn [run]. rewrite Hstep. unfold step. rewrite Hat.
  destruct written as [e|]; eexists; (split; [reflexivity|]); cbn.
  - auto.
  - rewrite Hready. auto.
Qed.

(** In the background-task branch both endings reset it. *)
Lemma fail_clears_guard (h : Host) (err : any) (s : state) :
  _installInProgress (this (fail h err s).1) = false
  /\ at_ (fail h err s).2 = Done
  /\ installReady (fail h err s).2
     = reject (str (msgDependenciesInstallationFailed (getErrorMessage h err)))
         (installReady s.2).
Proof. unfold fail. cbn. auto. Qed.

Lemma then_update_clears_guard (h : Host) (s s' : state) (value : string)
    (written : option any) :
  at_ s.2 = AwaitThenUpdate value ->
  step h (EvConfigUpdated written) s = Some s' ->
  _installInProgress (this s'.1) = false /\ at_ s'.2 = Done.
Proof.
  intros Hat. unfold step. rewrite Hat.
  destruct written as [e|]; intros [= <-].
  - destruct (fail_clears_guard h e s) as (H1 & H2 & _). auto.
  - cbn. auto.
Qed.

Lemma in_task_control (s s' : state) : control s' = control s -> in_task s -> in_task s'.
Proof. unfold in_task, control. intros [= -> -> -> ->]. auto. Qed.

Lemma fail_in_task (h : Host) (err : any) (s : state) :
  ret s.2 = ReturnedReady -> installReady s.2 = Pending -> in_task (fail h err s).
Proof.
  intros Hret Hready. destruct (fail_clears_guard h err s) as (Hg & Hat & Hr).
  split; [exact Hret|]. right. rewrite Hr, Hready. auto.
Qed.

Lemma then_update_in_task (h : Host) (s : state) :
  ret s.2 = ReturnedReady -> installReady s.2 = Pending ->
  _installInProgress (this s.1) = true -> in_task (then_update h s).
Proof. intros Hret Hready Hg. split; [exact Hret|]. left. cbn. auto. Qed.

Lemma finish_in_task (h : Host) (s : state) :
  ret s.2 = ReturnedReady -> installReady s.2 = Pending ->
  _installInProgress (this s.1) = true -> in_task (finish h s).
Proof. intros Hret Hready Hg. unfold finish. apply then_update_in_task; assumption. Qed.

Lemma installSparkMagic_in_task (h : Host) (s : state) :
  ret s.2 = ReturnedReady -> installReady s.2 = Pending ->
  _installInProgress (this s.1) = true -> in_task (installSparkMagic h s).
Proof.
  intros Hret Hready Hg. unfold installSparkMagic. destruct (isWin h).
  - split; [exact Hret|]. left. cbn. auto.
  - apply finish_in_task; assumption.
Qed.

Lemma after_package_in_task (h : Host) (s : state) :
  ret s.2 = ReturnedReady -> installReady s.2 = Pending ->
  _installInProgress (this s.1) = true -> in_task (after_package h s).
Proof.
  intros Hret Hready Hg. unfold after_package, installJupyterProsePackage.
  destruct (isWin h).
  - split; [exact Hret|]. left. cbn. auto.
  - apply installSparkMagic_in_task; assumption.
Qed.

Lemma installDependencies_in_task (h : Host) (s : state) :
  ret s.2 = ReturnedReady -> installReady s.2 = Pending ->
  _installInProgress (this s.1) = true ->
  in_task (installDependencies h s)
  /\ (at_ (installDependencies h s).2 = AwaitPackage ->
      package (installDependencies h s).2 = Pending).
Proof.
  intros Hret Hready Hg. unfold installDependencies.
  destruct (negb (existsSync s.1 (_pythonExecutable (this s.1))) || _forceInstall (this s.1)).
  - split; [|reflexivity]. split; [exact Hret|]. left. cbn. auto.
  - split; [apply then_update_in_task; assumption|]. cbn. discriminate.
Qed.

Lemma settle_package_in_task (h : Host) (s : state) :
  in_task s -> in_task (settle_package h s).
Proof.
  intros Hs. unfold settle_package.
  destruct (at_ s.2) eqn:Hat; try exact Hs.
  destruct Hs as [Hret [(_ & Hready & Hg) | (Hdone & _)]]; [|congruence].
  destruct (package s.2).
  - split; [exact Hret|]. left. rewrite Hat. auto.
  - apply after_package_in_task; assumption.
  - apply fail_in_task; assumption.
Qed.

(** In the background-task branch the guard is cleared exactly when the
    returned promise settles, whatever the callbacks of the call do. *)
Lemma step_in_task (h : Host) (ev : event) (s s' : state) :
  step h ev s = Some s' -> in_task s -> in_task s'.
Proof.
  unfold step. intros Hstep Hs.
  destruct ev.
  - (* EvFiles *) injection Hstep as <-. exact Hs.
  - (* EvOpen *)
    destruct Hs as [_ [(Hw & _) | (Hd & _)]];
      destruct (at_ s.2); try discriminate.
  - (* EvCloseFd *)
    destruct (closing s.2); [|discriminate]. injection Hstep as <-. exact Hs.
  - (* EvConfigUpdated *)
    destruct Hs as [Hret [(Hw & Hready & Hg) | (Hd & _)]].
    + destruct (at_ s.2) eqn:Hat; try discriminate; destruct err; try discriminate;
        injection Hstep as <-.
      * apply fail_in_task; assumption.
      * split; [exact Hret|]. right. cbn. rewrite Hready. auto.
    + rewrite Hd in Hstep. destruct err; discriminate.
  - (* EvOperation *)
    destruct (at_ s.2) eqn:Hat; try discriminate. injection Hstep as <-.
    destruct Hs as [Hret [(_ & Hready & Hg) | (Hd & _)]]; [|congruence].
    destruct (installDependencies_in_task h s Hret Hready Hg) as [Hin Hpkg].
    unfold settle_package.
    destruct (at_ (installDependencies h s).2) eqn:Hat'; try exact Hin.
    rewrite (Hpkg eq_refl). exact Hin.
  - (* EvMkdirs *)
    destruct (download s.2); try discriminate. injection Hstep as <-.
    apply settle_package_in_task. eapply in_task_control; [|exact Hs].
    unfold on_mkdirs. destruct (truthy err); reflexivity.
  - (* EvRequestError *)
    destruct (download s.2); try discriminate. injection Hstep as <-.
    apply settle_package_in_task. eapply in_task_control; [|exact Hs]. reflexivity.
  - (* EvResponse *)
    destruct (download s.2); try discriminate. injection Hstep as <-.
    apply settle_package_in_task. eapply in_task_control; [|exact Hs].
    unfold on_response. destruct (negb (statusCode =? 200)%Z); reflexivity.
  - (* EvData *)
    destruct (download s.2); try discriminate. injection Hstep as <-.
    apply settle_package_in_task. eapply in_task_control; [|exact Hs].
    unfold on_data. cbv zeta. cbn [totalBytes with_progress].
    destruct (totalBytes s.2); [|reflexivity].
    match goal with |- context [if ?b then _ else _] => destruct b end; reflexivity.
  - (* EvClose *)
    destruct (download s.2); try discriminate. injection Hstep as <-.
    apply settle_package_in_task. eapply in_task_control; [|exact Hs].
    unfold on_close. cbv zeta. project.
    match goal with |- context [if ?b then _ else _] => destruct b end;
      [destruct removeSyncThrows|]; reflexivity.
  - (* EvStreamError *)
    destruct (download s.2); try discriminate. injection Hstep as <-.
    apply settle_package_in_task. eapply in_task_control; [|exact Hs]. reflexivity.
  - (* EvDecompressed *)
    destruct (download s.2); try discriminate. injection Hstep as <-.
    apply settle_package_in_task. eapply in_task_control; [|exact Hs].
    unfold on_decompressed. destruct err; reflexivity.
  - (* EvUnlinked *)
    destruct (download s.2); try discriminate. injection Hstep as <-.
    apply settle_package_in_task. eapply in_task_control; [|exact Hs].
    unfold on_unlinked. destruct (truthy err); reflexivity.
  - (* EvExecuted *)
    destruct Hs as [Hret [(Hw & Hready & Hg) | (Hd & _)]].
    + destruct (at_ s.2) eqn:Hat; try discriminate; destruct err; try discriminate;
        injection Hstep as <-;
        first [ apply fail_in_task; assumption
              | apply finish_in_task; assumption
              | apply installSparkMagic_in_task; assumption ].
    + rewrite Hd in Hstep. destruct err; discriminate.
Qed.

Lemma run_in_task (h : Host) (evs : list event) (s s' : state) :
  run h evs s = Some s' -> in_task s -> in_task s'.
Proof.
  revert s. induction evs as [|ev evs IH]; intros s Hrun Hs; cbn in Hrun.
  - injection Hrun as <-. exact Hs.
  - destruct (step h ev s) as [s1|] eqn:Hstep; [|discriminate].
    eapply IH; [exact Hrun|]. eapply step_in_task; eassumption.
Qed.

(** A call that passes the guards and finds the executable missing, or is
    forced, enters the background-task branch; from then on, whenever its
    promise is settled the guard is false. *)
Lemma task_branch_clears_guard (h : Host) (w : world) (forceInstall : bool)
    (installationPath : option string) (err : any) (fd : Z)
    (evs : list event) (s : state) :
  let target :=
    match installationPath with
    | Some p => if truthy_str (Some p) then p else _pythonInstallationPath (this w)
    | None => _pythonInstallationPath (this w)
    end in
  isPythonRunning err = false ->
  _installInProgress (this w) = false ->
  forceInstall = true \/ getPythonExePath h target ∉ files w ->
  run h (EvOpen err fd :: evs) (startInstallProcess h forceInstall installationPath w)
  = Some s ->
  in_task s
  /\ (settled (outcome s.2) = true -> _installInProgress (this s.1) = false).
Proof.
  intros target Hrun Hflag Hneed Hevs.
  destruct (guards_passed h w forceInstall installationPath err fd Hrun Hflag)
    as (s1 & Hstep & Hpath & Hexe & Hforce & Hg & Hfiles).
  cbn [run] in Hevs. rewrite Hstep in Hevs.
  assert (Hin : in_task s1).
  { revert Hstep. unfold step, startInstallProcess. cbn [fst snd at_ new_call].
    rewrite Hrun. intros [= <-]. unfold guarded_install.
    assert (Hf : forall e c,
               _installInProgress (this ((if truthy err then (emit e w, c)
                                          else (emit (FsClose fd) (emit e w),
                                                with_closing true c)).1)) = false).
    { intros e c. destruct (truthy err); exact Hflag. }
    rewrite Hf. cbv zeta.
    match goal with
    | |- context [if negb (existsSync ?w1 ?exe) || ?f then _ else _] =>
        assert (Hx : negb (existsSync w1 exe) || f = true)
    end.
    { destruct Hneed as [-> | Hmissing].
      - destruct (truthy err); cbn; apply orb_true_r.
      - unfold existsSync. destruct (truthy err); cbn; fold target;
          rewrite bool_decide_eq_false_2 by exact Hmissing; reflexivity. }
    rewrite Hx. split; [reflexivity|]. left. destruct (truthy err); cbn; auto. }
  pose proof (run_in_task h evs s1 s Hevs Hin) as Hs.
  split; [exact Hs|].
  destruct Hs as [Hret [(_ & Hready & _) | (_ & _ & Hclear)]].
  - unfold outcome. rewrite Hret, Hready. discriminate.
  - intros _. exact Hclear.
Qed.

(** C1 fails on the code.  The executable exists, nothing is running and
    no install is in progress: [startInstallProcess(false)] resolves, the
    guard [_installInProgress] is still true, and the next call on the same
    instance is rejected with [msgPendingInstallError]. *)
Theorem guard_left_set_after_skip :
  let w := new_JupyterServerInstallation linux_host "/ext" (Some "/home/u/py")
             {["PATH" := "/usr/bin"]} {["/home/u/py/0.0.1/bin/python3"]} ∅ in
  exists s s',
    run linux_host [EvOpen null 3; EvConfigUpdated None]
      (startInstallProcess linux_host false None w) = Some s
    /\ outcome s.2 = Resolved
    /\ _installInProgress (this s.1) = true
    /\ run linux_host [EvOpen null 4]
         (startInstallProcess linux_host false None s.1) = Some s'
    /\ outcome s'.2 = Rejected (str msgPendingInstallError).
Proof.
  cbv zeta. eexists. eexists.
  split; [vm_compute; reflexivity|].
  split; [reflexivity|].
  split; [reflexivity|].
  split; [vm_compute; reflexivity|].
  reflexivity.
Qed.

(** ** The download and unpack callbacks *)

(** The [close] callback of the write stream starts [decompress] whatever
    the response was and whether or not the package promise is still
    pending. *)
Lemma close_decompresses (h : Host) (removed : option any) (s s' : state) :
  step h (EvClose removed) s = Some s' ->
  Decompress (pythonPackagePathLocal s.2) (_pythonInstallationPath (this s.1))
    ∈ trace s'.1.
Proof.
  unfold step. destruct (download s.2); try discriminate. intros [= <-].
  destruct (settle_package_ext h (on_close h removed s)) as [_ (es & -> & _)].
  apply elem_of_app. left.
  unfold on_close. cbv zeta. project.
  match goal with |- context [if ?b then _ else _] => destruct b end;
    [destruct removed|]; project; cbn [trace emit];
    apply elem_of_app; right; apply list_elem_of_singleton; reflexivity.
Qed.

Lemma settle_package_download (h : Host) (s : state) :
  download (settle_package h s).2 = download s.2.
Proof.
  unfold settle_package.
  destruct (at_ s.2); try reflexivity.
  destruct (package s.2); try reflexivity.
  unfold after_package, installJupyterProsePackage, installSparkMagic, finish,
    then_update, updateConfig.
  destruct (isWin h); reflexivity.
Qed.

(** A response, whatever its status code, leaves the stream callbacks
    registered: the [close] callback will still run. *)
Lemma response_keeps_streaming (h : Host) (code : Z) (msg : string)
    (len : option Z) (s s' : state) :
  step h (EvResponse code msg len) s = Some s' ->
  download s'.2 = Streaming.
Proof.
  unfold step. destruct (download s.2) eqn:Hd; try discriminate. intros [= <-].
  rewrite settle_package_download.
  unfold on_response. cbv zeta.
  destruct (negb (code =? 200)%Z); exact Hd.
Qed.

(** While the package promise is pending, a response other than 200
    rejects the call, with the status message in the reason, sets the task
    status to [Failed] and clears the guard. *)
Lemma non_200_rejects (h : Host) (code : Z) (msg : string) (len : option Z)
    (s s' : state) :
  (code =? 200)%Z = false ->
  at_ s.2 = AwaitPackage -> package s.2 = Pending -> installReady s.2 = Pending ->
  step h (EvResponse code msg len) s = Some s' ->
  installReady s'.2
  = Rejected (str (msgDependenciesInstallationFailed (getErrorMessage h (str msg))))
  /\ last_status (trace s'.1) = Some Failed
  /\ _installInProgress (this s'.1) = false.
Proof.
  intros Hcode Hat Hpkg Hready. unfold step.
  destruct (download s.2); try discriminate. intros [= <-].
  unfold on_response. rewrite Hcode. cbv zeta. cbn [negb].
  unfold settle_package. project. cbn [at_ package with_progress with_package].
  rewrite Hat, Hpkg. cbn [reject].
  match goal with
  | |- context [fail h (str msg) ?s0] =>
      destruct (fail_clears_guard h (str msg) s0) as (Hg & _ & Hr)
  end.
  split; [rewrite Hr; cbn; rewrite Hready; reflexivity|].
  split; [|exact Hg].
  unfold fail. cbn [fst snd say trace emit set_installInProgress with_this].
  generalize (trace s.1). intros t.
  assert (Hlast : forall (t : list effect) st m e,
             last_status ((t ++ [UpdateStatus st m]) ++ [e])
             = match e with UpdateStatus st' _ => Some st' | _ => Some st end).
  { clear. intros t st m e. induction t as [|x t IH]; cbn.
    - destruct e; reflexivity.
    - cbn in IH. rewrite IH. destruct e; reflexivity. }
  rewrite Hlast. reflexivity.
Qed.

(** ... and yet the stream keeps going: when it closes, the archive is
    unpacked. *)
Lemma non_200_then_close_unpacks (h : Host) (code : Z) (msg : string)
    (len : option Z) (removed : option any) (s s1 : state) :
  step h (EvResponse code msg len) s = Some s1 ->
  exists s2,
    step h (EvClose removed) s1 = Some s2
    /\ Decompress (pythonPackagePathLocal s1.2) (_pythonInstallationPath (this s1.1))
         ∈ trace s2.1.
Proof.
  intros Hresp.
  pose proof (response_keeps_streaming h code msg len s s1 Hresp) as Hd.
  assert (Hstep : exists s2, step h (EvClose removed) s1 = Some s2).
  { unfold step. rewrite Hd. eexists. reflexivity. }
  destruct Hstep as [s2 Hstep]. exists s2. split; [exact Hstep|].
  eapply close_decompresses. exact Hstep.
Qed.

(** C3 fails on the code.  A fresh install on Linux; the server answers
    404.  The call is rejected with the download error and the task is set
    to [Failed]; but the 404 callback does not stop the stream, so when the
    stream closes [decompress] is called on what was downloaded, and when
    that fails the task status is set back to [InProgress]. *)
Theorem non_200_response_still_unpacks :
  let w := new_JupyterServerInstallation linux_host "/ext" (Some "/home/u/py")
             {["PATH" := "/usr/bin"]} ∅ ∅ in
  exists s1 s2 s3,
    run linux_host
      [EvOpen (error "ENOENT" "no such file or directory") 0; EvOperation;
       EvMkdirs null; EvResponse 404 "Not Found" None]
      (startInstallProcess linux_host false None w) = Some s1
    /\ outcome s1.2
       = Rejected (str "Installing Notebook dependencies failed with error: Not Found")
    /\ last_status (trace s1.1) = Some Failed
    /\ existsb is_decompress (trace s1.1) = false
    /\ step linux_host (EvClose None) s1 = Some s2
    /\ last (trace s2.1)
       = Some (Decompress "/home/u/py/python-3.6.6-linux-x64-0.0.1.tar.gz" "/home/u/py")
    /\ step linux_host (EvDecompressed (Some (error "" "unexpected end of archive"))) s2
       = Some s3
    /\ last_status (trace s3.1) = Some InProgress
    /\ outcome s3.2 = outcome s1.2.
Proof.
  cbv zeta. eexists. eexists. eexists.
  split; [vm_compute; reflexivity|].
  split; [reflexivity|].
  split; [vm_compute; reflexivity|].
  split; [vm_compute; reflexivity|].
  split; [vm_compute; reflexivity|].
  split; [vm_compute; reflexivity|].
  split; [vm_compute; reflexivity|].
  split; [vm_compute; reflexivity|].
  reflexivity.
Qed.

(** While the package promise is pending, a failing [decompress] rejects
    the call with that error. *)
Lemma decompress_error_rejects (h : Host) (err : any) (s s' : state) :
  at_ s.2 = AwaitPackage -> package s.2 = Pending -> installReady s.2 = Pending ->
  step h (EvDecompressed (Some err)) s = Some s' ->
  installReady s'.2
  = Rejected (str (msgDependenciesInstallationFailed (getErrorMessage h err)))
  /\ _installInProgress (this s'.1) = false.
Proof.
  intros Hat Hpkg Hready. unfold step.
  destruct (download s.2); try discriminate. intros [= <-].
  unfold on_decompressed. cbv zeta.
  unfold settle_package. project. cbn [at_ package with_download with_package].
  rewrite Hat, Hpkg. cbn [reject].
  match goal with
  | |- context [fail h err ?s0] =>
      destruct (fail_clears_guard h err s0) as (Hg & _ & Hr)
  end.
  split; [rewrite Hr; cbn; rewrite Hready; reflexivity | exact Hg].
Qed.

(** A successful [decompress] asks for the archive to be deleted and
    resolves the package promise in the same callback, before [fs.unlink]
    can report anything. *)
Lemma decompress_success_unlinks_and_resolves (h : Host) (s s' : state) :
  package s.2 = Pending ->
  step h (EvDecompressed None) s = Some s' ->
  Unlink (pythonPackagePathLocal s.2) ∈ trace s'.1
  /\ package s'.2 = Resolved.
Proof.
  intros Hpkg. unfold step.
  destruct (download s.2); try discriminate. intros [= <-].
  rewrite Hpkg. cbn [resolve]. split.
  - match goal with
    | |- context [settle_package h ?s0] =>
        destruct (settle_package_ext h s0) as [_ (es & -> & _)]
    end.
    apply elem_of_app. left. cbn [fst trace emit].
    apply elem_of_app. right. apply list_elem_of_singleton. reflexivity.
  - unfold settle_package. cbn [snd at_ package with_download with_package].
    destruct (at_ s.2); try reflexivity.
    unfold after_package, installJupyterProsePackage, installSparkMagic, finish,
      then_update, updateConfig.
    destruct (isWin h); reflexivity.
Qed.

(** C4 fails on the code.  A fresh install on Linux; download and
    [decompress] succeed, then deleting the archive fails.  [fs.unlink]
    was asked to delete the archive, but its error arrives after the
    package promise was resolved: the task is reported [Succeeded], the
    call resolves, and the late error only sets the task status back to
    [InProgress]. *)
Theorem unlink_error_does_not_fail_install :
  let w := new_JupyterServerInstallation linux_host "/ext" (Some "/home/u/py")
             {["PATH" := "/usr/bin"]} ∅ ∅ in
  exists s1 s2 s3,
    run linux_host
      [EvOpen (error "ENOENT" "no such file or directory") 0; EvOperation;
       EvMkdirs null; EvResponse 200 "OK" (Some 2097152%Z); EvData 2097152;
       EvClose None; EvDecompressed None]
      (startInstallProcess linux_host false None w) = Some s1
    /\ last_status (trace s1.1) = Some Succeeded
    /\ Unlink "/home/u/py/python-3.6.6-linux-x64-0.0.1.tar.gz" ∈ trace s1.1
    /\ step linux_host (EvUnlinked (error "EACCES" "permission denied")) s1 = Some s2
    /\ last (trace s2.1)
       = Some (UpdateStatus InProgress msgPythonUnpackError)
    /\ step linux_host (EvConfigUpdated None) s2 = Some s3
    /\ outcome s3.2 = Resolved
    /\ _installInProgress (this s3.1) = false.
Proof.
  cbv zeta. eexists. eexists. eexists.
  split; [vm_compute; reflexivity|].
  split; [vm_compute; reflexivity|].
  split; [apply list_elem_of_In; vm_compute; repeat (first [left; reflexivity | right])|].
  split; [vm_compute; reflexivity|].
  split; [vm_compute; reflexivity|].
  split; [vm_compute; reflexivity|].
  split; [reflexivity|].
  reflexivity.
Qed.

(** ** The worker factory *)

Module WorkerFactoryFacts.
Import WorkerFactory.



























End WorkerFactoryFacts.



(** * Further properties of the code *)

(** ** [configurePackagePaths] and the environment *)

(** Decides membership in a list of string literals. *)
Ltac in_literals :=
  rewrite ?elem_of_cons, ?elem_of_nil; tauto.

Lemma delete_python_vars_lookup (env : gmap string string) (k : string) :
  delete "PYTHONHOME" (delete "PYTHONSTARTUP" (delete "PYTHONPATH" env)) !! k
  = if bool_decide (k ∈ ["PYTHONPATH"; "PYTHONSTARTUP"; "PYTHONHOME"]) then None
    else env !! k.
Proof.
  rewrite !lookup_delete.
  destruct (decide ("PYTHONHOME" = k)) as [<-|H1].
  { rewrite bool_decide_eq_true_2 by in_literals. reflexivity. }
  destruct (decide ("PYTHONSTARTUP" = k)) as [<-|H2].
  { rewrite bool_decide_eq_true_2 by in_literals. reflexivity. }
  destruct (decide ("PYTHONPATH" = k)) as [<-|H3].
  { rewrite bool_decide_eq_true_2 by in_literals. reflexivity. }
  rewrite bool_decide_eq_false_2; [reflexivity|].
  rewrite !elem_of_cons, elem_of_nil. intros [?|[?|[?|[]]]]; congruence.
Qed.

(** X1.  Reconfiguring is idempotent: a second [configurePackagePaths] in
    a row changes nothing, neither in the installer nor in [process.env]. *)
Theorem configurePackagePaths_idempotent :
  forall (h : Host) (w : world),
    configurePackagePaths h (configurePackagePaths h w) = configurePackagePaths h w.
Proof.
  intros h w. unfold configurePackagePaths. cbv zeta.
  cbn [this process_env files settings trace _pythonInstallationPath extensionPath
       _forceInstall _installInProgress].
  set (env1 := delete "PYTHONHOME" (delete "PYTHONSTARTUP" (delete "PYTHONPATH" (process_env w)))).
  assert (Hpath : env1 !! "PATH" = process_env w !! "PATH").
  { unfold env1. rewrite delete_python_vars_lookup. reflexivity. }
  assert (Hidem : delete "PYTHONHOME" (delete "PYTHONSTARTUP" (delete "PYTHONPATH" env1)) = env1).
  { apply map_eq. intros k. rewrite delete_python_vars_lookup.
    case_bool_decide as Hin; [|reflexivity].
    unfold env1. rewrite delete_python_vars_lookup.
    rewrite bool_decide_eq_true_2 by exact Hin. reflexivity. }
  rewrite Hidem, Hpath. reflexivity.
Qed.

(** X2.  Off Windows, where [process.env] keeps every name as it is
    spelled: after [configurePackagePaths], [process.env] has lost exactly
    the variables PYTHONPATH, PYTHONSTARTUP and PYTHONHOME, and the
    environment kept for child processes is that [process.env] with [Path]
    removed and PATH set to the derived search path: a child never sees the
    three Python variables nor a [Path] entry. *)
Theorem configurePackagePaths_environment :
  forall (h : Host) (w : world) (k : string),
    process_platform h <> "win32" ->
    let w' := configurePackagePaths h w in
    process_env w' !! k
    = (if bool_decide (k ∈ ["PYTHONPATH"; "PYTHONSTARTUP"; "PYTHONHOME"]) then None
       else process_env w !! k)
    /\ execOptions (this w') !! k
       = (if bool_decide (k = "PATH") then Some (pythonEnvVarPath (this w'))
          else if bool_decide (k ∈ ["Path"; "PYTHONPATH"; "PYTHONSTARTUP"; "PYTHONHOME"])
               then None
               else process_env w !! k).
Proof.
  intros h w k _. cbn. split; [apply delete_python_vars_lookup|].
  rewrite lookup_insert. case_decide as Hk.
  - subst k. rewrite bool_decide_eq_true_2 by reflexivity. reflexivity.
  - rewrite bool_decide_eq_false_2 by congruence.
    rewrite lookup_delete. case_decide as Hp.
    + subst k. rewrite bool_decide_eq_true_2 by in_literals. reflexivity.
    + rewrite delete_python_vars_lookup.
      case_bool_decide as Hin.
      * rewrite bool_decide_eq_true_2; [reflexivity|].
        apply elem_of_cons. right. exact Hin.
      * rewrite bool_decide_eq_false_2; [reflexivity|].
        intros Hin'. apply elem_of_cons in Hin' as [Heq|Hin']; [congruence | contradiction].
Qed.

(** A Linux environment that carries PYTHONHOME and a stray [Path]. *)
Lemma configurePackagePaths_environment_witness :
  let w := {| this := this fresh_linux_installer;
              process_env := {["PATH" := "/usr/bin"; "Path" := "/opt/bin";
                               "PYTHONHOME" := "/usr/lib/python2.7";
                               "HOME" := "/home/u"]};
              files := ∅; settings := ∅; trace := [] |} in
  let w' := configurePackagePaths linux_host w in
  process_env w' !! "PYTHONHOME" = None
  /\ process_env w' !! "Path" = Some "/opt/bin"
  /\ execOptions (this w') !! "Path" = None
  /\ execOptions (this w') !! "HOME" = Some "/home/u"
  /\ execOptions (this w') !! "PATH" = Some "/home/u/py/0.0.1/bin:/usr/bin".
Proof.
  intros w w'.
  assert (Hlinux : process_platform linux_host <> "win32") by discriminate.
  destruct (configurePackagePaths_environment linux_host w "PYTHONHOME" Hlinux)
    as (Hhome & _).
  destruct (configurePackagePaths_environment linux_host w "Path" Hlinux)
    as (Hpath & Hchild).
  destruct (configurePackagePaths_environment linux_host w "HOME" Hlinux)
    as (_ & Hkept).
  destruct (configurePackagePaths_environment linux_host w "PATH" Hlinux)
    as (_ & Hsearch).
  split; [exact Hhome|]. split; [exact Hpath|]. split; [exact Hchild|].
  split; [exact Hkept|]. unfold w'. rewrite Hsearch. vm_compute. reflexivity.
Defined.

(** ** The default installation path *)

(** X3.  Built without an installation path (none given, or an empty one),
    an installer takes the path [getPythonInstallPath] reports: the
    recorded setting when [getPythonPathSetting] accepts it, the default
    location under the user's home otherwise.  If [isPythonInstalled]
    holds at that moment, the executable of the new installer exists on
    disk. *)
Theorem constructor_default_path :
  forall (h : Host) (ext : string) (given : option string)
         (env : gmap string string) (fs : gset string) (st : store),
    truthy_str given = false ->
    let w := new_JupyterServerInstallation h ext given env fs st in
    _pythonInstallationPath (this w) = getPythonInstallPath h fs (Some st)
    /\ getPythonInstallPath h fs (Some st)
       = default (Path.join (path h) [getUserHome h; "azuredatastudio-python"])
           (getPythonPathSetting h fs (Some st))
    /\ (Installer.isPythonInstalled h fs (Some st) = true ->
        _pythonExecutable (this w) ∈ fs).
Proof.
  intros h ext given env fs st Hgiven w.
  assert (Hpath : _pythonInstallationPath (this w) = getPythonInstallPath h fs (Some st)).
  { unfold w. cbn. destruct given as [p|]; [|reflexivity].
    cbn in Hgiven. cbn. rewrite Hgiven. reflexivity. }
  assert (Hget : getPythonInstallPath h fs (Some st)
                 = default (DefaultPythonLocation h) (getPythonPathSetting h fs (Some st))).
  { unfold getPythonInstallPath.
    destruct (getPythonPathSetting h fs (Some st)) as [p|] eqn:Hp; [|reflexivity].
    apply getPythonPathSetting_Some in Hp as (_ & _ & _ & _ & _ & Hne & _).
    cbn. destruct (String.eqb_spec p EmptyString); [contradiction | reflexivity]. }
  split; [exact Hpath|]. split; [exact Hget|].
  unfold Installer.isPythonInstalled. intros Hinst.
  destruct (getPythonPathSetting h fs (Some st)) as [p|] eqn:Hp; [|discriminate].
  destruct (negb (truthy_str (Some p))); [discriminate|].
  apply bool_decide_eq_true in Hinst.
  replace (_pythonExecutable (this w))
    with (getPythonExePath h (_pythonInstallationPath (this w))) by reflexivity.
  rewrite Hpath, Hget. exact Hinst.
Qed.

Lemma constructor_default_path_witness :
  let w := new_JupyterServerInstallation linux_host "/ext" (Some EmptyString)
             {["PATH" := "/usr/bin"]} {["/opt/py"; "/opt/py/0.0.1/bin/python3"]}
             {["notebook" := {["pythonPath" := "/opt/py"]}]} in
  _pythonInstallationPath (this w) = "/opt/py"
  /\ _pythonExecutable (this w) ∈ ({["/opt/py"; "/opt/py/0.0.1/bin/python3"]} : gset string).
Proof.
  intros w.
  destruct (constructor_default_path linux_host "/ext" (Some EmptyString)
              {["PATH" := "/usr/bin"]} {["/opt/py"; "/opt/py/0.0.1/bin/python3"]}
              {["notebook" := {["pythonPath" := "/opt/py"]}]} eq_refl)
    as (Hpath & _ & Hexe).
  split; [exact Hpath|]. apply Hexe. vm_compute. reflexivity.
Defined.

(** ** The archive's file name *)

Lemma append_cons (x : ascii) (a b : string) : String x a +:+ b = String x (a +:+ b).
Proof. reflexivity. Qed.

Lemma append_nil_l (b : string) : EmptyString +:+ b = b.
Proof. reflexivity. Qed.

Lemma append_assoc (a b c : string) : (a +:+ b) +:+ c = a +:+ b +:+ c.
Proof.
  induction a as [|x a IH]; [reflexivity|].
  rewrite !append_cons, IH. reflexivity.
Qed.

Lemma hash_free_append (a b : string) :
  hash_free (a +:+ b) = hash_free a && hash_free b.
Proof.
  induction a as [|x a IH]; [reflexivity|].
  rewrite append_cons. cbn [hash_free]. rewrite IH. apply andb_assoc.
Qed.

Lemma starts_with_append (a s : string) : starts_with a (a +:+ s) = true.
Proof.
  induction a as [|x a IH]; [reflexivity|].
  rewrite append_cons. cbn [starts_with]. rewrite Ascii.eqb_refl. exact IH.
Qed.

Lemma substring_all (s : string) (n : nat) :
  String.length s <= n -> String.substring 0 n s = s.
Proof.
  revert n. induction s as [|x s IH]; intros n Hn; cbn in *.
  - destruct n; reflexivity.
  - destruct n as [|n]; [lia|]. rewrite IH by lia. reflexivity.
Qed.

Lemma substring_after (a s : string) (n : nat) :
  String.length s <= n -> String.substring (String.length a) n (a +:+ s) = s.
Proof.
  intros Hn. induction a as [|x a IH]; [apply substring_all; exact Hn|].
  rewrite append_cons. cbn [String.length String.substring]. exact IH.
Qed.

Lemma length_append (a s : string) :
  String.length (a +:+ s) = String.length a + String.length s.
Proof.
  induction a as [|x a IH]; [reflexivity|].
  rewrite append_cons. cbn [String.length]. rewrite IH. reflexivity.
Qed.

(** A replacement without [$] is put in as it is. *)
Lemma substitution_plain (rep matched before after : string) :
  dollar_free rep = true -> substitution rep matched before after = rep.
Proof.
  induction rep as [|c rep IH]; [reflexivity|].
  cbn [dollar_free]. intros [Hc Hrep]%andb_true_iff.
  apply negb_true_iff in Hc. cbn [substitution]. rewrite Hc, IH by exact Hrep.
  reflexivity.
Qed.

(** [replace] at the occurrence it finds first. *)
Lemma replace_here (before pat rep s : string) :
  dollar_free rep = true ->
  replace_from before pat rep (pat +:+ s) = rep +:+ s.
Proof.
  intros Hrep.
  assert (Hsub : String.substring (String.length pat) (String.length (pat +:+ s))
                   (pat +:+ s) = s).
  { apply substring_after. rewrite length_append. lia. }
  pose proof (starts_with_append pat s) as Hst.
  destruct (pat +:+ s) as [|c t] eqn:Hps; cbn [replace_from]; cbv zeta;
    rewrite Hst, Hsub, substitution_plain by exact Hrep; reflexivity.
Qed.

(** A pattern that starts with [#] is not found inside a text without [#]. *)
Lemma replace_skips (before pat rep a s : string) :
  hash_free a = true ->
  replace_from before (String "#"%char pat) rep (a +:+ s)
  = a +:+ replace_from (before +:+ a) (String "#"%char pat) rep s.
Proof.
  intros Ha. revert before. induction a as [|x a IH]; intros before.
  - rewrite !append_nil_l. replace (before +:+ EmptyString) with before; [reflexivity|].
    clear. induction before as [|y b IHb]; [reflexivity|].
    rewrite append_cons, <- IHb. reflexivity.
  - cbn [hash_free] in Ha. apply andb_true_iff in Ha as [Hx Ha].
    rewrite !append_cons. cbn [replace_from starts_with].
    rewrite Ascii.eqb_sym. apply negb_true_iff in Hx. rewrite Hx. cbn [andb].
    rewrite (IH Ha), append_assoc. reflexivity.
Qed.

(** X4.  When neither the Python version, the platform id nor the bundle
    version contains a [#] or a [$], the four replacements land where the
    template has its placeholders and put the texts in as they are: the
    archive is named
    [python-{pythonVersion}-{platformId}-{bundleVersion}.{zip|tar.gz}], with
    [zip] on Windows only. *)
Theorem packageName_format :
  forall h : Host,
    hash_free (pythonVersion h) = true ->
    hash_free (getOSPlatformId h) = true ->
    hash_free (pythonBundleVersion h) = true ->
    dollar_free (pythonVersion h) = true ->
    dollar_free (getOSPlatformId h) = true ->
    dollar_free (pythonBundleVersion h) = true ->
    packageName h
    = "python-" +:+ pythonVersion h +:+ "-" +:+ getOSPlatformId h +:+ "-"
      +:+ pythonBundleVersion h +:+ "." +:+ (if isWin h then "zip" else "tar.gz").
Proof.
  intros h Hpv Hid Hbv Dpv Did Dbv. unfold packageName, replace.
  set (pv := pythonVersion h) in *. set (pid := getOSPlatformId h) in *.
  set (bv := pythonBundleVersion h) in *. set (ext := if isWin h then "zip" else "tar.gz").
  assert (Dext : dollar_free ext = true) by (unfold ext; destruct (isWin h); reflexivity).
  assert (E1 : replace_from EmptyString "#platform" pid
                 "python-#pythonversion-#platform-#bundleversion.#extension"
               = "python-" +:+ "#pythonversion" +:+ "-" +:+ pid
                 +:+ "-#bundleversion.#extension").
  { change "python-#pythonversion-#platform-#bundleversion.#extension"
      with ("python-" +:+ "#pythonversion-" +:+ "#platform" +:+ "-#bundleversion.#extension").
    rewrite (replace_skips EmptyString "platform" pid "python-") by reflexivity.
    change ("#pythonversion-" +:+ "#platform" +:+ "-#bundleversion.#extension")
      with (String "#"%char ("pythonversion-" +:+ "#platform" +:+ "-#bundleversion.#extension")).
    cbn [replace_from starts_with Ascii.eqb Bool.eqb andb].
    rewrite (replace_skips _ "platform" pid "pythonversion-") by reflexivity.
    rewrite replace_here by exact Did. reflexivity. }
  rewrite E1.
  rewrite (replace_skips EmptyString "pythonversion" pv "python-") by reflexivity.
  rewrite replace_here by exact Dpv.
  assert (E3 : "python-" +:+ pv +:+ "-" +:+ pid +:+ "-#bundleversion.#extension"
               = ("python-" +:+ pv +:+ "-" +:+ pid +:+ "-")
                 +:+ "#bundleversion" +:+ ".#extension").
  { rewrite !append_assoc. reflexivity. }
  rewrite E3.
  rewrite (replace_skips EmptyString "bundleversion" bv)
    by (rewrite !hash_free_append, Hpv, Hid; reflexivity).
  rewrite replace_here by exact Dbv.
  assert (E4 : ("python-" +:+ pv +:+ "-" +:+ pid +:+ "-") +:+ bv +:+ ".#extension"
               = ("python-" +:+ pv +:+ "-" +:+ pid +:+ "-" +:+ bv +:+ ".")
                 +:+ "#extension" +:+ EmptyString).
  { rewrite !append_assoc. reflexivity. }
  rewrite E4.
  rewrite (replace_skips EmptyString "extension" ext)
    by (rewrite !hash_free_append, Hpv, Hid, Hbv; reflexivity).
  rewrite replace_here by exact Dext. rewrite !append_assoc.
  replace (ext +:+ EmptyString) with ext; [reflexivity|].
  unfold ext. destruct (isWin h); reflexivity.
Qed.

Lemma packageName_format_witness :
  packageName windows_host = "python-3.6.6-win-x64-0.0.1.zip".
Proof.
  exact (packageName_format windows_host eq_refl eq_refl eq_refl eq_refl eq_refl eq_refl).
Defined.

(** Without the precondition a replacement can land inside an earlier
    substitution. *)
Example packageName_misplaced :
  replace "#extension" "zip"
    (replace "#bundleversion" "0.0.1"
       (replace "#pythonversion" "3#bundleversion"
          (replace "#platform" "win-x64"
             "python-#pythonversion-#platform-#bundleversion.#extension")))
  = "python-30.0.1-win-x64-#bundleversion.zip".
Proof. vm_compute. reflexivity. Qed.

(** ... and a [$] in a replacement is read as a pattern: [$&] puts the
    placeholder back, [$$] leaves one dollar sign. *)
Example packageName_dollar :
  replace "#pythonversion" "$&"
    "python-#pythonversion-linux-x64-#bundleversion.#extension"
  = "python-#pythonversion-linux-x64-#bundleversion.#extension"
  /\ replace "#pythonversion" "3$$6"
       "python-#pythonversion-linux-x64-#bundleversion.#extension"
     = "python-3$6-linux-x64-#bundleversion.#extension"
  /\ replace "#pythonversion" "$`|$'|$1"
       "py-#pythonversion-x"
     = "py-py-|-x|$1-x".
Proof. repeat split; vm_compute; reflexivity. Qed.

(** ** The promise a call returns *)

Lemma outcome_pending (c : call) :
  installReady c = Pending -> ret c = NotYet \/ ret c = ReturnedReady -> outcome c = Pending.
Proof. unfold outcome. intros -> [-> | ->]; reflexivity. Qed.

Lemma call_ok_pending (h : Host) (s : state) :
  call_ok h s -> at_ s.2 <> Done -> outcome s.2 = Pending.
Proof.
  unfold call_ok. intros Hok Hat.
  destruct (at_ s.2); try contradiction;
    apply outcome_pending; intuition.
Qed.

Lemma call_ok_done (h : Host) (s : state) :
  call_ok h s -> outcome s.2 <> Pending -> at_ s.2 = Done.
Proof.
  intros Hok Hn. destruct (at_ s.2) eqn:Hat; try reflexivity;
    exfalso; apply Hn; apply (call_ok_pending h s Hok); rewrite Hat; discriminate.
Qed.

Lemma call_ok_same (h : Host) (s s' : state) :
  same_installer s s' ->
  (forall e, e ∈ trace s.1 -> e ∈ trace s'.1) ->
  call_ok h s -> call_ok h s'.
Proof.
  intros (Hthis & Hset & Hat & Hret & Hready) Htrace. unfold call_ok, outcome, recorded.
  rewrite Hthis, Hset, Hat, Hret, Hready.
  destruct (at_ s.2); auto.
  intros (H1 & H2 & H3). split; [exact H1|]. split; [exact H2|].
  intros reason Hr. destruct (H3 reason Hr) as (err & -> & Hu & Hs & Hg & Hr').
  exists err. auto.
Qed.

Lemma fail_call_ok (h : Host) (err : any) (s : state) :
  ret s.2 = ReturnedReady -> installReady s.2 = Pending -> call_ok h (fail h err s).
Proof.
  intros Hret Hready. unfold call_ok, fail, outcome. cbn. rewrite Hret, Hready. cbn.
  split; [reflexivity|]. split; [discriminate|].
  intros reason [= <-]. exists err. split; [reflexivity|].
  split; [|split; [|split; reflexivity]].
  - apply elem_of_app. left. apply elem_of_app. right. apply list_elem_of_singleton. reflexivity.
  - apply elem_of_app. right. apply list_elem_of_singleton. reflexivity.
Qed.

Lemma then_update_call_ok (h : Host) (s : state) :
  ret s.2 = ReturnedReady -> installReady s.2 = Pending -> call_ok h (then_update h s).
Proof. intros Hret Hready. unfold call_ok. cbn. auto. Qed.

Lemma installSparkMagic_call_ok (h : Host) (s : state) :
  ret s.2 = ReturnedReady -> installReady s.2 = Pending -> call_ok h (installSparkMagic h s).
Proof.
  intros Hret Hready. unfold installSparkMagic. destruct (isWin h).
  - unfold call_ok. cbn. auto.
  - unfold finish. apply then_update_call_ok; assumption.
Qed.

Lemma after_package_call_ok (h : Host) (s : state) :
  ret s.2 = ReturnedReady -> installReady s.2 = Pending -> call_ok h (after_package h s).
Proof.
  intros Hret Hready. unfold after_package, installJupyterProsePackage. destruct (isWin h).
  - unfold call_ok. cbn. auto.
  - apply installSparkMagic_call_ok; assumption.
Qed.

Lemma settle_package_call_ok (h : Host) (s : state) :
  call_ok h s -> call_ok h (settle_package h s).
Proof.
  intros Hok. unfold settle_package.
  destruct (at_ s.2) eqn:Hat; try exact Hok.
  assert (Hp : ret s.2 = ReturnedReady /\ installReady s.2 = Pending).
  { unfold call_ok in Hok. rewrite Hat in Hok. exact Hok. }
  destruct Hp as [Hret Hready].
  destruct (package s.2); [exact Hok | apply after_package_call_ok | apply fail_call_ok];
    assumption.
Qed.

(** The callbacks of [installPythonPackage], before the package promise is
    looked at, touch neither the installer, the store nor the promises of
    the call. *)
Lemma download_callbacks_same (h : Host) (s : state) :
  (forall err, same_installer s (on_mkdirs h err s))
  /\ (forall e, same_installer s (on_download_error e s))
  /\ (forall code msg len, same_installer s (on_response h code msg len s))
  /\ (forall n, same_installer s (on_data h n s))
  /\ (forall removed, same_installer s (on_close h removed s))
  /\ (forall err, same_installer s (on_decompressed err s))
  /\ (forall err, same_installer s (on_unlinked err s)).
Proof.
  unfold same_installer. repeat split.
  all: try (unfold on_mkdirs; destruct (truthy err); reflexivity).
  all: try (unfold on_response; destruct (negb (code =? 200)%Z); reflexivity).
  all: try (unfold on_data; cbv zeta; cbn [totalBytes with_progress];
            destruct (totalBytes s.2); [|reflexivity];
            match goal with |- context [if ?b then _ else _] => destruct b end;
            reflexivity).
  all: try (unfold on_close; cbv zeta; cbn [fst snd say];
            match goal with |- context [if ?b then _ else _] => destruct b end;
            [destruct removed|]; reflexivity).
  all: try (unfold on_decompressed; destruct err; reflexivity).
  all: try (unfold on_unlinked; destruct (truthy err); reflexivity).
Qed.

Lemma trace_grows (h : Host) (ev : event) (s s' : state) :
  step h ev s = Some s' -> forall e, e ∈ trace s.1 -> e ∈ trace s'.1.
Proof.
  intros Hstep e He.
  destruct (step_ext h ev s s' Hstep) as [_ (es & -> & _)].
  apply elem_of_app. left. exact He.
Qed.

Lemma run_trace_grows (h : Host) (evs : list event) (s s' : state) :
  run h evs s = Some s' -> forall e, e ∈ trace s.1 -> e ∈ trace s'.1.
Proof.
  intros Hrun e He.
  destruct (run_ext h evs s s' Hrun) as [_ (es & -> & _)].
  apply elem_of_app. left. exact He.
Qed.

Lemma returned_rejected_call_ok (h : Host) (reason : any) (s : state) :
  installReady s.2 = Pending ->
  call_ok h (s.1, goto Done (return_ (ReturnedRejected reason) s.2)).
Proof.
  intros Hready. unfold call_ok, outcome. cbn. rewrite Hready.
  split; [reflexivity|]. split; discriminate.
Qed.

Lemma guarded_install_call_ok (h : Host) (forceInstall : bool)
    (installationPath : option string) (running : bool) (s : state) :
  ret s.2 = NotYet -> installReady s.2 = Pending ->
  call_ok h (guarded_install h forceInstall installationPath running s).
Proof.
  intros Hret Hready. unfold guarded_install.
  destruct running; [apply returned_rejected_call_ok; assumption|].
  destruct (_installInProgress (this s.1));
    [apply returned_rejected_call_ok; assumption|].
  cbv zeta.
  match goal with |- context [if ?b then _ else _] => destruct b end;
    unfold call_ok; cbn; auto.
Qed.

(** Every callback keeps [call_ok]. *)
Lemma step_call_ok (h : Host) (ev : event) (s s' : state) :
  step h ev s = Some s' -> call_ok h s -> call_ok h s'.
Proof.
  intros Hstep Hok. pose proof (trace_grows h ev s s' Hstep) as Hgrow.
  destruct (download_callbacks_same h s) as (Hm & He & Hr & Hd & Hc & Hz & Hu).
  revert Hstep. unfold step.
  destruct ev.
  - (* EvFiles *)
    intros [= <-]. eapply call_ok_same; [|exact Hgrow|exact Hok].
    unfold same_installer. repeat split.
  - (* EvOpen *)
    destruct (at_ s.2) eqn:Hat; try discriminate. intros [= <-].
    unfold call_ok in Hok. rewrite Hat in Hok. destruct Hok as [Hret Hready].
    apply guarded_install_call_ok; destruct (truthy err); assumption.
  - (* EvCloseFd *)
    destruct (closing s.2); [|discriminate]. intros [= <-].
    eapply call_ok_same; [|exact Hgrow|exact Hok].
    unfold same_installer. repeat split.
  - (* EvConfigUpdated *)
    destruct (at_ s.2) eqn:Hat; try discriminate;
      unfold call_ok in Hok; rewrite Hat in Hok;
      destruct Hok as (Hret & Hready & Hval); destruct err; intros [= <-].
    + apply returned_rejected_call_ok; assumption.
    + unfold call_ok, outcome, recorded, write_setting. cbn. rewrite Hready. cbn.
      split; [reflexivity|]. split; [|discriminate].
      intros _. rewrite lookup_insert_eq. cbn. rewrite lookup_insert_eq.
      rewrite Hval. reflexivity.
    + apply fail_call_ok; assumption.
    + unfold call_ok, outcome, recorded, write_setting. cbn. rewrite Hret, Hready. cbn.
      split; [reflexivity|]. split; [|discriminate].
      intros _. rewrite lookup_insert_eq. cbn. rewrite lookup_insert_eq.
      rewrite Hval. reflexivity.
  - (* EvOperation *)
    destruct (at_ s.2) eqn:Hat; try discriminate. intros [= <-].
    unfold call_ok in Hok. rewrite Hat in Hok. destruct Hok as [Hret Hready].
    apply settle_package_call_ok. unfold installDependencies.
    match goal with |- context [if ?b then _ else _] => destruct b end.
    + unfold call_ok. cbn. auto.
    + apply then_update_call_ok; assumption.
  - intros Hstep. destruct (download s.2); try discriminate. injection Hstep as <-.
    apply settle_package_call_ok.
    eapply call_ok_same; [apply Hm | | exact Hok].
    intros e Hin. destruct (on_mkdirs_ext h err s) as [_ (es & -> & _)].
    apply elem_of_app. left. exact Hin.
  - intros Hstep. destruct (download s.2); try discriminate. injection Hstep as <-.
    apply settle_package_call_ok.
    eapply call_ok_same; [apply He | | exact Hok].
    intros e Hin. destruct (on_download_error_ext h downloadError s) as [_ (es & -> & _)].
    apply elem_of_app. left. exact Hin.
  - intros Hstep. destruct (download s.2); try discriminate. injection Hstep as <-.
    apply settle_package_call_ok.
    eapply call_ok_same; [apply Hr | | exact Hok].
    intros e Hin.
    destruct (on_response_ext h statusCode statusMessage contentLength s)
      as [_ (es & -> & _)].
    apply elem_of_app. left. exact Hin.
  - intros Hstep. destruct (download s.2); try discriminate. injection Hstep as <-.
    apply settle_package_call_ok.
    eapply call_ok_same; [apply Hd | | exact Hok].
    intros e Hin. destruct (on_data_ext h length s) as [_ (es & -> & _)].
    apply elem_of_app. left. exact Hin.
  - intros Hstep. destruct (download s.2); try discriminate. injection Hstep as <-.
    apply settle_package_call_ok.
    eapply call_ok_same; [apply Hc | | exact Hok].
    intros e Hin. destruct (on_close_ext h removeSyncThrows s) as [_ (es & -> & _)].
    apply elem_of_app. left. exact Hin.
  - intros Hstep. destruct (download s.2); try discriminate. injection Hstep as <-.
    apply settle_package_call_ok.
    eapply call_ok_same; [apply He | | exact Hok].
    intros e Hin. destruct (on_download_error_ext h downloadError s) as [_ (es & -> & _)].
    apply elem_of_app. left. exact Hin.
  - intros Hstep. destruct (download s.2); try discriminate. injection Hstep as <-.
    apply settle_package_call_ok.
    eapply call_ok_same; [apply Hz | | exact Hok].
    intros e Hin. destruct (on_decompressed_ext err h s) as [_ (es & -> & _)].
    apply elem_of_app. left. exact Hin.
  - intros Hstep. destruct (download s.2); try discriminate. injection Hstep as <-.
    apply settle_package_call_ok.
    eapply call_ok_same; [apply Hu | | exact Hok].
    intros e Hin. destruct (on_unlinked_ext h err s) as [_ (es & -> & _)].
    apply elem_of_app. left. exact Hin.
  - (* EvExecuted *)
    destruct (at_ s.2) eqn:Hat; try discriminate;
      unfold call_ok in Hok; rewrite Hat in Hok; destruct Hok as [Hret Hready];
      destruct err; intros [= <-];
      first [ apply fail_call_ok; assumption
            | apply installSparkMagic_call_ok; assumption
            | unfold finish; apply then_update_call_ok; assumption ].
Qed.

Lemma run_call_ok (h : Host) (evs : list event) (s s' : state) :
  run h evs s = Some s' -> call_ok h s -> call_ok h s'.
Proof.
  revert s. induction evs as [|ev evs IH]; intros s Hrun Hs; cbn in Hrun.
  - injection Hrun as <-. exact Hs.
  - destruct (step h ev s) as [s1|] eqn:Hstep; [|discriminate].
    eapply IH; [exact Hrun|]. eapply step_call_ok; eassumption.
Qed.

Lemma start_call_ok (h : Host) (forceInstall : bool) (installationPath : option string)
    (w : world) :
  call_ok h (startInstallProcess h forceInstall installationPath w).
Proof. unfold call_ok. cbn. auto. Qed.

Lemma same_installer_trans (s1 s2 s3 : state) :
  same_installer s1 s2 -> same_installer s2 s3 -> same_installer s1 s3.
Proof.
  unfold same_installer.
  intros (H1 & H2 & H3 & H4 & H5) (K1 & K2 & K3 & K4 & K5).
  rewrite K1, K2, K3, K4, K5. auto.
Qed.

Lemma settle_package_done (h : Host) (s : state) :
  at_ s.2 = Done -> settle_package h s = s.
Proof. unfold settle_package. intros ->. reflexivity. Qed.

(** A call that is over registers nothing new: the callbacks still
    outstanding leave the installer, the store and the promises alone. *)
Lemma step_done (h : Host) (ev : event) (s s' : state) :
  at_ s.2 = Done -> step h ev s = Some s' -> same_installer s s'.
Proof.
  intros Hat.
  destruct (download_callbacks_same h s) as (Hm & He & Hr & Hd & Hc & Hz & Hu).
  assert (Hsettle : forall t, same_installer s t -> settle_package h t = t).
  { intros t (_ & _ & Ht & _). apply settle_package_done. rewrite Ht. exact Hat. }
  unfold step. rewrite Hat.
  destruct ev; try discriminate.
  - intros [= <-]. unfold same_installer. repeat split.
  - destruct (closing s.2); [|discriminate]. intros [= <-].
    unfold same_installer. repeat split.
  - destruct (download s.2); try discriminate. intros [= <-].
    rewrite Hsettle; apply Hm.
  - destruct (download s.2); try discriminate. intros [= <-].
    rewrite Hsettle; apply He.
  - destruct (download s.2); try discriminate. intros [= <-].
    rewrite Hsettle; apply Hr.
  - destruct (download s.2); try discriminate. intros [= <-].
    rewrite Hsettle; apply Hd.
  - destruct (download s.2); try discriminate. intros [= <-].
    rewrite Hsettle; apply Hc.
  - destruct (download s.2); try discriminate. intros [= <-].
    rewrite Hsettle; apply He.
  - destruct (download s.2); try discriminate. intros [= <-].
    rewrite Hsettle; apply Hz.
  - destruct (download s.2); try discriminate. intros [= <-].
    rewrite Hsettle; apply Hu.
Qed.

Lemma run_done (h : Host) (evs : list event) (s s' : state) :
  at_ s.2 = Done -> run h evs s = Some s' -> same_installer s s'.
Proof.
  revert s. induction evs as [|ev evs IH]; intros s Hat Hrun; cbn in Hrun.
  - injection Hrun as <-. unfold same_installer. repeat split.
  - destruct (step h ev s) as [s1|] eqn:Hstep; [|discriminate].
    pose proof (step_done h ev s s1 Hat Hstep) as H1.
    eapply same_installer_trans; [exact H1|].
    apply IH; [|exact Hrun].
    destruct H1 as (_ & _ & -> & _). exact Hat.
Qed.

(** X5. The promise [startInstallProcess] returns settles at most once:
    whatever callbacks of the call still run after it has settled, its
    result stays the same, and they change neither the installer object nor
    the configuration store. *)
Theorem promise_settles_once (h : Host) (forceInstall : bool)
    (installationPath : option string) (w : world) (evs evs' : list event)
    (s1 s2 : state) :
  run h evs (startInstallProcess h forceInstall installationPath w) = Some s1 ->
  settled (outcome s1.2) = true ->
  run h evs' s1 = Some s2 ->
  outcome s2.2 = outcome s1.2
  /\ this s2.1 = this s1.1
  /\ settings s2.1 = settings s1.1.
Proof.
  intros Hrun Hsettled Hlater.
  assert (Hok : call_ok h s1).
  { eapply run_call_ok; [exact Hrun | apply start_call_ok]. }
  assert (Hat : at_ s1.2 = Done).
  { apply (call_ok_done h s1 Hok). intros Hp. rewrite Hp in Hsettled. discriminate. }
  destruct (run_done h evs' s1 s2 Hat Hlater) as (Hthis & Hset & _ & Hret & Hready).
  unfold outcome. rewrite Hret, Hready. auto.
Qed.

(** A rejected download whose stream still closes and whose archive is
    still unpacked afterwards. *)
Lemma promise_settles_once_witness :
  exists s1 s2,
    run linux_host [EvOpen (error "ENOENT" "no such file") 0; EvOperation; EvMkdirs null;
                    EvResponse 404 "Not Found" None]
      (startInstallProcess linux_host false None fresh_linux_installer) = Some s1
    /\ run linux_host [EvClose None; EvDecompressed None; EvUnlinked null] s1 = Some s2
    /\ outcome s1.2
       = Rejected (str "Installing Notebook dependencies failed with error: Not Found")
    /\ outcome s2.2 = outcome s1.2.
Proof.
  eexists. eexists.
  split; [vm_compute; reflexivity|].
  split; [vm_compute; reflexivity|].
  split; [vm_compute; reflexivity|].
  refine (proj1 (promise_settles_once linux_host false None fresh_linux_installer
                   [EvOpen (error "ENOENT" "no such file") 0; EvOperation; EvMkdirs null;
                    EvResponse 404 "Not Found" None]
                   [EvClose None; EvDecompressed None; EvUnlinked null] _ _ _ _ _)).
  - vm_compute. reflexivity.
  - vm_compute. reflexivity.
  - vm_compute. reflexivity.
Defined.

(** X6. Whenever the promise of [startInstallProcess] is resolved, on
    either branch, the configuration store holds the installer's
    installation path under notebook / pythonPath; so [getPythonInstallPath]
    on that store gives this path again wherever the directory exists. *)
Theorem resolved_install_is_recorded (h : Host) (forceInstall : bool)
    (installationPath : option string) (w : world) (evs : list event) (s : state) :
  run h evs (startInstallProcess h forceInstall installationPath w) = Some s ->
  outcome s.2 = Resolved ->
  recorded h s.1 = Some (_pythonInstallationPath (this s.1))
  /\ forall fs : gset string,
       _pythonInstallationPath (this s.1) <> EmptyString ->
       _pythonInstallationPath (this s.1) ∈ fs ->
       getPythonInstallPath h fs (Some (settings s.1)) = _pythonInstallationPath (this s.1).
Proof.
  intros Hrun Hres.
  assert (Hok : call_ok h s).
  { eapply run_call_ok; [exact Hrun | apply start_call_ok]. }
  assert (Hat : at_ s.2 = Done).
  { apply (call_ok_done h s Hok). rewrite Hres. discriminate. }
  unfold call_ok in Hok. rewrite Hat in Hok. destruct Hok as (_ & Hrec & _).
  specialize (Hrec Hres). split; [exact Hrec|].
  intros fs Hne Hin. unfold getPythonInstallPath.
  assert (Hset : getPythonPathSetting h fs (Some (settings s.1))
                 = Some (_pythonInstallationPath (this s.1))).
  { apply getPythonPathSetting_Some. unfold recorded in Hrec.
    destruct (settings s.1 !! notebookConfigKey h) as [cfg|] eqn:Hcfg; [|discriminate].
    exists (settings s.1), cfg. cbn in Hrec. auto. }
  rewrite Hset. unfold truthy_str.
  destruct (_pythonInstallationPath (this s.1)); [contradiction|reflexivity].
Qed.

(** A forced installation on Linux that runs to its end. *)
Lemma resolved_install_is_recorded_witness :
  exists s,
    run linux_host [EvOpen (error "ENOENT" "no such file") 0; EvOperation; EvMkdirs null;
                    EvResponse 200 "OK" (Some 10%Z); EvData 10; EvClose None;
                    EvDecompressed None; EvConfigUpdated None]
      (startInstallProcess linux_host true (Some "/opt/py") fresh_linux_installer) = Some s
    /\ recorded linux_host s.1 = Some "/opt/py"
    /\ getPythonInstallPath linux_host {["/opt/py"]} (Some (settings s.1)) = "/opt/py".
Proof.
  eexists. split; [vm_compute; reflexivity|].
  match goal with |- recorded _ (fst ?s) = _ /\ _ =>
    destruct (resolved_install_is_recorded linux_host true (Some "/opt/py")
                fresh_linux_installer
                [EvOpen (error "ENOENT" "no such file") 0; EvOperation; EvMkdirs null;
                 EvResponse 200 "OK" (Some 10%Z); EvData 10; EvClose None;
                 EvDecompressed None; EvConfigUpdated None] s) as [H1 H2]
  end.
  - vm_compute. reflexivity.
  - vm_compute. reflexivity.
  - split; [exact H1|]. apply H2; [discriminate|]. vm_compute. reflexivity.
Defined.

(** X7. A background installation that fails has told so: whenever
    [_installReady] is rejected, its reason is the string
    msgDependenciesInstallationFailed(getErrorMessage(err)) of some error,
    the task was set to Failed with that message, the message was shown in
    an error box, and the guard [_installInProgress] is cleared. *)
Theorem failed_install_is_reported (h : Host) (forceInstall : bool)
    (installationPath : option string) (w : world) (evs : list event) (s : state)
    (reason : any) :
  run h evs (startInstallProcess h forceInstall installationPath w) = Some s ->
  installReady s.2 = Rejected reason ->
  exists err,
    let message := msgDependenciesInstallationFailed (getErrorMessage h err) in
    reason = str message
    /\ outcome s.2 = Rejected reason
    /\ UpdateStatus Failed message ∈ trace s.1
    /\ ShowErrorMessage message ∈ trace s.1
    /\ _installInProgress (this s.1) = false.
Proof.
  intros Hrun Hrej.
  assert (Hok : call_ok h s).
  { eapply run_call_ok; [exact Hrun | apply start_call_ok]. }
  unfold call_ok in Hok.
  destruct (at_ s.2);
    try (destruct Hok as (_ & Hp); try destruct Hp as (Hp & _);
         rewrite Hp in Hrej; discriminate).
  destruct Hok as (_ & _ & Hfail).
  destruct (Hfail reason Hrej) as (err & -> & Hu & Hs & Hg & Hret).
  exists err. cbv zeta. unfold outcome. rewrite Hret, Hrej. auto.
Qed.

(** The server answers 404. *)
Lemma failed_install_is_reported_witness :
  exists s,
    run linux_host [EvOpen (error "ENOENT" "no such file") 0; EvOperation; EvMkdirs null;
                    EvResponse 404 "Not Found" None]
      (startInstallProcess linux_host false None fresh_linux_installer) = Some s
    /\ exists err,
         outcome s.2
         = Rejected (str (msgDependenciesInstallationFailed (getErrorMessage linux_host err)))
         /\ ShowErrorMessage (msgDependenciesInstallationFailed (getErrorMessage linux_host err))
              ∈ trace s.1.
Proof.
  eexists. split; [vm_compute; reflexivity|].
  match goal with |- exists err, outcome (snd ?s) = _ /\ _ =>
    destruct (failed_install_is_reported linux_host false None fresh_linux_installer
                [EvOpen (error "ENOENT" "no such file") 0; EvOperation; EvMkdirs null;
                 EvResponse 404 "Not Found" None] s
                (str "Installing Notebook dependencies failed with error: Not Found"))
      as (err & H1 & H2 & _ & H3 & _)
  end.
  - vm_compute. reflexivity.
  - vm_compute. reflexivity.
  - exists err. cbv zeta in H1, H2, H3. rewrite <- H1. split; [exact H2 | exact H3].
Defined.

(** ** Delivery to the host worker *)

Module Delivery.
Import WorkerFactory.

Lemma view_lookup (w : nat) (r : realm) (live ready : bool) (q : list reaction) :
  view w r = Some (live, ready, q) ->
  exists ww, workers r !! w = Some ww
             /\ bool_decide (is_Some (worker ww)) = live
             /\ fulfilled ww = ready /\ queue ww = q.
Proof.
  unfold view. destruct (workers r !! w) as [ww|]; [|discriminate].
  cbn. intros [= <- <- <-]. eauto.
Qed.

Lemma view_set_worker (w : nat) (ww ww' : WebWorker) (r : realm) :
  workers r !! w = Some ww ->
  view w (set_worker w ww' r)
  = Some (bool_decide (is_Some (worker ww')), fulfilled ww', queue ww').
Proof.
  intros Hw. unfold view. cbn.
  rewrite list_lookup_insert_eq by (eapply lookup_lt_Some; exact Hw). reflexivity.
Qed.

Lemma react_sends (w : nat) (k : reaction) (r : realm) :
  effects (react w k r) = effects r ++ sends w k /\ view w (react w k r) = view w r.
Proof.
  destruct k; cbn; try (split; reflexivity).
  destruct (workers r !! w) as [ww|] eqn:Hw.
  - cbn. rewrite app_nil_r. split; [reflexivity|].
    rewrite (view_set_worker w ww _ r Hw). unfold view. rewrite Hw. reflexivity.
  - rewrite app_nil_r. split; reflexivity.
Qed.

Lemma reactions_send (w : nat) (q : list reaction) (r : realm) :
  effects (fold_left (fun r k => react w k r) q r) = effects r ++ concat (map (sends w) q)
  /\ view w (fold_left (fun r k => react w k r) q r) = view w r.
Proof.
  revert r. induction q as [|k q IH]; intros r; cbn.
  - rewrite app_nil_r. split; reflexivity.
  - destruct (IH (react w k r)) as [He Hv]. destruct (react_sends w k r) as [He' Hv'].
    rewrite He, Hv, He', Hv', <- app_assoc. split; reflexivity.
Qed.

Lemma is_live (ww : WebWorker) (live : bool) :
  bool_decide (is_Some (worker ww)) = live ->
  if live then exists hd, worker ww = Some hd else worker ww = None.
Proof.
  intros <-. destruct (worker ww) as [hd|]; cbn; eauto.
Qed.

(** [postMessage] while the worker promise is pending queues the message. *)
Lemma post_pending (w : nat) (msg : string) (q : list reaction) (r : realm) :
  view w r = Some (true, false, q) ->
  exists r', postMessage w msg r = Some r'
             /\ view w r' = Some (true, false, q ++ [DoPost msg])
             /\ effects r' = effects r.
Proof.
  intros Hv. destruct (view_lookup w r _ _ _ Hv) as (ww & Hw & Hl & Hf & Hq).
  destruct (is_live ww true Hl) as [hd Hhd].
  unfold postMessage. rewrite Hw. cbn. rewrite Hhd. eexists. split; [reflexivity|].
  unfold then_. rewrite Hf. split; [|reflexivity].
  rewrite (view_set_worker w ww _ r Hw). cbn. rewrite Hhd, Hq. reflexivity.
Qed.

(** [postMessage] once the worker promise is fulfilled sends at once. *)
Lemma post_ready (w : nat) (msg : string) (q : list reaction) (r : realm) :
  view w r = Some (true, true, q) ->
  exists r', postMessage w msg r = Some r'
             /\ view w r' = Some (true, true, q)
             /\ effects r' = effects r ++ [PostMessage w msg].
Proof.
  intros Hv. destruct (view_lookup w r _ _ _ Hv) as (ww & Hw & Hl & Hf & Hq).
  destruct (is_live ww true Hl) as [hd Hhd].
  unfold postMessage. rewrite Hw. cbn. rewrite Hhd. eexists. split; [reflexivity|].
  unfold then_. rewrite Hf. cbn. split; [exact Hv | reflexivity].
Qed.

Lemma set_worker_same (w : nat) (ww : WebWorker) (r : realm) :
  workers r !! w = Some ww -> set_worker w ww r = r.
Proof.
  intros Hw. destruct r as [n fs ws es]. unfold set_worker. cbn in *.
  rewrite list_insert_id by exact Hw. reflexivity.
Qed.

(** Once [this.worker] is null, [postMessage] and [dispose] do nothing. *)
Lemma disposed_inert (w : nat) (ready : bool) (q : list reaction) (a : action)
    (r : realm) :
  view w r = Some (false, ready, q) -> uses w a = true -> exec a r = Some r.
Proof.
  intros Hv Ha. destruct (view_lookup w r _ _ _ Hv) as (ww & Hw & Hl & Hf & Hq).
  pose proof (is_live ww false Hl) as Hnone. cbn in Hnone.
  destruct a as [| | | | | w' msg | w']; try discriminate;
    cbn in Ha; apply Nat.eqb_eq in Ha; subst w'; cbn.
  - unfold postMessage. rewrite Hw. cbn. rewrite Hnone. reflexivity.
  - unfold dispose. rewrite Hw. cbn. rewrite Hnone, Hw. cbn. f_equal.
    apply set_worker_same. rewrite Hw. f_equal.
    destruct ww. cbn in *. subst. reflexivity.
Qed.

Lemma run_disposed (w : nat) (ready : bool) (q : list reaction) (acts : list action)
    (r : realm) :
  view w r = Some (false, ready, q) -> forallb (uses w) acts = true -> run acts r = r.
Proof.
  intros Hv. induction acts as [|a acts IH]; cbn; [reflexivity|].
  intros [Ha Hacts]%andb_prop.
  rewrite (disposed_inert w ready q a r Hv Ha). cbn. apply IH, Hacts.
Qed.

(** [dispose] while the worker promise is pending queues the termination. *)
Lemma dispose_pending (w : nat) (q : list reaction) (r : realm) :
  view w r = Some (true, false, q) ->
  exists r', dispose w r = Some r'
             /\ view w r' = Some (false, false, q ++ [DoTerminate])
             /\ effects r' = effects r.
Proof.
  intros Hv. destruct (view_lookup w r _ _ _ Hv) as (ww & Hw & Hl & Hf & Hq).
  destruct (is_live ww true Hl) as [hd Hhd].
  unfold dispose. rewrite Hw. cbn. rewrite Hhd. unfold then_. rewrite Hf.
  cbn. rewrite list_lookup_insert_eq by (eapply lookup_lt_Some; exact Hw). cbn.
  eexists. split; [reflexivity|]. split; [|reflexivity].
  unfold view. cbn. rewrite list_insert_insert_eq.
  rewrite list_lookup_insert_eq by (eapply lookup_lt_Some; exact Hw).
  cbn. rewrite Hq. reflexivity.
Qed.

(** [dispose] once the worker promise is fulfilled terminates at once. *)
Lemma dispose_ready (w : nat) (q : list reaction) (r : realm) :
  view w r = Some (true, true, q) ->
  exists r', dispose w r = Some r'
             /\ view w r' = Some (false, true, q)
             /\ effects r' = effects r ++ [Terminate w].
Proof.
  intros Hv. destruct (view_lookup w r _ _ _ Hv) as (ww & Hw & Hl & Hf & Hq).
  destruct (is_live ww true Hl) as [hd Hhd].
  unfold dispose. rewrite Hw. cbn. rewrite Hhd. unfold then_. rewrite Hf.
  cbn. rewrite Hw. cbn.
  eexists. split; [reflexivity|]. split; [|reflexivity].
  unfold view. cbn.
  rewrite list_lookup_insert_eq by (eapply lookup_lt_Some; exact Hw).
  cbn. rewrite Hf, Hq. reflexivity.
Qed.

(** Fulfilling the worker promise runs the queue, oldest callback first. *)
Lemma fulfil_pending (w : nat) (live : bool) (q : list reaction) (r : realm) :
  view w r = Some (live, false, q) ->
  exists r', fulfil w r = Some r'
             /\ view w r' = Some (live, true, [])
             /\ effects r' = effects r ++ concat (map (sends w) q).
Proof.
  intros Hv. destruct (view_lookup w r _ _ _ Hv) as (ww & Hw & Hl & Hf & Hq).
  unfold fulfil. rewrite Hw. cbn. rewrite Hf. eexists. split; [reflexivity|].
  match goal with |- context [fold_left _ _ ?r0] =>
    destruct (reactions_send w (queue ww) r0) as [He Hview] end.
  rewrite He, Hview, Hq. split; [|reflexivity].
  rewrite (view_set_worker w ww _ r Hw). cbn. rewrite Hl. reflexivity.
Qed.

Lemma run_posts_pending (w : nat) (msgs : list string) (q : list reaction) (r : realm) :
  view w r = Some (true, false, q) ->
  view w (run (map (Post w) msgs) r) = Some (true, false, q ++ map DoPost msgs)
  /\ effects (run (map (Post w) msgs) r) = effects r.
Proof.
  revert q r. induction msgs as [|msg msgs IH]; intros q r Hv; cbn.
  - rewrite app_nil_r. split; [exact Hv | reflexivity].
  - destruct (post_pending w msg q r Hv) as (r' & -> & Hv' & He). cbn.
    destruct (IH _ r' Hv') as [Hv2 He2].
    rewrite Hv2, He2, He, <- app_assoc. split; reflexivity.
Qed.

Lemma run_posts_ready (w : nat) (msgs : list string) (q : list reaction) (r : realm) :
  view w r = Some (true, true, q) ->
  view w (run (map (Post w) msgs) r) = Some (true, true, q)
  /\ effects (run (map (Post w) msgs) r) = effects r ++ map (PostMessage w) msgs.
Proof.
  revert r. induction msgs as [|msg msgs IH]; intros r Hv; cbn.
  - rewrite app_nil_r. split; [exact Hv | reflexivity].
  - destruct (post_ready w msg q r Hv) as (r' & -> & Hv' & He). cbn.
    destruct (IH r' Hv') as [Hv2 He2].
    rewrite Hv2, He2, He, <- app_assoc. split; reflexivity.
Qed.

Lemma run_app (acts acts' : list action) (r : realm) :
  run (acts ++ acts') r = run acts' (run acts r).
Proof.
  revert r. induction acts as [|a acts IH]; intros r; cbn; [reflexivity|apply IH].
Qed.

Lemma sends_posts (w : nat) (msgs : list string) :
  concat (map (sends w) (map DoPost msgs)) = map (PostMessage w) msgs.
Proof. induction msgs as [|m msgs IH]; cbn; [reflexivity|]. rewrite IH. reflexivity. Qed.

(** What [create] builds when it returns. *)
Lemma create_view (g : Globals) (f : nat) (moduleId : string) (onM onE : N)
    (host : outcome handle) (r r' : realm) (w : nat) :
  create g f moduleId onM onE host r = Some (r', Returned w) ->
  view w r' = Some (true, false, [DoPost moduleId; DoListen])
  /\ effects r' = effects r.
Proof.
  unfold create. destruct (factories r !! f) as [fac|]; [|discriminate]. cbn.
  destruct (truthy (_webWorkerFailedBeforeError fac)); [discriminate|].
  destruct (answer _ host) as [hd|e]; [|discriminate].
  intros [= <- <-]. split; [|reflexivity].
  unfold view. cbn. rewrite lookup_app_r by reflexivity.
  rewrite Nat.sub_diag. reflexivity.
Qed.

End Delivery.

(** X8. A [WebWorker] buffers while its host worker is not ready and
    keeps the order: nothing is posted before the worker promise is
    fulfilled; from then on the host worker has received the module id
    first, then every message in the order of the [postMessage] calls,
    whether they were made before or after that moment. *)
Theorem messages_delivered_in_order (g : WorkerFactory.Globals) (f : nat)
    (moduleId : string) (onMessageCallback onErrorCallback : N)
    (host : WorkerFactory.outcome WorkerFactory.handle) (r r' : WorkerFactory.realm)
    (w : nat) (before after : list string) :
  WorkerFactory.create g f moduleId onMessageCallback onErrorCallback host r
  = Some (r', WorkerFactory.Returned w) ->
  WorkerFactory.effects (WorkerFactory.run (map (WorkerFactory.Post w) before) r')
  = WorkerFactory.effects r
  /\ WorkerFactory.effects
       (WorkerFactory.run
          (map (WorkerFactory.Post w) before
           ++ WorkerFactory.Fulfil w :: map (WorkerFactory.Post w) after) r')
     = WorkerFactory.effects r
       ++ map (WorkerFactory.PostMessage w) (moduleId :: before ++ after).
Proof.
  intros Hcreate.
  destruct (Delivery.create_view g f moduleId _ _ host r r' w Hcreate) as [Hv He].
  destruct (Delivery.run_posts_pending w before _ r' Hv) as [Hv1 He1].
  split; [rewrite He1; exact He|].
  rewrite Delivery.run_app. cbn [WorkerFactory.run WorkerFactory.exec].
  destruct (Delivery.fulfil_pending w true _ _ Hv1) as (r2 & -> & Hv2 & He2).
  cbn [default from_option id].
  destruct (Delivery.run_posts_ready w after _ r2 Hv2) as [_ He3].
  rewrite He3, He2, He1, He. rewrite map_app, concat_app. cbn.
  rewrite Delivery.sends_posts, map_app, <- !app_assoc. reflexivity.
Qed.

(** Two messages before the worker is ready, one after. *)
Lemma messages_delivered_in_order_witness :
  exists r',
    WorkerFactory.effects
      (WorkerFactory.run
         [WorkerFactory.Post 0 "a"; WorkerFactory.Post 0 "b"; WorkerFactory.Fulfil 0;
          WorkerFactory.Post 0 "c"] r')
    = [WorkerFactory.PostMessage 0 "main"; WorkerFactory.PostMessage 0 "a";
       WorkerFactory.PostMessage 0 "b"; WorkerFactory.PostMessage 0 "c"].
Proof.
  eexists.
  refine (proj2 (messages_delivered_in_order WorkerFactory.hooked 0 "main" 1 2
                   (WorkerFactory.Returned (WorkerFactory.AWorker 7))
                   (WorkerFactory.new_factory None WorkerFactory.initial) _ 0
                   ["a"; "b"] ["c"] _)).
  vm_compute. reflexivity.
Defined.

(** X9. [dispose] ends the delivery: the messages posted before it are
    still delivered, in order, followed by one [terminate], whether the
    worker promise is fulfilled before or after the [dispose]; every later
    [postMessage] and [dispose] on that [WebWorker] changes nothing. *)
Theorem dispose_ends_delivery (g : WorkerFactory.Globals) (f : nat)
    (moduleId : string) (onMessageCallback onErrorCallback : N)
    (host : WorkerFactory.outcome WorkerFactory.handle) (r r' : WorkerFactory.realm)
    (w : nat) (before : list string) (later : list WorkerFactory.action) :
  WorkerFactory.create g f moduleId onMessageCallback onErrorCallback host r
  = Some (r', WorkerFactory.Returned w) ->
  forallb (WorkerFactory.uses w) later = true ->
  let delivered :=
    WorkerFactory.effects r
    ++ map (WorkerFactory.PostMessage w) (moduleId :: before)
    ++ [WorkerFactory.Terminate w] in
  let posts := map (WorkerFactory.Post w) before in
  WorkerFactory.effects
    (WorkerFactory.run
       (posts ++ WorkerFactory.Dispose w :: later ++ [WorkerFactory.Fulfil w]) r')
  = delivered
  /\ WorkerFactory.effects
       (WorkerFactory.run
          (posts ++ WorkerFactory.Fulfil w :: WorkerFactory.Dispose w :: later) r')
     = delivered
  /\ WorkerFactory.run (posts ++ WorkerFactory.Dispose w :: later) r'
     = WorkerFactory.run (posts ++ [WorkerFactory.Dispose w]) r'.
Proof.
  intros Hcreate Hlater delivered posts. unfold delivered, posts.
  destruct (Delivery.create_view g f moduleId _ _ host r r' w Hcreate) as [Hv He].
  destruct (Delivery.run_posts_pending w before _ r' Hv) as [Hv1 He1].
  rewrite !Delivery.run_app. cbn [WorkerFactory.run WorkerFactory.exec].
  split; [|split].
  - destruct (Delivery.dispose_pending w _ _ Hv1) as (r2 & -> & Hv2 & He2).
    cbn [default from_option id].
    rewrite Delivery.run_app, (Delivery.run_disposed w _ _ later r2 Hv2 Hlater).
    cbn [WorkerFactory.run WorkerFactory.exec].
    destruct (Delivery.fulfil_pending w false _ _ Hv2) as (r3 & -> & _ & He3).
    cbn [default from_option id].
    rewrite He3, He2, He1, He. rewrite !map_app, !concat_app. cbn.
    rewrite Delivery.sends_posts, <- ?app_assoc. reflexivity.
  - destruct (Delivery.fulfil_pending w true _ _ Hv1) as (r2 & -> & Hv2 & He2).
    cbn [default from_option id].
    destruct (Delivery.dispose_ready w _ _ Hv2) as (r3 & -> & Hv3 & He3).
    cbn [default from_option id].
    rewrite (Delivery.run_disposed w _ _ later r3 Hv3 Hlater).
    rewrite He3, He2, He1, He. rewrite !map_app, !concat_app. cbn.
    rewrite Delivery.sends_posts, <- ?app_assoc. reflexivity.
  - destruct (Delivery.dispose_pending w _ _ Hv1) as (r2 & -> & Hv2 & He2).
    cbn [default from_option id].
    apply (Delivery.run_disposed w _ _ later r2 Hv2 Hlater).
Qed.

(** A message, [dispose], then a message and a [dispose] too late. *)
Lemma dispose_ends_delivery_witness :
  exists r',
    WorkerFactory.effects
      (WorkerFactory.run
         [WorkerFactory.Post 0 "a"; WorkerFactory.Dispose 0; WorkerFactory.Post 0 "late";
          WorkerFactory.Dispose 0; WorkerFactory.Fulfil 0] r')
    = [WorkerFactory.PostMessage 0 "main"; WorkerFactory.PostMessage 0 "a";
       WorkerFactory.Terminate 0].
Proof.
  eexists.
  refine (proj1 (dispose_ends_delivery WorkerFactory.hooked 0 "main" 1 2
                   (WorkerFactory.Returned (WorkerFactory.AWorker 7))
                   (WorkerFactory.new_factory None WorkerFactory.initial) _ 0
                   ["a"] [WorkerFactory.Post 0 "late"; WorkerFactory.Dispose 0] _ _)).
  - vm_compute. reflexivity.
  - reflexivity.
Defined.

(** ** The worker script and the page's origin *)

Lemma substring_prefix (a s : string) :
  String.substring 0 (String.length a) (a +:+ s) = a.
Proof.
  induction a as [|x a IH].
  - cbn. destruct s; reflexivity.
  - rewrite append_cons. cbn [String.length String.substring]. rewrite IH. reflexivity.
Qed.

Lemma substr0_prefix (a s : string) :
  WorkerFactory.substr0 (a +:+ s) (WorkerFactory.len a) = a.
Proof.
  unfold WorkerFactory.substr0, WorkerFactory.len. rewrite Nat2Z.id.
  apply substring_prefix.
Qed.

(** X10. With no [MonacoEnvironment] hook and an AMD [require], a worker
    script that lives on the page's own origin is loaded by its URL with
    the label as fragment, never through a [data:] bootstrap: when the
    page's address is origin + pathname + search + hash and
    [require.toUrl] gives a URL that starts with that origin, [getWorker]
    answers [new Worker(workerMain + '#' + label)]. *)
Theorem getWorker_same_origin (g : WorkerFactory.Globals) (toUrl : string -> string)
    (origin rest workerId label : string) :
  match WorkerFactory.monacoEnvironment g with
  | Some env =>
      WorkerFactory.has_getWorker env = false /\ WorkerFactory.getWorkerUrl env = None
  | None => True
  end ->
  WorkerFactory.require_toUrl g = Some toUrl ->
  WorkerFactory.href (WorkerFactory.location g)
  = origin +:+ WorkerFactory.pathname (WorkerFactory.location g)
    +:+ WorkerFactory.search (WorkerFactory.location g)
    +:+ WorkerFactory.hash (WorkerFactory.location g) ->
  toUrl ("./" +:+ workerId) = origin +:+ rest ->
  WorkerFactory.getWorker g workerId label
  = WorkerFactory.NewWorker (origin +:+ rest +:+ "#" +:+ label).
Proof.
  intros Hhook Hrequire Hhref Hmain. unfold WorkerFactory.getWorker.
  assert (Hnone :
            match WorkerFactory.monacoEnvironment g with
            | Some env =>
                if WorkerFactory.has_getWorker env
                then Some (WorkerFactory.CallGetWorker workerId label)
                else match WorkerFactory.getWorkerUrl env with
                     | Some url => Some (WorkerFactory.NewWorker (url workerId label))
                     | None => None
                     end
            | None => None
            end = None).
  { destruct (WorkerFactory.monacoEnvironment g) as [env|]; [|reflexivity].
    destruct Hhook as [-> ->]. reflexivity. }
  rewrite Hnone, Hrequire. cbv zeta. rewrite Hmain.
  assert (Horigin :
            WorkerFactory.substr0 (WorkerFactory.href (WorkerFactory.location g))
              (WorkerFactory.len (WorkerFactory.href (WorkerFactory.location g))
               - WorkerFactory.len (WorkerFactory.hash (WorkerFactory.location g))
               - WorkerFactory.len (WorkerFactory.search (WorkerFactory.location g))
               - WorkerFactory.len (WorkerFactory.pathname (WorkerFactory.location g)))
            = origin).
  { rewrite Hhref at 2. unfold WorkerFactory.len at 1. rewrite !length_append.
    replace (_ - _ - _ - _)%Z with (WorkerFactory.len origin)
      by (unfold WorkerFactory.len; lia).
    rewrite Hhref. apply substr0_prefix. }
  rewrite Horigin, substr0_prefix, String.eqb_refl, andb_false_r, append_assoc.
  reflexivity.
Qed.

(** The editor served from [https://example.org/app/index.html]. *)
Lemma getWorker_same_origin_witness :
  WorkerFactory.getWorker
    {| WorkerFactory.monacoEnvironment := None;
       WorkerFactory.require_toUrl := Some (fun p => "https://example.org/app/" +:+ p);
       WorkerFactory.location := WorkerFactory.location WorkerFactory.hooked;
       WorkerFactory.encodeURIComponent := fun s => s |}
    "workerMain.js" "editor"
  = WorkerFactory.NewWorker "https://example.org/app/./workerMain.js#editor".
Proof.
  apply (getWorker_same_origin _ (fun p => "https://example.org/app/" +:+ p)
           "https://example.org" "/app/./workerMain.js" "workerMain.js" "editor").
  - exact I.
  - reflexivity.
  - reflexivity.
  - reflexivity.
Defined.

(** ** One background installation at a time *)

Lemma guards_admit (h : Host) (w : world) (forceInstall : bool)
    (installationPath : option string) (err : any) (fd : Z) :
  isPythonRunning err = false ->
  _installInProgress (this w) = false ->
  exists s',
    step h (EvOpen err fd) (startInstallProcess h forceInstall installationPath w) = Some s'
    /\ outcome s'.2 = Pending
    /\ _installInProgress (this s'.1) = true.
Proof.
  intros Hrun Hflag. unfold step, startInstallProcess.
  cbn [fst snd at_ new_call]. rewrite Hrun. eexists. split; [reflexivity|].
  unfold guarded_install.
  assert (Hf : forall e c,
             _installInProgress (this ((if truthy err then (emit e w, c)
                                        else (emit (FsClose fd) (emit e w),
                                              with_closing true c)).1)) = false).
  { intros e c. destruct (truthy err); exact Hflag. }
  rewrite Hf. cbv zeta.
  match goal with |- context [if ?b then _ else _] => destruct b end;
    destruct (truthy err); cbn; auto.
Qed.

Lemma guard_rejects (h : Host) (w : world) (forceInstall : bool)
    (installationPath : option string) (err : any) (fd : Z) :
  isPythonRunning err = false ->
  _installInProgress (this w) = true ->
  exists s',
    step h (EvOpen err fd) (startInstallProcess h forceInstall installationPath w) = Some s'
    /\ outcome s'.2 = Rejected (str msgPendingInstallError)
    /\ this s'.1 = this w
    /\ settings s'.1 = settings w
    /\ process_env s'.1 = process_env w.
Proof.
  intros Hrun Hflag. unfold step, startInstallProcess.
  cbn [fst snd at_ new_call]. rewrite Hrun. eexists. split; [reflexivity|].
  unfold guarded_install.
  assert (Hf : forall e c,
             _installInProgress (this ((if truthy err then (emit e w, c)
                                        else (emit (FsClose fd) (emit e w),
                                              with_closing true c)).1)) = true).
  { intros e c. destruct (truthy err); exact Hflag. }
  rewrite Hf. destruct (truthy err); cbn; auto.
Qed.

(** X11. Background installations exclude one another and hand over: as
    long as the promise of a call that started the background task is
    pending, a second [startInstallProcess] on the same installer is
    rejected with [msgPendingInstallError] and changes neither the
    installer nor [process.env] nor the configuration store; once that
    promise is settled, a second call passes the guards again. *)
Theorem one_background_install_at_a_time (h : Host) (w : world) (forceInstall : bool)
    (installationPath : option string) (err : any) (fd : Z) (evs : list event)
    (s : state) (forceInstall' : bool) (installationPath' : option string)
    (err' : any) (fd' : Z) :
  let target :=
    match installationPath with
    | Some p => if truthy_str (Some p) then p else _pythonInstallationPath (this w)
    | None => _pythonInstallationPath (this w)
    end in
  isPythonRunning err = false ->
  _installInProgress (this w) = false ->
  forceInstall = true \/ getPythonExePath h target ∉ files w ->
  run h (EvOpen err fd :: evs) (startInstallProcess h forceInstall installationPath w)
  = Some s ->
  isPythonRunning err' = false ->
  exists s',
    step h (EvOpen err' fd') (startInstallProcess h forceInstall' installationPath' s.1)
    = Some s'
    /\ (outcome s.2 = Pending ->
        outcome s'.2 = Rejected (str msgPendingInstallError)
        /\ this s'.1 = this s.1
        /\ settings s'.1 = settings s.1
        /\ process_env s'.1 = process_env s.1)
    /\ (settled (outcome s.2) = true ->
        outcome s'.2 = Pending /\ _installInProgress (this s'.1) = true).
Proof.
  intros target Hrun Hflag Hneed Hevs Hrun'.
  destruct (task_branch_clears_guard h w forceInstall installationPath err fd evs s
              Hrun Hflag Hneed Hevs) as [(Hret & Hcases) _].
  assert (Hout : outcome s.2 = installReady s.2).
  { unfold outcome. rewrite Hret. reflexivity. }
  destruct Hcases as [(_ & Hready & Hg) | (_ & Hready & Hg)].
  - destruct (guard_rejects h s.1 forceInstall' installationPath' err' fd' Hrun' Hg)
      as (s' & Hstep & Hrej & Hsame).
    exists s'. split; [exact Hstep|]. split; [intros _; auto|].
    rewrite Hout, Hready. discriminate.
  - destruct (guards_admit h s.1 forceInstall' installationPath' err' fd' Hrun' Hg)
      as (s' & Hstep & Hpend & Hset).
    exists s'. split; [exact Hstep|]. split; [|auto].
    rewrite Hout. intros Hp. rewrite Hp in Hready. discriminate.
Qed.

(** A second call while the download of the first is under way. *)
Lemma one_background_install_at_a_time_witness :
  exists s s',
    run linux_host [EvOpen (error "ENOENT" "no such file") 0; EvOperation; EvMkdirs null]
      (startInstallProcess linux_host false None fresh_linux_installer) = Some s
    /\ step linux_host (EvOpen (error "ENOENT" "no such file") 0)
         (startInstallProcess linux_host true (Some "/opt/py") s.1) = Some s'
    /\ outcome s'.2 = Rejected (str msgPendingInstallError).
Proof.
  eexists.
  refine (let H := one_background_install_at_a_time linux_host fresh_linux_installer
                     false None (error "ENOENT" "no such file") 0
                     [EvOperation; EvMkdirs null] _ true (Some "/opt/py")
                     (error "ENOENT" "no such file") 0 eq_refl eq_refl _ _ eq_refl in _).
  Unshelve.
  4: { right. vm_compute. discriminate. }
  4: { vm_compute. reflexivity. }
  destruct H as (s' & Hstep & Hpending & _).
  exists s'. split; [vm_compute; reflexivity|]. split; [exact Hstep|].
  apply Hpending. vm_compute. reflexivity.
Defined.

(** ** An installation in which every step succeeds *)

Lemma settle_pending (h : Host) (s : state) :
  package s.2 = Pending -> settle_package h s = s.
Proof. unfold settle_package. intros ->. destruct (at_ s.2); reflexivity. Qed.

Lemma settle_elsewhere (h : Host) (s : state) :
  at_ s.2 <> AwaitPackage -> settle_package h s = s.
Proof. unfold settle_package. destruct (at_ s.2); try reflexivity. contradiction. Qed.

Lemma last_status_app (t t' : list effect) :
  last_status (t ++ t')
  = match last_status t' with Some st => Some st | None => last_status t end.
Proof.
  induction t as [|e t IH]; cbn.
  - destruct (last_status t'); reflexivity.
  - rewrite IH. destruct (last_status t'); reflexivity.
Qed.

Lemma open_starts_task (h : Host) (w : world) (forceInstall : bool)
    (installationPath : option string) (err : any) (fd : Z) :
  let target :=
    match installationPath with
    | Some p => if truthy_str (Some p) then p else _pythonInstallationPath (this w)
    | None => _pythonInstallationPath (this w)
    end in
  isPythonRunning err = false ->
  _installInProgress (this w) = false ->
  forceInstall = true \/ getPythonExePath h target ∉ files w ->
  exists s1,
    step h (EvOpen err fd) (startInstallProcess h forceInstall installationPath w) = Some s1
    /\ under_way TaskQueued Pending Idle target s1
    /\ negb (existsSync s1.1 (_pythonExecutable (this s1.1))) || _forceInstall (this s1.1)
       = true.
Proof.
  intros target Hrun Hflag Hneed. unfold step, startInstallProcess.
  cbn [fst snd at_ new_call]. rewrite Hrun. eexists. split; [reflexivity|].
  unfold guarded_install.
  assert (Hf : forall e c,
             _installInProgress (this ((if truthy err then (emit e w, c)
                                        else (emit (FsClose fd) (emit e w),
                                              with_closing true c)).1)) = false).
  { intros e c. destruct (truthy err); exact Hflag. }
  rewrite Hf. cbv zeta.
  match goal with
  | |- context [if negb (existsSync ?w1 ?exe) || ?f then _ else _] =>
      assert (Hx : negb (existsSync w1 exe) || f = true)
  end.
  { destruct Hneed as [-> | Hmissing].
    - destruct (truthy err); cbn; apply orb_true_r.
    - unfold existsSync. destruct (truthy err); cbn; fold target;
        rewrite bool_decide_eq_false_2 by exact Hmissing; reflexivity. }
  rewrite Hx. unfold under_way. destruct (truthy err); cbn in *; auto 10.
Qed.

Lemma operation_downloads (h : Host) (pkg : promise) (d : stage) (dir : string)
    (s : state) :
  under_way TaskQueued pkg d dir s ->
  negb (existsSync s.1 (_pythonExecutable (this s.1))) || _forceInstall (this s.1) = true ->
  exists s',
    step h EvOperation s = Some s' /\ under_way AwaitPackage Pending MakingDir dir s'.
Proof.
  intros (Hat & Hret & Hready & _ & _ & Hdir & Hflag) Hneed.
  unfold step. cbv zeta. rewrite Hat. eexists. split; [reflexivity|].
  unfold installDependencies. rewrite Hneed.
  rewrite settle_pending by reflexivity.
  unfold under_way, installPythonPackage. cbn. auto 10.
Qed.

Lemma mkdirs_streams (h : Host) (dir : string) (s : state) :
  under_way AwaitPackage Pending MakingDir dir s ->
  exists s',
    step h (EvMkdirs null) s = Some s' /\ under_way AwaitPackage Pending Streaming dir s'.
Proof.
  intros (Hat & Hret & Hready & Hpkg & Hd & Hdir & Hflag).
  unfold step. cbv zeta. rewrite Hd. eexists. split; [reflexivity|].
  unfold on_mkdirs. cbn [truthy]. cbv zeta.
  rewrite settle_pending by (cbn; exact Hpkg).
  unfold under_way. cbn. auto 10.
Qed.

Lemma response_200_streams (h : Host) (statusMessage : string)
    (contentLength : option Z) (dir : string) (s : state) :
  under_way AwaitPackage Pending Streaming dir s ->
  exists s',
    step h (EvResponse 200 statusMessage contentLength) s = Some s'
    /\ under_way AwaitPackage Pending Streaming dir s'.
Proof.
  intros (Hat & Hret & Hready & Hpkg & Hd & Hdir & Hflag).
  unfold step. cbv zeta. rewrite Hd. eexists. split; [reflexivity|].
  unfold on_response. cbn [Z.eqb Pos.eqb negb]. cbv zeta.
  rewrite settle_pending by (cbn; exact Hpkg).
  unfold under_way. cbn. auto 10.
Qed.

Lemma data_streams (h : Host) (length : N) (dir : string) (s : state) :
  under_way AwaitPackage Pending Streaming dir s ->
  exists s',
    step h (EvData length) s = Some s' /\ under_way AwaitPackage Pending Streaming dir s'.
Proof.
  intros (Hat & Hret & Hready & Hpkg & Hd & Hdir & Hflag).
  unfold step. cbv zeta. rewrite Hd. eexists. split; [reflexivity|].
  destruct (download_callbacks_same h s) as (_ & _ & _ & Hsame & _).
  destruct (Hsame length) as (Hthis & _ & Hat' & Hret' & Hready').
  assert (Hrest : package (on_data h length s).2 = package s.2
                  /\ download (on_data h length s).2 = download s.2).
  { unfold on_data. cbv zeta. cbn [totalBytes with_progress].
    destruct (totalBytes s.2); [|split; reflexivity].
    match goal with |- context [if ?b then _ else _] => destruct b end;
      split; reflexivity. }
  destruct Hrest as [Hpkg' Hd'].
  rewrite settle_pending by (rewrite Hpkg'; exact Hpkg).
  unfold under_way. rewrite Hthis, Hat', Hret', Hready', Hpkg', Hd'. auto 10.
Qed.

Lemma chunks_stream (h : Host) (chunks : list N) (dir : string) (s : state) :
  under_way AwaitPackage Pending Streaming dir s ->
  exists s',
    run h (map EvData chunks) s = Some s' /\ under_way AwaitPackage Pending Streaming dir s'.
Proof.
  revert s. induction chunks as [|n chunks IH]; intros s Hs; cbn [map run].
  - eauto.
  - destruct (data_streams h n dir s Hs) as (s1 & -> & Hs1). apply IH, Hs1.
Qed.

Lemma close_unpacks (h : Host) (dir : string) (s : state) :
  under_way AwaitPackage Pending Streaming dir s ->
  exists s',
    step h (EvClose None) s = Some s' /\ under_way AwaitPackage Pending Unpacking dir s'.
Proof.
  intros (Hat & Hret & Hready & Hpkg & Hd & Hdir & Hflag).
  unfold step. cbv zeta. rewrite Hd. eexists. split; [reflexivity|].
  assert (Hshape : under_way AwaitPackage Pending Unpacking dir (on_close h None s)).
  { unfold under_way, on_close. cbv zeta. cbn [fst snd say].
    match goal with |- context [if ?b then _ else _] => destruct b end; cbn; auto 10. }
  rewrite settle_pending by (destruct Hshape as (_ & _ & _ & Hp & _); exact Hp).
  exact Hshape.
Qed.

Lemma finish_succeeds (h : Host) (pkg : promise) (d : stage) (dir : string)
    (k : cont) (s : state) :
  under_way k pkg d dir s ->
  under_way (AwaitThenUpdate dir) pkg d dir (finish h s)
  /\ last_status (trace (finish h s).1) = Some Succeeded.
Proof.
  intros (Hat & Hret & Hready & Hpkg & Hd & Hdir & Hflag).
  unfold under_way, finish, then_update, updateConfig. cbn.
  rewrite Hdir. split; [auto 10|].
  rewrite <- !app_assoc. rewrite last_status_app. reflexivity.
Qed.

Lemma decompressed_continues (h : Host) (dir : string) (s : state) :
  under_way AwaitPackage Pending Unpacking dir s ->
  exists s',
    step h (EvDecompressed None) s = Some s'
    /\ if isWin h then under_way AwaitJupyter Resolved Unlinking dir s'
       else under_way (AwaitThenUpdate dir) Resolved Unlinking dir s'
            /\ last_status (trace s'.1) = Some Succeeded.
Proof.
  intros (Hat & Hret & Hready & Hpkg & Hd & Hdir & Hflag).
  unfold step. cbv zeta. rewrite Hd. eexists. split; [reflexivity|].
  unfold on_decompressed. cbv zeta. unfold settle_package.
  cbn [fst snd say at_ package with_download with_package]. rewrite Hat, Hpkg.
  cbn [resolve]. unfold after_package, installJupyterProsePackage, installSparkMagic.
  destruct (isWin h).
  - unfold under_way. cbn. auto 10.
  - apply (finish_succeeds h Resolved Unlinking dir AwaitPackage).
    unfold under_way. cbn. auto 10.
Qed.

Lemma unlinked_finishes (h : Host) (k : cont) (dir : string) (s : state) :
  k <> AwaitPackage ->
  under_way k Resolved Unlinking dir s ->
  exists s',
    step h (EvUnlinked null) s = Some s'
    /\ under_way k Resolved Finished dir s' /\ trace s'.1 = trace s.1.
Proof.
  intros Hk (Hat & Hret & Hready & Hpkg & Hd & Hdir & Hflag).
  unfold step. cbv zeta. rewrite Hd. eexists. split; [reflexivity|].
  unfold on_unlinked. cbn [truthy]. cbv zeta.
  rewrite settle_elsewhere by (cbn; rewrite Hat; exact Hk).
  unfold under_way. cbn. auto 10.
Qed.

Lemma pip_commands_succeed (h : Host) (d : stage) (dir : string) (s : state) :
  isWin h = true ->
  under_way AwaitJupyter Resolved d dir s ->
  exists s',
    run h [EvExecuted None; EvExecuted None] s = Some s'
    /\ under_way (AwaitThenUpdate dir) Resolved d dir s'
    /\ last_status (trace s'.1) = Some Succeeded.
Proof.
  intros Hwin (Hat & Hret & Hready & Hpkg & Hd & Hdir & Hflag).
  cbn [run]. unfold step at 1. cbv zeta. rewrite Hat.
  unfold installSparkMagic at 1. rewrite Hwin. cbv zeta. cbn [fst snd say].
  unfold step. cbv zeta. cbn [at_ goto fst snd].
  eexists. split; [reflexivity|].
  apply (finish_succeeds h Resolved d dir AwaitSparkMagic).
  unfold under_way. cbn. auto 10.
Qed.

Lemma config_written_resolves (h : Host) (pkg : promise) (d : stage) (dir : string)
    (s : state) :
  under_way (AwaitThenUpdate dir) pkg d dir s ->
  exists s',
    step h (EvConfigUpdated None) s = Some s'
    /\ outcome s'.2 = Resolved
    /\ _installInProgress (this s'.1) = false
    /\ recorded h s'.1 = Some dir
    /\ trace s'.1 = trace s.1.
Proof.
  intros (Hat & Hret & Hready & Hpkg & Hd & Hdir & Hflag).
  unfold step. cbv zeta. rewrite Hat. eexists. split; [reflexivity|].
  unfold outcome, recorded, write_setting. cbn. rewrite Hret, Hready.
  rewrite lookup_insert_eq. cbn. rewrite lookup_insert_eq. auto.
Qed.

(** X12. An installation in which every step succeeds resolves: from a
    call that passes the guards and must install, the callbacks of
    [successful_callbacks] are all accepted, whatever the sizes of the
    chunks received, and after them the promise is resolved, the guard is
    cleared, the store holds the target path and the last status given to
    the task is Succeeded. *)
Theorem successful_install_resolves (h : Host) (w : world) (forceInstall : bool)
    (installationPath : option string) (err : any) (fd : Z)
    (statusMessage : string) (contentLength : option Z) (chunks : list N) :
  let target :=
    match installationPath with
    | Some p => if truthy_str (Some p) then p else _pythonInstallationPath (this w)
    | None => _pythonInstallationPath (this w)
    end in
  isPythonRunning err = false ->
  _installInProgress (this w) = false ->
  forceInstall = true \/ getPythonExePath h target ∉ files w ->
  exists s,
    run h (successful_callbacks h err fd statusMessage contentLength chunks)
      (startInstallProcess h forceInstall installationPath w) = Some s
    /\ outcome s.2 = Resolved
    /\ _installInProgress (this s.1) = false
    /\ recorded h s.1 = Some target
    /\ last_status (trace s.1) = Some Succeeded.
Proof.
  intros target Hrun Hflag Hneed. unfold successful_callbacks.
  destruct (open_starts_task h w forceInstall installationPath err fd Hrun Hflag Hneed)
    as (s1 & Hstep1 & Hs1 & Hmust). fold target in Hs1.
  destruct (operation_downloads h _ _ _ s1 Hs1 Hmust) as (s2 & Hstep2 & Hs2).
  destruct (mkdirs_streams h _ s2 Hs2) as (s3 & Hstep3 & Hs3).
  destruct (response_200_streams h statusMessage contentLength _ s3 Hs3)
    as (s4 & Hstep4 & Hs4).
  destruct (chunks_stream h chunks _ s4 Hs4) as (s5 & Hrun5 & Hs5).
  destruct (close_unpacks h _ s5 Hs5) as (s6 & Hstep6 & Hs6).
  destruct (decompressed_continues h _ s6 Hs6) as (s7 & Hstep7 & Hs7).
  cbn [app run]. rewrite Hstep1, Hstep2, Hstep3, Hstep4.
  assert (Hsplit : forall evs evs' s0 s0',
             run h evs s0 = Some s0' -> run h (evs ++ evs') s0 = run h evs' s0').
  { clear. induction evs as [|ev evs IH]; intros evs' s0 s0'; cbn.
    - intros [= ->]. reflexivity.
    - destruct (step h ev s0); [apply IH|discriminate]. }
  rewrite (Hsplit _ _ _ _ Hrun5). cbn [app run]. rewrite Hstep6, Hstep7.
  destruct (isWin h) eqn:Hwin.
  - destruct (unlinked_finishes h AwaitJupyter _ s7 ltac:(discriminate) Hs7)
      as (s8 & -> & Hs8 & _).
    destruct (pip_commands_succeed h _ _ s8 Hwin Hs8) as (s9 & Hrun9 & Hs9 & Hlast).
    rewrite (Hsplit _ _ _ _ Hrun9). cbn [run].
    destruct (config_written_resolves h _ _ _ s9 Hs9)
      as (s10 & -> & Hres & Hg & Hrec & Htrace).
    exists s10. rewrite Htrace. auto.
  - destruct Hs7 as [Hs7 Hlast].
    destruct (unlinked_finishes h (AwaitThenUpdate target) _ s7 ltac:(discriminate) Hs7)
      as (s8 & -> & Hs8 & Htrace8).
    cbn [app run].
    destruct (config_written_resolves h _ _ _ s8 Hs8)
      as (s10 & -> & Hres & Hg & Hrec & Htrace).
    exists s10. rewrite Htrace, Htrace8. auto.
Qed.

(** A forced installation on Windows that receives three chunks. *)
Lemma successful_install_resolves_witness :
  exists s,
    run windows_host
      (successful_callbacks windows_host null 3 "OK" (Some 30%Z) [10%N; 10%N; 10%N])
      (startInstallProcess windows_host true None
         (new_JupyterServerInstallation windows_host "C:\ext" (Some "C:\py") ∅ ∅ ∅))
    = Some s
    /\ outcome s.2 = Resolved
    /\ recorded windows_host s.1 = Some "C:\py".
Proof.
  destruct (successful_install_resolves windows_host
              (new_JupyterServerInstallation windows_host "C:\ext" (Some "C:\py") ∅ ∅ ∅)
              true None null 3 "OK" (Some 30%Z) [10%N; 10%N; 10%N])
    as (s & Hs & Hres & _ & Hrec & _).
  - reflexivity.
  - reflexivity.
  - left. reflexivity.
  - exists s. auto.
Defined.

(** ** The executable appears before the background operation starts *)

Lemma open_queues_task (h : Host) (w : world) (forceInstall : bool)
    (installationPath : option string) (err : any) (fd : Z) :
  let target :=
    match installationPath with
    | Some p => if truthy_str (Some p) then p else _pythonInstallationPath (this w)
    | None => _pythonInstallationPath (this w)
    end in
  isPythonRunning err = false ->
  _installInProgress (this w) = false ->
  forceInstall = true \/ getPythonExePath h target ∉ files w ->
  exists s1,
    step h (EvOpen err fd) (startInstallProcess h forceInstall installationPath w) = Some s1
    /\ under_way TaskQueued Pending Idle target s1
    /\ _pythonExecutable (this s1.1) = getPythonExePath h target
    /\ _forceInstall (this s1.1) = forceInstall
    /\ trace s1.1
       = trace w ++ FsOpen (getPythonExePath h target)
           :: (if truthy err then [] else [FsClose fd])
           ++ [StartBackgroundOperation msgTaskName msgTaskName false].
Proof.
  intros target Hrun Hflag Hneed. unfold step, startInstallProcess.
  cbn [fst snd at_ new_call]. rewrite Hrun. eexists. split; [reflexivity|].
  unfold guarded_install.
  assert (Hf : forall e c,
             _installInProgress (this ((if truthy err then (emit e w, c)
                                        else (emit (FsClose fd) (emit e w),
                                              with_closing true c)).1)) = false).
  { intros e c. destruct (truthy err); exact Hflag. }
  rewrite Hf. cbv zeta.
  match goal with
  | |- context [if negb (existsSync ?w1 ?exe) || ?f then _ else _] =>
      assert (Hx : negb (existsSync w1 exe) || f = true)
  end.
  { destruct Hneed as [-> | Hmissing].
    - destruct (truthy err); cbn; apply orb_true_r.
    - unfold existsSync. destruct (truthy err); cbn; fold target;
        rewrite bool_decide_eq_false_2 by exact Hmissing; reflexivity. }
  rewrite Hx. unfold under_way.
  destruct (truthy err); cbn; fold target; rewrite <- ?app_assoc; auto 10.
Qed.

(** X13. [installDependencies] looks for the executable again when the
    host starts the operation.  If it was missing at the call and has
    appeared since, and the call is not forced, the operation downloads
    nothing and gives the task no status at all, neither Succeeded nor
    Failed: it only asks for the configuration write, and when that
    succeeds the promise is resolved and the guard cleared. *)
Theorem late_executable_skips_silently (h : Host) (w : world)
    (installationPath : option string) (err : any) (fd : Z) (fs : gset string) :
  let target :=
    match installationPath with
    | Some p => if truthy_str (Some p) then p else _pythonInstallationPath (this w)
    | None => _pythonInstallationPath (this w)
    end in
  isPythonRunning err = false ->
  _installInProgress (this w) = false ->
  getPythonExePath h target ∉ files w ->
  getPythonExePath h target ∈ fs ->
  exists s,
    run h [EvOpen err fd; EvFiles fs; EvOperation; EvConfigUpdated None]
      (startInstallProcess h false installationPath w) = Some s
    /\ outcome s.2 = Resolved
    /\ _installInProgress (this s.1) = false
    /\ recorded h s.1 = Some target
    /\ trace s.1
       = trace w ++ FsOpen (getPythonExePath h target)
           :: (if truthy err then [] else [FsClose fd])
           ++ [StartBackgroundOperation msgTaskName msgTaskName false;
               ConfigUpdate (notebookConfigKey h) (pythonPathConfigKey h) target].
Proof.
  intros target Hrun Hflag Hmissing Hthere.
  destruct (open_queues_task h w false installationPath err fd Hrun Hflag
              (or_intror Hmissing))
    as (s1 & Hstep1 & Hs1 & Hexe & Hforce & Htrace). fold target in Hs1, Hexe, Htrace.
  cbn [run]. rewrite Hstep1. unfold step at 1. cbn [run].
  destruct Hs1 as (Hat & Hret & Hready & Hpkg & Hd & Hdir & Hg).
  unfold step at 1. cbv zeta. cbn [fst snd]. rewrite Hat.
  unfold installDependencies, existsSync. cbn [fst snd files with_files this].
  rewrite Hexe, Hforce, bool_decide_eq_true_2 by exact Hthere. cbn [negb orb].
  rewrite settle_elsewhere by (cbn; discriminate).
  unfold step. cbv zeta. unfold then_update, updateConfig. cbn [fst snd at_ goto].
  eexists. split; [reflexivity|].
  unfold outcome, recorded, write_setting. cbn. rewrite Hret, Hready, Hdir, Htrace.
  rewrite lookup_insert_eq. cbn. rewrite lookup_insert_eq.
  rewrite <- !app_assoc. cbn. rewrite <- !app_assoc. auto.
Qed.

(** The executable is put in place while the task waits to be started. *)
Lemma late_executable_skips_silently_witness :
  exists s,
    run linux_host [EvOpen (error "ENOENT" "no such file") 0;
                    EvFiles {["/home/u/py/0.0.1/bin/python3"]}; EvOperation;
                    EvConfigUpdated None]
      (startInstallProcess linux_host false None fresh_linux_installer) = Some s
    /\ outcome s.2 = Resolved
    /\ trace s.1
       = [FsOpen "/home/u/py/0.0.1/bin/python3";
          StartBackgroundOperation msgTaskName msgTaskName false;
          ConfigUpdate "notebook" "pythonPath" "/home/u/py"].
Proof.
  destruct (late_executable_skips_silently linux_host fresh_linux_installer None
              (error "ENOENT" "no such file") 0 {["/home/u/py/0.0.1/bin/python3"]})
    as (s & Hs & Hres & _ & _ & Htrace).
  - reflexivity.
  - reflexivity.
  - vm_compute. discriminate.
  - vm_compute. reflexivity.
  - exists s. split; [exact Hs|]. split; [exact Hres|]. exact Htrace.
Defined.

(** ** Nothing needs Python before the archive is unpacked *)

Lemma reject_resolved (reason : any) (p : promise) :
  reject reason p = Resolved <-> p = Resolved.
Proof. destruct p; cbn; split; congruence. Qed.

Ltac extends :=
  cbn [fst snd say emit trace reject_package];
  rewrite <- ?app_assoc; reflexivity.

Lemma harmless_since (w0 : world) (s s' : state) :
  harmless s s' ->
  before_package (at_ s.2) = false ->
  since w0 s -> since w0 s'.
Proof.
  intros ((es' & Htrace & Hearly & Hunpack) & Hpkg & Hat & Hzip) Hbefore
    (es & Hes & HB & HA & HC & HD & HE).
  exists (es ++ es'). split; [rewrite Htrace, Hes, app_assoc; reflexivity|].
  unfold unpack_first. rewrite Hzip, Hat, Hbefore. repeat split.
  - intros Hres. apply Hpkg in Hres. destruct (HB Hres) as (dir & Hd & Hu).
    exists dir. rewrite !elem_of_app. auto.
  - intros Hnot. apply Forall_app. split; [|exact Hearly].
    apply HA. intros Hres. apply Hnot, Hpkg, Hres.
  - intros Hd. destruct (Hunpack Hd) as [Hold | (dir & Hin)].
    + destruct (HC Hold) as (dir & Hin). exists dir. apply elem_of_app. auto.
    + exists dir. apply elem_of_app. auto.
  - intros Hpip. apply Hpkg, HD, Hpip.
  - discriminate.
  - discriminate.
Qed.

Lemma proceeds_since (w0 : world) (s s' : state) :
  proceeds s s' -> since w0 s -> since w0 s'.
Proof.
  intros ((es' & Htrace & Hlate) & Hpkg & Hd & Hzip & Hpip & Hbefore)
    (es & Hes & HB & HA & HC & HD & HE).
  exists (es ++ es'). split; [rewrite Htrace, Hes, app_assoc; reflexivity|].
  unfold unpack_first. rewrite Hzip, Hpkg, Hd. repeat split.
  - intros Hres. destruct (HB Hres) as (dir & Hin & Hu).
    exists dir. rewrite !elem_of_app. auto.
  - intros Hnot. apply Forall_app. split; [apply HA, Hnot|].
    destruct Hlate as [Hres | Hearly]; [contradiction | exact Hearly].
  - intros Hunp. destruct (HC Hunp) as (dir & Hin). exists dir. apply elem_of_app. auto.
  - intros Hp. destruct (Hpip Hp) as [Hres | Hold]; [exact Hres | apply HD, Hold].
  - apply HE, Hbefore. assumption.
  - apply HE, Hbefore. assumption.
Qed.

Lemma on_mkdirs_harmless (h : Host) (err : any) (s : state) :
  harmless s (on_mkdirs h err s).
Proof.
  unfold harmless, on_mkdirs. destruct (truthy err); cbv zeta; cbn [fst snd say].
  - split; [eexists; split; [extends|]|].
    + split; [repeat constructor | cbn; discriminate].
    + cbn. split; [apply reject_resolved | split; reflexivity].
  - split; [eexists; split; [extends|]|].
    + split; [repeat constructor | cbn; discriminate].
    + cbn. split; [reflexivity | split; reflexivity].
Qed.

Lemma on_download_error_harmless (e : any) (s : state) :
  harmless s (on_download_error e s).
Proof.
  unfold harmless, on_download_error.
  split; [eexists; split; [extends|]|].
  - split; [repeat constructor | cbn; auto].
  - cbn. split; [apply reject_resolved | split; reflexivity].
Qed.

Lemma on_response_harmless (h : Host) (code : Z) (msg : string) (len : option Z)
    (s : state) :
  harmless s (on_response h code msg len s).
Proof.
  unfold harmless, on_response. destruct (negb (code =? 200)%Z); cbv zeta; cbn [fst snd say].
  - split; [eexists; split; [extends|]|].
    + split; [repeat constructor | cbn; auto].
    + cbn. split; [apply reject_resolved | split; reflexivity].
  - split; [eexists; split; [extends|]|].
    + split; [repeat constructor | cbn; auto].
    + cbn. split; [reflexivity | split; reflexivity].
Qed.

Lemma on_data_harmless (h : Host) (n : N) (s : state) :
  harmless s (on_data h n s).
Proof.
  unfold harmless, on_data. cbv zeta. cbn [totalBytes with_progress].
  destruct (totalBytes s.2);
    [match goal with |- context [if ?b then _ else _] => destruct b end|].
  - split; [eexists; split; [extends|]|].
    + split; [repeat constructor | cbn; auto].
    + cbn. split; [reflexivity | split; reflexivity].
  - split; [exists []; split; [cbn; rewrite app_nil_r; reflexivity|]|].
    + split; [constructor | cbn; auto].
    + cbn. split; [reflexivity | split; reflexivity].
  - split; [exists []; split; [cbn; rewrite app_nil_r; reflexivity|]|].
    + split; [constructor | cbn; auto].
    + cbn. split; [reflexivity | split; reflexivity].
Qed.

Lemma on_close_harmless (h : Host) (removed : option any) (s : state) :
  harmless s (on_close h removed s).
Proof.
  unfold harmless, on_close. cbv zeta. cbn [fst snd say].
  match goal with |- context [if ?b then _ else _] => destruct b end;
    [destruct removed|]; cbn [fst snd say reject_package].
  - split; [eexists; split; [extends|]|].
    + split; [repeat constructor|]. cbn. intros _. right. eexists.
      rewrite !elem_of_cons. auto 10.
    + cbn. split; [apply reject_resolved | split; reflexivity].
  - split; [eexists; split; [extends|]|].
    + split; [repeat constructor|]. cbn. intros _. right. eexists.
      rewrite !elem_of_cons. auto 10.
    + cbn. split; [reflexivity | split; reflexivity].
  - split; [eexists; split; [extends|]|].
    + split; [repeat constructor|]. cbn. intros _. right. eexists.
      rewrite !elem_of_cons. auto 10.
    + cbn. split; [reflexivity | split; reflexivity].
Qed.

Lemma on_decompressed_error_harmless (err : any) (s : state) :
  harmless s (on_decompressed (Some err) s).
Proof.
  unfold harmless, on_decompressed. cbv zeta. cbn [fst snd say reject_package].
  split; [eexists; split; [extends|]|].
  - split; [repeat constructor | cbn; discriminate].
  - cbn. split; [apply reject_resolved | split; reflexivity].
Qed.

Lemma on_unlinked_harmless (err : any) (s : state) :
  harmless s (on_unlinked err s).
Proof.
  unfold harmless, on_unlinked. destruct (truthy err); cbv zeta; cbn [fst snd say].
  - split; [eexists; split; [extends|]|].
    + split; [repeat constructor | cbn; discriminate].
    + cbn. split; [apply reject_resolved | split; reflexivity].
  - split; [exists []; split; [cbn; rewrite app_nil_r; reflexivity|]|].
    + split; [constructor | cbn; discriminate].
    + cbn. split; [reflexivity | split; reflexivity].
Qed.

Ltac grows_by_nothing :=
  exists []; split; [cbn; rewrite ?app_nil_r; reflexivity | right; constructor].

Lemma fail_proceeds (h : Host) (err : any) (s : state) : proceeds s (fail h err s).
Proof.
  unfold proceeds, fail. cbv zeta. cbn [fst snd say].
  split; [eexists; split; [cbn; extends | right; repeat constructor]|].
  cbn. repeat split; auto; discriminate.
Qed.

Lemma then_update_proceeds (h : Host) (s : state) : proceeds s (then_update h s).
Proof.
  unfold proceeds, then_update, updateConfig. cbn [fst snd].
  split; [eexists; split; [cbn; extends | right; repeat constructor]|].
  cbn. repeat split; auto; discriminate.
Qed.

Lemma finish_proceeds (h : Host) (s : state) :
  package s.2 = Resolved -> proceeds s (finish h s).
Proof.
  intros Hres. unfold proceeds, finish, then_update, updateConfig. cbv zeta.
  cbn [fst snd say].
  split; [eexists; split; [cbn; extends | left; exact Hres]|].
  cbn. repeat split; auto; discriminate.
Qed.

Lemma installSparkMagic_proceeds (h : Host) (s : state) :
  package s.2 = Resolved -> proceeds s (installSparkMagic h s).
Proof.
  intros Hres. unfold installSparkMagic. destruct (isWin h).
  - unfold proceeds. cbv zeta. cbn [fst snd say].
    split; [eexists; split; [cbn; extends | left; exact Hres]|].
    cbn. repeat split; auto; discriminate.
  - apply finish_proceeds, Hres.
Qed.

Lemma say_proceeds (e : effect) (s : state) :
  package s.2 = Resolved \/ needs_unpacked e = false -> proceeds s (say e s).
Proof.
  intros He. unfold proceeds, say. cbn [fst snd].
  split; [exists [e]; split; [reflexivity|]|].
  - destruct He as [Hres | He]; [left; exact Hres | right; repeat constructor; exact He].
  - repeat split; auto.
Qed.

Lemma proceeds_trans (s1 s2 s3 : state) :
  proceeds s1 s2 -> proceeds s2 s3 -> proceeds s1 s3.
Proof.
  intros ((es1 & Ht1 & Hl1) & Hp1 & Hd1 & Hz1 & Hpip1 & Hb1)
         ((es2 & Ht2 & Hl2) & Hp2 & Hd2 & Hz2 & Hpip2 & Hb2).
  unfold proceeds. rewrite Hp2, Hp1, Hd2, Hd1, Hz2, Hz1.
  split; [exists (es1 ++ es2); split; [rewrite Ht2, Ht1, app_assoc; reflexivity|]|].
  - rewrite Hp1 in Hl2. destruct Hl1 as [Hres | He1]; [left; exact Hres|].
    destruct Hl2 as [Hres | He2]; [left; exact Hres|].
    right. apply Forall_app. auto.
  - repeat split; auto.
    intros Hp. destruct (Hpip2 Hp) as [Hres | Hold].
    + left. rewrite <- Hp1. exact Hres.
    + apply Hpip1, Hold.
Qed.

Lemma after_package_proceeds (h : Host) (s : state) :
  package s.2 = Resolved -> proceeds s (after_package h s).
Proof.
  intros Hres. unfold after_package. cbv zeta.
  eapply proceeds_trans; [apply say_proceeds; left; exact Hres|].
  eapply proceeds_trans; [apply say_proceeds; left; exact Hres|].
  unfold installJupyterProsePackage. destruct (isWin h).
  - unfold proceeds. cbv zeta. cbn [fst snd say].
    split; [eexists; split; [cbn; extends | left; exact Hres]|].
    cbn. repeat split; auto; discriminate.
  - apply installSparkMagic_proceeds. exact Hres.
Qed.

Lemma settle_package_since (h : Host) (w0 : world) (s : state) :
  since w0 s -> since w0 (settle_package h s).
Proof.
  intros Hs. unfold settle_package.
  destruct (at_ s.2); try exact Hs.
  destruct (package s.2) eqn:Hpkg; [exact Hs | |].
  - eapply proceeds_since; [apply after_package_proceeds; exact Hpkg | exact Hs].
  - eapply proceeds_since; [apply fail_proceeds | exact Hs].
Qed.

Lemma since_downloading (w0 : world) (s : state) :
  since w0 s -> download s.2 <> Idle -> before_package (at_ s.2) = false.
Proof.
  intros (es & _ & _ & _ & _ & _ & HE) Hd.
  destruct (before_package (at_ s.2)); [|reflexivity].
  destruct (HE eq_refl) as [_ Hidle]. contradiction.
Qed.

Lemma on_decompressed_since (w0 : world) (s : state) :
  download s.2 = Unpacking -> since w0 s -> since w0 (on_decompressed None s).
Proof.
  intros Hd (es & Hes & HB & HA & HC & HD & HE).
  exists (es ++ [Unlink (pythonPackagePathLocal s.2)]).
  unfold on_decompressed. cbv zeta.
  split; [cbn; rewrite Hes, app_assoc; reflexivity|].
  unfold unpack_first. cbn.
  repeat split.
  - intros _. destruct (HC Hd) as (dir & Hin). exists dir.
    rewrite !elem_of_app, !list_elem_of_singleton. auto.
  - intros Hnot. apply Forall_app. split; [|repeat constructor].
    apply HA. intros Hres. apply Hnot. rewrite Hres. reflexivity.
  - discriminate.
  - intros Hpip. rewrite (HD Hpip). reflexivity.
  - match goal with
    | Hb : before_package _ = true |- _ =>
        destruct (HE Hb) as [_ Hidle]; rewrite Hidle in Hd; discriminate
    end.
  - match goal with
    | Hb : before_package _ = true |- _ =>
        destruct (HE Hb) as [_ Hidle]; rewrite Hidle in Hd; discriminate
    end.
Qed.

Lemma installDependencies_since (h : Host) (w0 : world) (s : state) :
  at_ s.2 = TaskQueued -> since w0 s -> since w0 (installDependencies h s).
Proof.
  intros Hat Hs. unfold installDependencies.
  match goal with |- context [if ?b then _ else _] => destruct b end.
  - destruct Hs as (es & Hes & HB & HA & HC & HD & HE).
    rewrite Hat in HE. destruct (HE eq_refl) as [Hpending _].
    unfold installPythonPackage. cbv zeta. cbn [fst snd say].
    eexists. split; [cbn; rewrite Hes, <- ?app_assoc; reflexivity|].
    unfold unpack_first. cbn. repeat split; try discriminate.
    intros _. apply Forall_app. split; [|repeat constructor].
    apply HA. rewrite Hpending. discriminate.
  - eapply proceeds_since; [apply then_update_proceeds | exact Hs].
Qed.

Lemma guarded_install_since (h : Host) (w0 : world) (forceInstall : bool)
    (installationPath : option string) (running : bool) (s : state) :
  before_package (at_ s.2) = true ->
  since w0 s -> since w0 (guarded_install h forceInstall installationPath running s).
Proof.
  intros Hb Hs. apply (proceeds_since w0 s); [|exact Hs].
  unfold guarded_install.
  destruct running; [|destruct (_installInProgress (this s.1))].
  - unfold proceeds. split; [grows_by_nothing|]. cbn. repeat split; auto; discriminate.
  - unfold proceeds. split; [grows_by_nothing|]. cbn. repeat split; auto; discriminate.
  - cbv zeta. match goal with |- context [if ?b then _ else _] => destruct b end.
    + unfold proceeds. cbn [fst snd].
      split; [eexists; split; [cbn; reflexivity | right; repeat constructor]|].
      cbn. repeat split; auto; discriminate.
    + unfold proceeds, updateConfig. cbn [fst snd].
      split; [eexists; split; [cbn; reflexivity | right; repeat constructor]|].
      cbn. repeat split; auto; discriminate.
Qed.

(** Every callback keeps [since]. *)
Lemma step_since (h : Host) (w0 : world) (ev : event) (s s' : state) :
  step h ev s = Some s' -> since w0 s -> since w0 s'.
Proof.
  intros Hstep Hs. revert Hstep. unfold step. cbv zeta.
  destruct ev.
  - (* EvFiles *)
    intros [= <-]. apply (proceeds_since w0 s); [|exact Hs].
    unfold proceeds. split; [grows_by_nothing|]. cbn. repeat split; auto.
  - (* EvOpen *)
    destruct (at_ s.2) eqn:Hat; try discriminate. intros [= <-].
    apply guarded_install_since.
    + destruct (truthy err); cbn; rewrite Hat; reflexivity.
    + destruct (truthy err); [exact Hs|].
      apply (proceeds_since w0 s); [|exact Hs].
      unfold proceeds. cbn [fst snd].
      split; [eexists; split; [cbn; reflexivity | right; repeat constructor]|].
      cbn. repeat split; auto.
  - (* EvCloseFd *)
    destruct (closing s.2); [|discriminate]. intros [= <-].
    apply (proceeds_since w0 s); [|exact Hs].
    unfold proceeds. cbn [fst snd].
    split; [eexists; split; [cbn; reflexivity | right; repeat constructor]|].
    cbn. repeat split; auto.
  - (* EvConfigUpdated *)
    destruct (at_ s.2) eqn:Hat; try discriminate; destruct err; intros [= <-].
    + apply (proceeds_since w0 s); [|exact Hs].
      unfold proceeds. split; [grows_by_nothing|]. cbn. repeat split; auto; discriminate.
    + apply (proceeds_since w0 s); [|exact Hs].
      unfold proceeds. split; [grows_by_nothing|]. cbn. repeat split; auto; discriminate.
    + eapply proceeds_since; [apply fail_proceeds | exact Hs].
    + apply (proceeds_since w0 s); [|exact Hs].
      unfold proceeds. split; [grows_by_nothing|]. cbn. repeat split; auto; discriminate.
  - (* EvOperation *)
    destruct (at_ s.2) eqn:Hat; try discriminate. intros [= <-].
    apply settle_package_since, installDependencies_since; assumption.
  - destruct (download s.2) eqn:Hd; try discriminate. intros [= <-].
    apply settle_package_since.
    eapply harmless_since; [apply on_mkdirs_harmless | | exact Hs].
    apply (since_downloading w0 s Hs). rewrite Hd. discriminate.
  - destruct (download s.2) eqn:Hd; try discriminate. intros [= <-].
    apply settle_package_since.
    eapply harmless_since; [apply on_download_error_harmless | | exact Hs].
    apply (since_downloading w0 s Hs). rewrite Hd. discriminate.
  - destruct (download s.2) eqn:Hd; try discriminate. intros [= <-].
    apply settle_package_since.
    eapply harmless_since; [apply on_response_harmless | | exact Hs].
    apply (since_downloading w0 s Hs). rewrite Hd. discriminate.
  - destruct (download s.2) eqn:Hd; try discriminate. intros [= <-].
    apply settle_package_since.
    eapply harmless_since; [apply on_data_harmless | | exact Hs].
    apply (since_downloading w0 s Hs). rewrite Hd. discriminate.
  - destruct (download s.2) eqn:Hd; try discriminate. intros [= <-].
    apply settle_package_since.
    eapply harmless_since; [apply on_close_harmless | | exact Hs].
    apply (since_downloading w0 s Hs). rewrite Hd. discriminate.
  - destruct (download s.2) eqn:Hd; try discriminate. intros [= <-].
    apply settle_package_since.
    eapply harmless_since; [apply on_download_error_harmless | | exact Hs].
    apply (since_downloading w0 s Hs). rewrite Hd. discriminate.
  - destruct (download s.2) eqn:Hd; try discriminate. intros [= <-].
    apply settle_package_since. destruct err as [err|].
    + eapply harmless_since; [apply on_decompressed_error_harmless | | exact Hs].
      apply (since_downloading w0 s Hs). rewrite Hd. discriminate.
    + apply on_decompressed_since; assumption.
  - destruct (download s.2) eqn:Hd; try discriminate. intros [= <-].
    apply settle_package_since.
    eapply harmless_since; [apply on_unlinked_harmless | | exact Hs].
    apply (since_downloading w0 s Hs). rewrite Hd. discriminate.
  - (* EvExecuted *)
    assert (Hres : at_pip (at_ s.2) = true -> package s.2 = Resolved).
    { destruct Hs as (es & _ & _ & _ & _ & HD & _). exact HD. }
    destruct (at_ s.2) eqn:Hat; try discriminate; destruct err; intros [= <-].
    + eapply proceeds_since; [apply fail_proceeds | exact Hs].
    + eapply proceeds_since; [|exact Hs].
      eapply proceeds_trans; [apply say_proceeds; left; apply Hres; reflexivity|].
      apply installSparkMagic_proceeds. cbn. apply Hres. reflexivity.
    + eapply proceeds_since; [apply fail_proceeds | exact Hs].
    + eapply proceeds_since; [|exact Hs].
      apply finish_proceeds, Hres. reflexivity.
Qed.

Lemma run_since (h : Host) (w0 : world) (evs : list event) (s s' : state) :
  run h evs s = Some s' -> since w0 s -> since w0 s'.
Proof.
  revert s. induction evs as [|ev evs IH]; intros s Hrun Hs; cbn in Hrun.
  - injection Hrun as <-. exact Hs.
  - destruct (step h ev s) as [s1|] eqn:Hstep; [|discriminate].
    eapply IH; [exact Hrun|]. eapply step_since; eassumption.
Qed.

Lemma start_since (h : Host) (forceInstall : bool) (installationPath : option string)
    (w : world) :
  since w (startInstallProcess h forceInstall installationPath w).
Proof.
  unfold since, startInstallProcess. cbn [fst snd].
  eexists. split; [cbn; reflexivity|].
  unfold unpack_first. cbn. repeat split; try discriminate.
  intros _. repeat constructor.
Qed.

Lemma settle_package_package (h : Host) (s : state) :
  package (settle_package h s).2 = package s.2.
Proof.
  unfold settle_package. destruct (at_ s.2); try reflexivity.
  destruct (package s.2) eqn:Hpkg; [exact Hpkg| |].
  - destruct (after_package_proceeds h s Hpkg) as (_ & Hsame & _).
    rewrite Hsame. exact Hpkg.
  - destruct (fail_proceeds h reason s) as (_ & Hsame & _).
    rewrite Hsame. exact Hpkg.
Qed.

(** The package promise is resolved by one callback only: the one of a
    decompression that has succeeded. *)
Lemma step_resolves_package (h : Host) (ev : event) (s s' : state) :
  step h ev s = Some s' ->
  package s'.2 = Resolved ->
  package s.2 = Resolved \/ (ev = EvDecompressed None /\ download s.2 = Unpacking).
Proof.
  unfold step. cbv zeta. destruct ev.
  - intros [= <-]. cbn. auto.
  - destruct (at_ s.2); try discriminate. intros [= <-].
    unfold guarded_install.
    destruct (isPythonRunning err);
      [|destruct (_installInProgress (this _)); [|cbv zeta;
        match goal with |- context [if ?b then _ else _] => destruct b end]];
      destruct (truthy err); cbn; auto.
  - destruct (closing s.2); [|discriminate]. intros [= <-]. cbn. auto.
  - destruct (at_ s.2); try discriminate; destruct err; intros [= <-]; cbn; auto.
  - destruct (at_ s.2); try discriminate. intros [= <-].
    rewrite settle_package_package. unfold installDependencies.
    match goal with |- context [if ?b then _ else _] => destruct b end; cbn; auto.
    discriminate.
  - destruct (download s.2); try discriminate. intros [= <-].
    rewrite settle_package_package. intros Hres. left.
    apply (proj1 (proj2 (on_mkdirs_harmless h err s))), Hres.
  - destruct (download s.2); try discriminate. intros [= <-].
    rewrite settle_package_package. intros Hres. left.
    apply (proj1 (proj2 (on_download_error_harmless downloadError s))), Hres.
  - destruct (download s.2); try discriminate. intros [= <-].
    rewrite settle_package_package. intros Hres. left.
    apply (proj1 (proj2 (on_response_harmless h statusCode statusMessage contentLength s))),
      Hres.
  - destruct (download s.2); try discriminate. intros [= <-].
    rewrite settle_package_package. intros Hres. left.
    apply (proj1 (proj2 (on_data_harmless h length s))), Hres.
  - destruct (download s.2); try discriminate. intros [= <-].
    rewrite settle_package_package. intros Hres. left.
    apply (proj1 (proj2 (on_close_harmless h removeSyncThrows s))), Hres.
  - destruct (download s.2); try discriminate. intros [= <-].
    rewrite settle_package_package. intros Hres. left.
    apply (proj1 (proj2 (on_download_error_harmless downloadError s))), Hres.
  - destruct (download s.2) eqn:Hd; try discriminate. intros [= <-].
    rewrite settle_package_package. destruct err as [err|].
    + intros Hres. left.
      apply (proj1 (proj2 (on_decompressed_error_harmless err s))), Hres.
    + intros _. right. auto.
  - destruct (download s.2); try discriminate. intros [= <-].
    rewrite settle_package_package. intros Hres. left.
    apply (proj1 (proj2 (on_unlinked_harmless err s))), Hres.
  - destruct (at_ s.2); try discriminate; destruct err; intros [= <-].
    + destruct (fail_proceeds h a s) as (_ & -> & _). auto.
    + unfold installSparkMagic. destruct (isWin h); cbn; auto.
    + destruct (fail_proceeds h a s) as (_ & -> & _). auto.
    + cbn. auto.
Qed.

(** A run that ends with the package promise resolved went through the
    callback of a successful decompression, before which the promise was
    not resolved. *)
Lemma run_resolves_package (h : Host) (evs : list event) (s0 s : state) :
  run h evs s0 = Some s ->
  package s0.2 <> Resolved ->
  package s.2 = Resolved ->
  exists evs1 evs2 s1,
    evs = evs1 ++ EvDecompressed None :: evs2
    /\ run h evs1 s0 = Some s1
    /\ package s1.2 <> Resolved
    /\ download s1.2 = Unpacking.
Proof.
  revert s0. induction evs as [|ev evs IH]; intros s0 Hrun Hnot Hres; cbn in Hrun.
  - injection Hrun as <-. contradiction.
  - destruct (step h ev s0) as [s0'|] eqn:Hstep; [|discriminate].
    destruct (package s0'.2) eqn:Hpkg.
    + destruct (IH s0' Hrun) as (evs1 & evs2 & s1 & -> & Hrun1 & Hnot1 & Hd1);
        [rewrite Hpkg; discriminate | exact Hres|].
      exists (ev :: evs1), evs2, s1. cbn. rewrite Hstep. auto.
    + destruct (step_resolves_package h ev s0 s0' Hstep Hpkg) as [Hold | [-> Hd]];
        [contradiction|].
      exists [], evs, s0. auto.
    + destruct (IH s0' Hrun) as (evs1 & evs2 & s1 & -> & Hrun1 & Hnot1 & Hd1);
        [rewrite Hpkg; discriminate | exact Hres|].
      exists (ev :: evs1), evs2, s1. cbn. rewrite Hstep. auto.
Qed.

(** X14. Nothing that needs the unpacked Python happens before the
    archive is unpacked: if, among the effects of a call, there is a pip
    command or the report that the installation succeeded, then the run
    contains the callback of a decompression that succeeded; until that
    callback the call had asked for the decompression of its archive and
    had neither run a pip command nor reported success.  At the end the
    package promise is resolved and the deletion of the archive was asked
    for too. *)
Theorem success_needs_unpacked_archive (h : Host) (forceInstall : bool)
    (installationPath : option string) (w : world) (evs : list event) (s : state) :
  run h evs (startInstallProcess h forceInstall installationPath w) = Some s ->
  exists es,
    trace s.1 = trace w ++ es
    /\ forall e,
         e ∈ es ->
         (exists command, e = ExecuteStreamedCommand command)
         \/ (exists message, e = UpdateStatus Succeeded message) ->
         (exists evs1 evs2 s1 es1,
            evs = evs1 ++ EvDecompressed None :: evs2
            /\ run h evs1 (startInstallProcess h forceInstall installationPath w) = Some s1
            /\ download s1.2 = Unpacking
            /\ trace s1.1 = trace w ++ es1
            /\ (exists dir, Decompress (pythonPackagePathLocal s1.2) dir ∈ es1)
            /\ (forall e1, e1 ∈ es1 ->
                  (forall command, e1 <> ExecuteStreamedCommand command)
                  /\ (forall message, e1 <> UpdateStatus Succeeded message)))
         /\ package s.2 = Resolved
         /\ exists dir,
              Decompress (pythonPackagePathLocal s.2) dir ∈ es
              /\ Unlink (pythonPackagePathLocal s.2) ∈ es.
Proof.
  intros Hrun.
  destruct (run_since h w evs _ s Hrun (start_since h forceInstall installationPath w))
    as (es & Hes & HB & HA & _).
  exists es. split; [exact Hes|]. intros e Hin Hlate.
  assert (Hneeds : needs_unpacked e = true).
  { destruct Hlate as [(c & ->) | (m & ->)]; reflexivity. }
  assert (Hres : package s.2 = Resolved).
  { destruct (package s.2) eqn:Hpkg; [|reflexivity|].
    - assert (Hnot : Pending <> Resolved) by discriminate.
      pose proof (proj1 (Forall_forall _ _) (HA Hnot) e Hin) as He.
      cbv beta in He. rewrite Hneeds in He. discriminate.
    - assert (Hnot : Rejected reason <> Resolved) by discriminate.
      pose proof (proj1 (Forall_forall _ _) (HA Hnot) e Hin) as He.
      cbv beta in He. rewrite Hneeds in He. discriminate. }
  split; [|split; [exact Hres | exact (HB Hres)]].
  destruct (run_resolves_package h evs _ s Hrun) as (evs1 & evs2 & s1 & Hevs & Hrun1 & Hnot1 & Hd1);
    [cbn; discriminate | exact Hres|].
  destruct (run_since h w evs1 _ s1 Hrun1 (start_since h forceInstall installationPath w))
    as (es1 & Hes1 & _ & HA1 & HC1 & _).
  exists evs1, evs2, s1, es1.
  split; [exact Hevs|]. split; [exact Hrun1|]. split; [exact Hd1|].
  split; [exact Hes1|]. split; [exact (HC1 Hd1)|].
  intros e1 Hin1. pose proof (proj1 (Forall_forall _ _) (HA1 Hnot1) e1 Hin1) as He1.
  cbv beta in He1. split.
  - intros c ->. discriminate.
  - intros m ->. discriminate.
Qed.

(** A forced installation on Windows up to the first pip command. *)
Lemma success_needs_unpacked_archive_witness :
  exists s,
    run windows_host
      [EvOpen null 3; EvOperation; EvMkdirs null; EvResponse 200 "OK" None;
       EvClose None; EvDecompressed None]
      (startInstallProcess windows_host true None
         (new_JupyterServerInstallation windows_host "C:\ext" (Some "C:\py") ∅ ∅ ∅))
    = Some s
    /\ existsb is_subprocess (trace s.1) = true
    /\ package s.2 = Resolved
    /\ exists evs1 evs2,
         [EvOpen null 3; EvOperation; EvMkdirs null; EvResponse 200 "OK" None;
          EvClose None; EvDecompressed None]
         = evs1 ++ EvDecompressed None :: evs2.
Proof.
  eexists. split; [vm_compute; reflexivity|].
  split; [vm_compute; reflexivity|].
  match goal with |- package (snd ?s) = _ /\ _ =>
    destruct (success_needs_unpacked_archive windows_host true None
                (new_JupyterServerInstallation windows_host "C:\ext" (Some "C:\py") ∅ ∅ ∅)
                [EvOpen null 3; EvOperation; EvMkdirs null; EvResponse 200 "OK" None;
                 EvClose None; EvDecompressed None] s)
      as (es & Hes & Hlate)
  end.
  - vm_compute. reflexivity.
  - vm_compute in Hes. subst es.
    match type of Hlate with forall e, e ∈ ?l -> _ =>
      assert (Hpip : existsb is_subprocess l = true) by (vm_compute; reflexivity)
    end.
    apply existsb_exists in Hpip as (e & Hin & He).
    apply list_elem_of_In in Hin.
    destruct e; try discriminate.
    destruct (Hlate _ Hin) as ((evs1 & evs2 & _ & _ & Hevs & _) & Hres & _);
      [left; eauto|].
    split; [exact Hres|]. exists evs1, evs2. exact Hevs.
Defined.

(** ** Data URI editor inputs *)

(** X15. Two data URI inputs match exactly when their resources print
    the same, whatever names and descriptions they were constructed with,
    provided the base class lets an input match no object but itself; so
    [matches] is symmetric on them and every such input matches itself. *)
Theorem matches_by_resource (wb : DataUriEditor.Workbench)
    (heap : gmap N (DataUriEditor.editor_object wb)) (a b : N)
    (name1 description1 name2 description2 : option string)
    (resource1 resource2 : DataUriEditor.URI wb) :
  (forall this ref, DataUriEditor.super_matches wb this (object ref) = true -> ref = this) ->
  heap !! a
  = Some (DataUriEditor.IsDataUriEditorInput
            (DataUriEditor.new_DataUriEditorInput wb name1 description1 resource1)) ->
  heap !! b
  = Some (DataUriEditor.IsDataUriEditorInput
            (DataUriEditor.new_DataUriEditorInput wb name2 description2 resource2)) ->
  (DataUriEditor.matches wb heap a (object b) = Some true
   <-> DataUriEditor.toString wb resource1 = DataUriEditor.toString wb resource2)
  /\ DataUriEditor.matches wb heap a (object b) = DataUriEditor.matches wb heap b (object a)
  /\ DataUriEditor.matches wb heap a (object a) = Some true.
Proof.
  intros Hsuper Ha Hb.
  assert (Hres : forall n d r,
             DataUriEditor.resource (DataUriEditor.new_DataUriEditorInput wb n d r) = r).
  { intros n d r. unfold DataUriEditor.new_DataUriEditorInput.
    destruct (negb (truthy_str n) || negb (truthy_str d)); reflexivity. }
  assert (Hcase : forall x y nx dx ny dy rx ry,
             heap !! x = Some (DataUriEditor.IsDataUriEditorInput
                                 (DataUriEditor.new_DataUriEditorInput wb nx dx rx)) ->
             heap !! y = Some (DataUriEditor.IsDataUriEditorInput
                                 (DataUriEditor.new_DataUriEditorInput wb ny dy ry)) ->
             DataUriEditor.matches wb heap x (object y)
             = Some (String.eqb (DataUriEditor.toString wb ry)
                                (DataUriEditor.toString wb rx))).
  { intros x y nx dx ny dy rx ry Hx Hy. unfold DataUriEditor.matches.
    rewrite Hx. destruct (DataUriEditor.super_matches wb x (object y)) eqn:Hs.
    - apply Hsuper in Hs. subst y. rewrite Hx in Hy. injection Hy as Hy.
      apply (f_equal DataUriEditor.resource) in Hy. rewrite !Hres in Hy. subst ry.
      rewrite String.eqb_refl. reflexivity.
    - rewrite Hy, !Hres. reflexivity. }
  rewrite (Hcase a b _ _ _ _ _ _ Ha Hb), (Hcase b a _ _ _ _ _ _ Hb Ha),
    (Hcase a a _ _ _ _ _ _ Ha Ha).
  split; [|split].
  - split.
    + intros [= H]. apply String.eqb_eq in H. congruence.
    + intros H. rewrite H, String.eqb_refl. reflexivity.
  - f_equal. apply String.eqb_sym.
  - rewrite String.eqb_refl. reflexivity.
Qed.

(** Two inputs for the same data URI under different names. *)
Lemma matches_by_resource_witness :
  DataUriEditor.matches DataUriEditor.plain
    {[1%N := DataUriEditor.IsDataUriEditorInput
               (DataUriEditor.new_DataUriEditorInput DataUriEditor.plain
                  (Some "a.png") None "data:image/png;base64,AA==");
      2%N := DataUriEditor.IsDataUriEditorInput
               (DataUriEditor.new_DataUriEditorInput DataUriEditor.plain
                  (Some "b.png") (Some "copy") "data:image/png;base64,AA==")]}
    1 (object 2)
  = Some true.
Proof.
  match goal with
  | |- DataUriEditor.matches _ ?heap _ _ = _ =>
      apply (proj1 (matches_by_resource DataUriEditor.plain heap 1 2
                      (Some "a.png") None (Some "b.png") (Some "copy")
                      "data:image/png;base64,AA==" "data:image/png;base64,AA=="
                      ltac:(intros this ref H; apply N.eqb_eq in H; exact H)
                      ltac:(vm_compute; reflexivity) ltac:(vm_compute; reflexivity)))
  end.
  reflexivity.
Defined.

(** X16. The name and the description of a data URI input are found
    independently of one another: a name that is given and not empty is
    kept, a missing or empty one is replaced by the label of the URI's
    metadata, and [getName] is null when there is none either; likewise
    for the description. *)
Theorem name_falls_back_to_metadata (wb : DataUriEditor.Workbench)
    (name description : option string) (resource : DataUriEditor.URI wb) :
  let input := DataUriEditor.new_DataUriEditorInput wb name description resource in
  let metadata := DataUriEditor.parseMetaData wb resource in
  DataUriEditor.getName input
  = DataUriEditor.withUndefinedAsNull
      (if truthy_str name then name
       else metadata !! DataUriEditor.META_DATA_LABEL wb)
  /\ DataUriEditor.getDescription input
     = DataUriEditor.withUndefinedAsNull
         (if truthy_str description then description
          else metadata !! DataUriEditor.META_DATA_DESCRIPTION wb)
  /\ DataUriEditor.getResource input = resource.
Proof.
  unfold DataUriEditor.new_DataUriEditorInput, DataUriEditor.getName,
    DataUriEditor.getDescription, DataUriEditor.getResource.
  destruct (truthy_str name), (truthy_str description); cbn; auto.
Qed.

(** ** Counting the download *)

Lemma data_counts (h : Host) (n : N) (s : state) :
  download s.2 = Streaming -> package s.2 = Pending ->
  exists s',
    step h (EvData n) s = Some s'
    /\ download s'.2 = Streaming /\ package s'.2 = Pending
    /\ totalBytes s'.2 = totalBytes s.2
    /\ receivedBytes s'.2 = (receivedBytes s.2 + n)%N
    /\ exists lines,
         trace s'.1 = trace s.1 ++ map AppendLine lines
         /\ length lines <= 1
         /\ (totalBytes s.2 = None \/ totalBytes s.2 = Some 0%Z -> lines = []).
Proof.
  intros Hd Hpkg. unfold step. cbv zeta. rewrite Hd. eexists. split; [reflexivity|].
  assert (Hshape :
            package (on_data h n s).2 = package s.2
            /\ download (on_data h n s).2 = download s.2
            /\ totalBytes (on_data h n s).2 = totalBytes s.2
            /\ receivedBytes (on_data h n s).2 = (receivedBytes s.2 + n)%N
            /\ exists lines,
                 trace (on_data h n s).1 = trace s.1 ++ map AppendLine lines
                 /\ length lines <= 1
                 /\ (totalBytes s.2 = None \/ totalBytes s.2 = Some 0%Z -> lines = [])).
  { unfold on_data. cbv zeta. cbn [totalBytes with_progress].
    destruct (totalBytes s.2) as [total|] eqn:Htotal.
    - destruct (negb (total =? 0)%Z) eqn:Hzero; cbn [andb].
      + destruct (reached h _ total _); cbn.
        * repeat split; try reflexivity. eexists [_]. split; [reflexivity|].
          split; [cbn; lia|]. intros [H | H]; [discriminate|].
          injection H as ->. discriminate.
        * repeat split; try reflexivity. exists []. rewrite app_nil_r. auto.
      + cbn. repeat split; try reflexivity. exists []. rewrite app_nil_r. auto.
    - cbn. repeat split; try reflexivity. exists []. rewrite app_nil_r. auto. }
  destruct Hshape as (Hp & Hdl & Ht & Hr & Hlines).
  rewrite settle_pending by (rewrite Hp; exact Hpkg).
  rewrite Hp, Hdl, Ht, Hr. auto.
Qed.

(** X17. While the archive streams in and nothing has failed, every
    chunk is accepted and counted: after the chunks, [receivedBytes] has
    grown by the sum of their lengths; all the call has done meanwhile is to
    print progress lines, at most one per chunk, and none at all when the
    response gave no content length or a content length of zero. *)
Theorem chunks_are_counted (h : Host) (chunks : list N) (s : state) :
  download s.2 = Streaming -> package s.2 = Pending ->
  exists s' lines,
    run h (map EvData chunks) s = Some s'
    /\ receivedBytes s'.2 = (receivedBytes s.2 + fold_right N.add 0 chunks)%N
    /\ trace s'.1 = trace s.1 ++ map AppendLine lines
    /\ length lines <= length chunks
    /\ (totalBytes s.2 = None \/ totalBytes s.2 = Some 0%Z -> lines = []).
Proof.
  revert s. induction chunks as [|n chunks IH]; intros s Hd Hpkg; cbn [map run fold_right].
  - exists s, []. rewrite N.add_0_r, app_nil_r. cbn. auto.
  - destruct (data_counts h n s Hd Hpkg)
      as (s1 & -> & Hd1 & Hpkg1 & Ht1 & Hr1 & lines1 & Htrace1 & Hlen1 & Hnone1).
    destruct (IH s1 Hd1 Hpkg1) as (s' & lines & Hrun & Hr & Htrace & Hlen & Hnone).
    exists s', (lines1 ++ lines). split; [exact Hrun|].
    split; [rewrite Hr, Hr1; lia|].
    split; [rewrite Htrace, Htrace1, map_app, app_assoc; reflexivity|].
    split; [rewrite length_app; cbn; lia|].
    intros Hunknown. rewrite (Hnone1 Hunknown). rewrite Ht1 in Hnone.
    rewrite (Hnone Hunknown). reflexivity.
Qed.

(** Three chunks of a response without content length. *)
Lemma chunks_are_counted_witness :
  exists s,
    run linux_host [EvOpen (error "ENOENT" "no such file") 0; EvOperation; EvMkdirs null;
                    EvResponse 200 "OK" None]
      (startInstallProcess linux_host false None fresh_linux_installer) = Some s
    /\ exists s',
         run linux_host (map EvData [4%N; 5%N; 6%N]) s = Some s'
         /\ receivedBytes s'.2 = 15%N
         /\ trace s'.1 = trace s.1.
Proof.
  eexists. split; [vm_compute; reflexivity|].
  match goal with |- exists s', run _ _ ?s = _ /\ _ =>
    destruct (chunks_are_counted linux_host [4%N; 5%N; 6%N] s)
      as (s' & lines & Hrun & Hr & Htrace & _ & Hnone)
  end.
  - reflexivity.
  - reflexivity.
  - exists s'. split; [exact Hrun|]. split; [rewrite Hr; reflexivity|].
    rewrite Htrace, Hnone by (left; reflexivity). apply app_nil_r.
Defined.

(** The threshold is a sum of doubles: three tenths of the archive do not
    reach the third threshold, [0.1 + 0.1 + 0.1], and one tenth reaches the
    first. *)
Example progress_thresholds :
  reached linux_host 1 10 0 = true
  /\ reached linux_host 2 10 1 = true
  /\ reached linux_host 3 10 2 = false
  /\ reached linux_host 4 10 2 = true
  /\ reached linux_host 3 (-10) 0 = false.
Proof. repeat split; vm_compute; reflexivity. Qed.

(** ** The callbacks of a worker *)

Module Wiring.
Import WorkerFactory.

Lemma wiring_set_worker (w : nat) (ww ww' : WebWorker) (r : realm) :
  workers r !! w = Some ww ->
  wiring w (set_worker w ww' r)
  = Some (listening ww', onMessageCallback ww', onErrorCallback ww', creator ww').
Proof.
  intros Hw. unfold wiring. cbn.
  rewrite list_lookup_insert_eq by (eapply lookup_lt_Some; exact Hw). reflexivity.
Qed.

Lemma react_wiring (w : nat) (k : reaction) (r : realm) :
  wiring w (react w k r) = listen (sets_listeners k) <$> wiring w r.
Proof.
  destruct k; cbn.
  - unfold wiring. cbn. destruct (workers r !! w) as [ww|]; cbn; [|reflexivity].
    unfold listen. cbn. rewrite orb_false_r. reflexivity.
  - destruct (workers r !! w) as [ww|] eqn:Hw.
    + rewrite (wiring_set_worker w ww _ r Hw). unfold wiring. rewrite Hw. cbn.
      unfold listen. cbn. rewrite orb_true_r. reflexivity.
    + unfold wiring. rewrite Hw. reflexivity.
  - unfold wiring. cbn. destruct (workers r !! w) as [ww|]; cbn; [|reflexivity].
    unfold listen. cbn. rewrite orb_false_r. reflexivity.
Qed.

Lemma reactions_wiring (w : nat) (q : list reaction) (r : realm) :
  wiring w (fold_left (fun r k => react w k r) q r)
  = listen (existsb sets_listeners q) <$> wiring w r.
Proof.
  revert r. induction q as [|k q IH]; intros r; cbn [fold_left existsb].
  - destruct (wiring w r) as [[[[l m] e] c]|]; cbn; [|reflexivity].
    unfold listen. cbn. rewrite orb_false_r. reflexivity.
  - rewrite IH, react_wiring.
    destruct (wiring w r) as [[[[l m] e] c]|]; cbn; [|reflexivity].
    unfold listen. cbn. rewrite orb_assoc. reflexivity.
Qed.

Lemma then_wiring (w : nat) (ww : WebWorker) (k : reaction) (r : realm) :
  workers r !! w = Some ww -> sets_listeners k = false ->
  wiring w (then_ w ww k r) = wiring w r.
Proof.
  intros Hw Hk. unfold then_. destruct (fulfilled ww).
  - rewrite react_wiring, Hk. destruct (wiring w r) as [[[[l m] e] c]|]; cbn; [|reflexivity].
    unfold listen. cbn. rewrite orb_false_r. reflexivity.
  - rewrite (wiring_set_worker w ww _ r Hw). unfold wiring. rewrite Hw. reflexivity.
Qed.

Lemma post_wiring (w : nat) (msg : string) (r r' : realm) :
  postMessage w msg r = Some r' -> wiring w r' = wiring w r.
Proof.
  unfold postMessage. destruct (workers r !! w) as [ww|] eqn:Hw; [|discriminate]. cbn.
  destruct (worker ww); intros [= <-]; [|reflexivity].
  apply then_wiring; [exact Hw | reflexivity].
Qed.

Lemma posts_wiring (w : nat) (msgs : list string) (r : realm) :
  wiring w (run (map (Post w) msgs) r) = wiring w r.
Proof.
  revert r. induction msgs as [|msg msgs IH]; intros r; cbn [map run exec]; [reflexivity|].
  destruct (postMessage w msg r) as [r'|] eqn:Hpost; cbn [default from_option id].
  - rewrite IH. eapply post_wiring. exact Hpost.
  - apply IH.
Qed.

Lemma create_wiring (g : Globals) (f : nat) (moduleId : string) (onM onE : N)
    (host : outcome handle) (r r' : realm) (w : nat) :
  create g f moduleId onM onE host r = Some (r', Returned w) ->
  wiring w r' = Some (false, onM, onE, f).
Proof.
  unfold create. destruct (factories r !! f) as [fac|]; [|discriminate]. cbn.
  destruct (truthy (_webWorkerFailedBeforeError fac)); [discriminate|].
  destruct (answer _ host) as [hd|e]; [|discriminate].
  intros [= <- <-]. unfold wiring. cbn. rewrite lookup_app_r by reflexivity.
  rewrite Nat.sub_diag. reflexivity.
Qed.

Lemma wiring_lookup (w : nat) (r : realm) (l : bool) (m e : N) (c : nat) :
  wiring w r = Some (l, m, e, c) ->
  exists ww, workers r !! w = Some ww /\ listening ww = l
             /\ onMessageCallback ww = m /\ onErrorCallback ww = e /\ creator ww = c.
Proof.
  unfold wiring. destruct (workers r !! w) as [ww|]; [|discriminate].
  cbn. intros [= <- <- <- <-]. eauto 10.
Qed.

End Wiring.

(** X18. The callbacks given to [create] are wired when the host worker
    is ready, not before: until the worker promise is fulfilled no message
    or error event reaches the caller, whatever was posted meanwhile; once
    it is fulfilled, a message event calls [onMessageCallback] with the
    event's data and nothing else, and an error event logs the warning and
    then calls [onErrorCallback] with the error. *)
Theorem callbacks_wired_when_ready (g : WorkerFactory.Globals) (f : nat)
    (moduleId : string) (onMessageCallback onErrorCallback : N)
    (host : WorkerFactory.outcome WorkerFactory.handle) (r r' : WorkerFactory.realm)
    (w : nat) (posted : list string) :
  WorkerFactory.create g f moduleId onMessageCallback onErrorCallback host r
  = Some (r', WorkerFactory.Returned w) ->
  let waiting := WorkerFactory.run (map (WorkerFactory.Post w) posted) r' in
  (forall data, WorkerFactory.on_message w data waiting = None)
  /\ (forall err, WorkerFactory.on_error w err waiting = None)
  /\ exists ready,
       WorkerFactory.fulfil w waiting = Some ready
       /\ (forall data,
             WorkerFactory.on_message w data ready
             = Some (WorkerFactory.emit
                       (WorkerFactory.CallOnMessage onMessageCallback data) ready))
       /\ (forall err,
             exists failed,
               WorkerFactory.on_error w err ready = Some failed
               /\ WorkerFactory.effects failed
                  = WorkerFactory.effects ready
                    ++ [WorkerFactory.LogOnceWebWorkerWarning err;
                        WorkerFactory.CallOnError onErrorCallback err]).
Proof.
  intros Hcreate waiting.
  pose proof (Wiring.create_wiring g f moduleId _ _ host r r' w Hcreate) as Hwire.
  destruct (Delivery.create_view g f moduleId _ _ host r r' w Hcreate) as [Hv _].
  destruct (Delivery.run_posts_pending w posted _ r' Hv) as [Hv1 _].
  assert (Hwaiting : WorkerFactory.wiring w waiting
                     = Some (false, onMessageCallback, onErrorCallback, f)).
  { unfold waiting. rewrite Wiring.posts_wiring. exact Hwire. }
  destruct (Wiring.wiring_lookup w waiting _ _ _ _ Hwaiting)
    as (ww & Hw & Hl & Hm & He & Hc).
  split; [|split].
  - intros data. unfold WorkerFactory.on_message. rewrite Hw. cbn. rewrite Hl. reflexivity.
  - intros err. unfold WorkerFactory.on_error. rewrite Hw. cbn. rewrite Hl. reflexivity.
  - destruct (Delivery.fulfil_pending w true _ waiting Hv1) as (ready & Hful & _ & _).
    exists ready. split; [exact Hful|].
    assert (Hready : WorkerFactory.wiring w ready
                     = Some (true, onMessageCallback, onErrorCallback, f)).
    { revert Hful. unfold WorkerFactory.fulfil. rewrite Hw. cbn.
      destruct (WorkerFactory.fulfilled ww); [discriminate|]. intros [= <-].
      rewrite Wiring.reactions_wiring, (Wiring.wiring_set_worker w ww _ waiting Hw).
      cbn. rewrite Hl, Hm, He, Hc.
      destruct (Delivery.view_lookup w waiting _ _ _ Hv1) as (ww' & Hw' & _ & _ & Hq).
      rewrite Hw in Hw'. injection Hw' as <-. rewrite Hq.
      unfold WorkerFactory.listen. cbn. reflexivity. }
    destruct (Wiring.wiring_lookup w ready _ _ _ _ Hready)
      as (wr & Hwr & Hlr & Hmr & Her & Hcr).
    split.
    + intros data. unfold WorkerFactory.on_message. rewrite Hwr. cbn.
      rewrite Hlr, Hmr. reflexivity.
    + intros err. unfold WorkerFactory.on_error. rewrite Hwr. cbn. rewrite Hlr, Her.
      eexists. split; [reflexivity|]. cbn. rewrite <- app_assoc. reflexivity.
Qed.

(** A message event before and after the worker is ready. *)
Lemma callbacks_wired_when_ready_witness :
  exists r' ready,
    WorkerFactory.on_message 0 (str "pong") r' = None
    /\ WorkerFactory.fulfil 0 r' = Some ready
    /\ WorkerFactory.effects
         (default ready (WorkerFactory.on_message 0 (str "pong") ready))
       = [WorkerFactory.PostMessage 0 "main";
          WorkerFactory.CallOnMessage 1 (str "pong")].
Proof.
  eexists.
  match goal with |- exists ready, WorkerFactory.on_message _ _ ?r' = _ /\ _ =>
    destruct (callbacks_wired_when_ready WorkerFactory.hooked 0 "main" 1 2
                (WorkerFactory.Returned (WorkerFactory.AWorker 7))
                (WorkerFactory.new_factory None WorkerFactory.initial) r' 0 [])
      as (Hbefore & _ & ready & Hful & Hmsg & _)
  end.
  - vm_compute. reflexivity.
  - exists ready. split; [apply Hbefore|]. split; [exact Hful|].
    rewrite Hmsg. cbn [default from_option id WorkerFactory.emit WorkerFactory.effects].
    vm_compute in Hful. injection Hful as <-. reflexivity.
Defined.

(** ** A failure does not stop the download *)

Lemma mkdirs_failure (h : Host) (dir : string) (err : any) (s : state) :
  under_way AwaitPackage Pending MakingDir dir s ->
  truthy err = true ->
  let message := msgDependenciesInstallationFailed (getErrorMessage h err) in
  exists s',
    step h (EvMkdirs err) s = Some s'
    /\ outcome s'.2 = Rejected (str message)
    /\ _installInProgress (this s'.1) = false
    /\ download s'.2 = Streaming
    /\ trace s'.1
       = trace s.1
         ++ [UpdateStatus InProgress msgPythonDirectoryError;
             RequestGet (pythonDownloadUrl h) 20000;
             CreateWriteStream (pythonPackagePathLocal s.2);
             UpdateStatus Failed message;
             ShowErrorMessage message].
Proof.
  intros (Hat & Hret & Hready & Hpkg & Hd & Hdir & Hflag) Herr message.
  unfold step. cbv zeta. rewrite Hd. eexists. split; [reflexivity|].
  unfold on_mkdirs. rewrite Herr. cbv zeta. unfold settle_package.
  cbn [fst snd say reject_package at_ package with_download with_progress with_package].
  rewrite Hat, Hpkg. cbn [reject]. unfold fail, outcome. cbn.
  rewrite Hret, Hready. cbn. rewrite <- !app_assoc. auto.
Qed.

(** X19. A directory that cannot be made fails the installation and yet
    the download goes ahead: when [fs.mkdirs] reports an error, the promise
    is rejected with the failure message of that error and the guard is
    cleared, but the request is sent and the write stream opened all the
    same, before the failure is reported, and the call goes on listening to
    the stream. *)
Theorem mkdirs_failure_still_downloads (h : Host) (w : world) (forceInstall : bool)
    (installationPath : option string) (err : any) (fd : Z) (mkdirsError : any) :
  let target :=
    match installationPath with
    | Some p => if truthy_str (Some p) then p else _pythonInstallationPath (this w)
    | None => _pythonInstallationPath (this w)
    end in
  let message := msgDependenciesInstallationFailed (getErrorMessage h mkdirsError) in
  isPythonRunning err = false ->
  _installInProgress (this w) = false ->
  forceInstall = true \/ getPythonExePath h target ∉ files w ->
  truthy mkdirsError = true ->
  exists s before,
    run h [EvOpen err fd; EvOperation; EvMkdirs mkdirsError]
      (startInstallProcess h forceInstall installationPath w) = Some s
    /\ outcome s.2 = Rejected (str message)
    /\ _installInProgress (this s.1) = false
    /\ download s.2 = Streaming
    /\ trace s.1
       = before
         ++ [UpdateStatus InProgress msgPythonDirectoryError;
             RequestGet (pythonDownloadUrl h) 20000;
             CreateWriteStream (target +:+ "/" +:+ packageName h);
             UpdateStatus Failed message;
             ShowErrorMessage message].
Proof.
  intros target message Hrun Hflag Hneed Herr.
  destruct (open_starts_task h w forceInstall installationPath err fd Hrun Hflag Hneed)
    as (s1 & Hstep1 & Hs1 & Hmust). fold target in Hs1.
  assert (Hop : exists s2,
             step h EvOperation s1 = Some s2
             /\ under_way AwaitPackage Pending MakingDir target s2
             /\ pythonPackagePathLocal s2.2 = target +:+ "/" +:+ packageName h).
  { destruct Hs1 as (Hat & Hret & Hready & _ & _ & Hdir & Hg).
    unfold step. cbv zeta. rewrite Hat. eexists. split; [reflexivity|].
    unfold installDependencies. rewrite Hmust.
    rewrite settle_pending by reflexivity.
    unfold under_way, installPythonPackage. cbn. rewrite Hdir. auto 10. }
  destruct Hop as (s2 & Hstep2 & Hs2 & Hzip).
  destruct (mkdirs_failure h target mkdirsError s2 Hs2 Herr)
    as (s3 & Hstep3 & Hout & Hg & Hd & Htrace).
  exists s3, (trace s2.1). cbn [run]. rewrite Hstep1, Hstep2, Hstep3.
  rewrite <- Hzip. auto.
Qed.

(** The installation directory cannot be made. *)
Lemma mkdirs_failure_still_downloads_witness :
  exists s,
    run linux_host [EvOpen (error "ENOENT" "no such file") 0; EvOperation;
                    EvMkdirs (error "EACCES" "permission denied")]
      (startInstallProcess linux_host false None fresh_linux_installer) = Some s
    /\ outcome s.2
       = Rejected (str "Installing Notebook dependencies failed with error: permission denied")
    /\ download s.2 = Streaming.
Proof.
  destruct (mkdirs_failure_still_downloads linux_host fresh_linux_installer false None
              (error "ENOENT" "no such file") 0 (error "EACCES" "permission denied"))
    as (s & before & Hs & Hout & _ & Hd & _).
  - reflexivity.
  - reflexivity.
  - right. vm_compute. discriminate.
  - reflexivity.
  - exists s. auto.
Defined.

(** X20. A stale copy that cannot be removed fails the installation and
    yet the archive is unpacked over it: when the stream closes, the bundle
    directory exists and [fs.removeSync] throws, the promise is rejected
    with the failure message of that error and the guard is cleared, but
    [decompress] is called all the same, before the failure is reported. *)
Theorem stale_copy_failure_still_unpacks (h : Host) (dir : string) (err : any)
    (s : state) :
  let message := msgDependenciesInstallationFailed (getErrorMessage h err) in
  under_way AwaitPackage Pending Streaming dir s ->
  Path.join (path h) [dir; pythonBundleVersion h] ∈ files s.1 ->
  exists s',
    step h (EvClose (Some err)) s = Some s'
    /\ outcome s'.2 = Rejected (str message)
    /\ _installInProgress (this s'.1) = false
    /\ download s'.2 = Unpacking
    /\ trace s'.1
       = trace s.1
         ++ [AppendLine msgPythonUnpackPending;
             RemoveSync (Path.join (path h) [dir; pythonBundleVersion h]);
             UpdateStatus InProgress msgPythonUnpackError;
             Decompress (pythonPackagePathLocal s.2) dir;
             UpdateStatus Failed message;
             ShowErrorMessage message].
Proof.
  intros message (Hat & Hret & Hready & Hpkg & Hd & Hdir & Hflag) Hstale.
  unfold step. cbv zeta. rewrite Hd. eexists. split; [reflexivity|].
  unfold on_close. cbv zeta. cbn [fst snd say this emit]. rewrite Hdir.
  unfold existsSync. cbn [files emit]. rewrite bool_decide_eq_true_2 by exact Hstale.
  unfold settle_package.
  cbn [fst snd say reject_package at_ package with_download with_progress with_package].
  rewrite Hat, Hpkg. cbn [reject]. unfold fail, outcome. cbn.
  rewrite Hret, Hready. cbn. rewrite <- !app_assoc. auto.
Qed.

(** A forced reinstallation over a bundle directory that is in use. *)
Lemma stale_copy_failure_still_unpacks_witness :
  exists s,
    run linux_host [EvOpen null 3; EvOperation; EvMkdirs null; EvResponse 200 "OK" None]
      (startInstallProcess linux_host true None
         (with_files {["/home/u/py/0.0.1"; "/home/u/py/0.0.1/bin/python3"]}
            fresh_linux_installer)) = Some s
    /\ exists s',
         step linux_host (EvClose (Some (error "EBUSY" "resource busy"))) s = Some s'
         /\ outcome s'.2
            = Rejected (str "Installing Notebook dependencies failed with error: resource busy")
         /\ download s'.2 = Unpacking.
Proof.
  eexists. split; [vm_compute; reflexivity|].
  match goal with |- exists s', step _ _ ?s = _ /\ _ =>
    destruct (stale_copy_failure_still_unpacks linux_host "/home/u/py"
                (error "EBUSY" "resource busy") s)
      as (s' & Hstep & Hout & _ & Hd & _)
  end.
  - vm_compute. auto 10.
  - vm_compute. reflexivity.
  - exists s'. auto.
Defined.
